(** * creative-ai-suite-v2: the text-engine generation layer

    A shallow embedding of
    - [services/text-engine/src/services/openai.service.js]
      (retry engine, error mapping, response cache policy), and
    - the text-generation controller (parameter resolution, backend
      selection, batch coordination),
    followed by the properties the specification states about them.

    Conventions.  A JavaScript string is the byte string ([string]) of its
    generalised UTF-8: well-formed text is its UTF-8, and an unpaired
    surrogate (U+D800 to U+DFFF) is the three bytes ED, A0 to BF, 80 to BF
    that UTF-8 itself never uses.  The sources join variable strings only
    with literal text between them, where joining the bytes is joining the
    strings.
    [Buffer.from(s)] is the UTF-8 of [s], in which every unpaired surrogate
    has become U+FFFD ([Encoding.utf8]).  Integers are [Z].  Other JavaScript numbers (temperature and
    the sampling knobs) are kept abstract: the code only passes them on,
    prints them into the cache key and tests their truthiness, so they are
    a type [Number] with exactly these operations.  Promises are modelled
    by the way they settle.  Calls of the logger are left out: it is only
    written to. *)

From Stdlib Require Import ZArith QArith Qminmax String Ascii List Lia Bool.
From Stdlib Require Import DecimalString DecimalPos DecimalZ DecimalFacts.
From stdpp Require Import base option gmap strings list.

Import ListNotations.
Local Open Scope string_scope.
Local Open Scope Z_scope.

(* ===================================================================== *)
(** ** JavaScript values used by the service *)
(* ===================================================================== *)

Module Js.

(** [s.includes(sub)] *)
Fixpoint includes (sub s : string) : bool :=
  String.prefix sub s ||
  match s with
  | EmptyString => false
  | String _ s' => includes sub s'
  end.

(** [x === 'lit'] for a property that may be absent. *)
Definition is_str (x : option string) (lit : string) : bool :=
  match x with
  | Some s => String.eqb s lit
  | None => false
  end.

(** Truthiness of an optional string: [undefined] and [''] are falsy. *)
Definition truthy_str (x : option string) : bool :=
  match x with
  | Some s => negb (String.eqb s "")
  | None => false
  end.

(** [[a, b, ...].includes(n)] on integers. *)
Definition includesZ (l : list Z) (n : Z) : bool :=
  existsb (Z.eqb n) l.

End Js.

(* ===================================================================== *)
(** ** Errors *)
(* ===================================================================== *)

(** The members of [ERROR_CODES] ([utils/errorCodes]) the sources mention.
    Only the names are used; the module itself is not part of the sources
    at hand. *)
Inductive ErrorCode : Type :=
| CONTEXT_LENGTH_EXCEEDED
| UNAUTHORIZED
| FORBIDDEN
| RESOURCE_NOT_FOUND
| RATE_LIMIT_EXCEEDED
| VALIDATION_ERROR
| TOO_MANY_REQUESTS
| MODEL_UNAVAILABLE.

(** [error.response.data.error] *)
Record ApiErrorBody : Type := mkApiErrorBody {
  body_code : option string
}.

(** [error.response.data] *)
Record ResponseBody : Type := mkResponseBody {
  body_error : option ApiErrorBody
}.

(** [error.response]; [resp_data = None] is a response without a body
    ([data] undefined). *)
Record HttpResponse : Type := mkHttpResponse {
  resp_status : Z;
  resp_data : option ResponseBody
}.

(** A JavaScript [Error] object with the properties the service reads or
    writes. *)
Record JsError : Type := mkJsError {
  message : string;
  code : option string;
  response : option HttpResponse;
  errorCode : option ErrorCode
}.

(** [new Error(msg)] *)
Definition newError (msg : string) : JsError :=
  {| message := msg; code := None; response := None; errorCode := None |}.

(** The [TypeError] raised by a property read on [undefined]. *)
Definition typeError (prop : string) : JsError :=
  newError ("Cannot read properties of undefined (reading '" +:+ prop +:+ "')").

(** How an awaited promise settles. *)
Inductive Settled (A : Type) : Type :=
| Fulfilled (v : A)
| Rejected (e : JsError).
Arguments Fulfilled {A} v.
Arguments Rejected {A} e.

(** Result of evaluating an expression: a value, or an exception. *)
Inductive Completion (A : Type) : Type :=
| Returned (a : A)
| Thrown (e : JsError).
Arguments Returned {A} a.
Arguments Thrown {A} e.

(** [isRetryableError(error)] *)
Definition isRetryableError (error : JsError) : bool :=
  if Js.includes "timed out" (message error) || Js.is_str (code error) "ETIMEDOUT"
  then true
  else
    match response error with
    | Some resp => Js.includesZ [429; 500; 502; 503; 504] (resp_status resp)
    | None =>
        Js.is_str (code error) "ECONNRESET" ||
        Js.is_str (code error) "ECONNREFUSED" ||
        Js.is_str (code error) "ENOTFOUND"
    end.

(** [Object.assign(new Error(msg), { errorCode })] *)
Definition errorWithCode (msg : string) (ec : ErrorCode) : JsError :=
  {| message := msg; code := None; response := None; errorCode := Some ec |}.

(** [data.error?.code === 'context_length_exceeded'], for [data] present. *)
Definition isContextLength (data : ResponseBody) : bool :=
  match body_error data with
  | Some b => Js.is_str (body_code b) "context_length_exceeded"
  | None => false
  end.

(** [mapToServiceError(error)].  [None] is the [null] the retry engine holds
    before any attempt failed. *)
Definition mapToServiceError (error : option JsError) : Completion JsError :=
  match error with
  | None => Returned (newError "Unknown error occurred")
  | Some error =>
      match response error with
      | Some resp =>
          if resp_status resp =? 400 then
            match resp_data resp with
            | None => Thrown (typeError "error")
            | Some data =>
                if isContextLength data then
                  Returned
                    {| message := "Prompt exceeds maximum context length for the model";
                       code := Some "context_length_exceeded";
                       response := None;
                       errorCode := Some CONTEXT_LENGTH_EXCEEDED |}
                else Returned error
            end
          else if resp_status resp =? 401 then
            Returned (errorWithCode "Invalid API key" UNAUTHORIZED)
          else if resp_status resp =? 403 then
            Returned (errorWithCode "Permission denied" FORBIDDEN)
          else if resp_status resp =? 404 then
            Returned (errorWithCode "Requested resource not found" RESOURCE_NOT_FOUND)
          else if resp_status resp =? 429 then
            Returned (errorWithCode "Rate limit exceeded" RATE_LIMIT_EXCEEDED)
          else Returned error
      | None => Returned error
      end
  end.

(** The error a caller of [throw mapToServiceError(e)] observes. *)
Definition thrownBy (c : Completion JsError) : JsError :=
  match c with
  | Returned e => e
  | Thrown e => e
  end.

(* ===================================================================== *)
(** ** Retry engine *)
(* ===================================================================== *)

Record Config : Type := mkConfig {
  maxRetries : Z;
  retryDelay : Z;
  timeout : Z
}.

Definition DEFAULT_CONFIG : Config :=
  {| maxRetries := 2; retryDelay := 1000; timeout := 30000 |}.

(** The [options] argument of [executeWithRetry]: any subset of the
    configuration. *)
Record RetryOptions : Type := mkRetryOptions {
  opt_maxRetries : option Z;
  opt_retryDelay : option Z;
  opt_timeout : option Z
}.

Definition noOptions : RetryOptions :=
  {| opt_maxRetries := None; opt_retryDelay := None; opt_timeout := None |}.

(** [{ ...DEFAULT_CONFIG, ...options }] *)
Definition mergeConfig (options : RetryOptions) : Config :=
  {| maxRetries := default (maxRetries DEFAULT_CONFIG) (opt_maxRetries options);
     retryDelay := default (retryDelay DEFAULT_CONFIG) (opt_retryDelay options);
     timeout := default (timeout DEFAULT_CONFIG) (opt_timeout options) |}.

(** [calculateBackoff(attempt, baseDelay)], in milliseconds.  [rnd] is the
    value [Math.random()] returns in this call.  The arithmetic is exact;
    the doubles of the code differ from it by rounding, and where the
    power overflows ([attempt] from 1024 on) they give 30000 for a positive
    [baseDelay], as here, but [NaN] for a [baseDelay] of 0. *)
Definition calculateBackoff (attempt baseDelay : Z) (rnd : Q) : Q :=
  Qmin (inject_Z (2 ^ attempt * baseDelay) + rnd * 300)%Q 30000%Q.

(** What one call of the wrapped operation does while the timer of
    [config.timeout] milliseconds runs: it settles in time, or it is still
    pending when the timer fires. *)
Inductive Raced (A : Type) : Type :=
| InTime (s : Settled A)
| StillPending.
Arguments InTime {A} s.
Arguments StillPending {A}.

(** [await Promise.race([operation(), timeoutPromise])] *)
Definition race {A : Type} (o : Raced A) : Settled A :=
  match o with
  | InTime s => s
  | StillPending => Rejected (newError "Request timed out")
  end.

(** One invocation of the engine, as observed from outside: how the
    returned promise settles, how every attempt ended (in order), the
    back-off sleeps taken (in order) and the state the wrapped operation
    left behind. *)
Record Run (A W : Type) : Type := mkRun {
  outcome : Settled A;
  attempts : list (Settled A);
  sleeps : list Q;
  world : W
}.
Arguments mkRun {A W}.
Arguments outcome {A W}.
Arguments attempts {A W}.
Arguments sleeps {A W}.
Arguments world {A W}.

Section RetryEngine.

(** The engine is generic in the wrapped operation: [operation] acts on a
    state [W] of its own (the backend, the network) and is called once per
    attempt. *)
Context {A W : Type}.
Variable operation : W -> Raced A * W.
(** [random attempt]: the value of [Math.random()] in the back-off after
    the given attempt. *)
Variable random : Z -> Q.
Variable config : Config.

(** The number of loop tests that pass when the counter starts at
    [attempt]. *)
Definition testsLeft (attempt : Z) : nat :=
  Z.to_nat (maxRetries config + 1 - attempt).

(** The code after the loop: [throw mapToServiceError(lastError)]. *)
Definition giveUp (lastError : option JsError) (w : W) : Run A W :=
  {| outcome := Rejected (thrownBy (mapToServiceError lastError));
     attempts := []; sleeps := []; world := w |}.

(** Prefix a run with an attempt that ended in [a]. *)
Definition afterAttempt (a : Settled A) (r : Run A W) : Run A W :=
  {| outcome := outcome r; attempts := a :: attempts r;
     sleeps := sleeps r; world := world r |}.

(** Prefix a run with a sleep of [d] milliseconds. *)
Definition afterSleep (d : Q) (r : Run A W) : Run A W :=
  {| outcome := outcome r; attempts := attempts r;
     sleeps := d :: sleeps r; world := world r |}.

(** The [for (let attempt = ...; attempt <= config.maxRetries; attempt++)]
    loop, entered with the given value of [attempt]; [fuel] bounds the
    number of loop tests and [None] means that it ran out. *)
Fixpoint retryLoop (fuel : nat) (attempt : Z) (lastError : option JsError)
    (w : W) : option (Run A W) :=
  match fuel with
  | O => None
  | S fuel' =>
      if attempt <=? maxRetries config then
        let '(o, w') := operation w in
        match race o with
        | Fulfilled result =>
            Some (afterAttempt (Fulfilled result)
                    {| outcome := Fulfilled result;
                       attempts := []; sleeps := []; world := w' |})
        | Rejected error =>
            if negb (isRetryableError error) || (attempt =? maxRetries config)
            then Some (afterAttempt (Rejected error) (giveUp (Some error) w'))
            else
              let delay := calculateBackoff attempt (retryDelay config)
                             (random attempt) in
              afterAttempt (Rejected error) <$>
                (afterSleep delay <$>
                   retryLoop fuel' (attempt + 1) (Some error) w')
        end
      else Some (giveUp lastError w)
  end.

End RetryEngine.

(** [executeWithRetry(operation, options)] *)
Definition executeWithRetry {A W : Type} (operation : W -> Raced A * W)
    (random : Z -> Q) (options : RetryOptions) (w : W) : option (Run A W) :=
  let config := mergeConfig options in
  retryLoop operation random config
    (S (Z.to_nat (maxRetries config + 1))) 0 None w.

(* ===================================================================== *)
(** ** Text encodings *)
(* ===================================================================== *)

Module Encoding.

(** Template-literal conversion of an integer, [`${n}`]: decimal digits
    with a leading minus sign for negative values, as JavaScript writes
    the integers below 10^21 in absolute value. *)
Definition showZ (n : Z) : string :=
  NilZero.string_of_int (Z.to_int n).

Definition b64alphabet : string :=
  "ABCDEFGHIJKLMNOPQRSTUVWXYZabcdefghijklmnopqrstuvwxyz0123456789+/".

(** The base64 digit of a six-bit value. *)
Definition b64char (n : N) : ascii :=
  default "="%char (String.get (N.to_nat n) b64alphabet).

(** RFC 4648 base64 with padding, three bytes at a time. *)
Fixpoint base64_bytes (l : list ascii) : string :=
  match l with
  | [] => ""
  | [a] =>
      let x := N_of_ascii a in
      String (b64char (x / 4))
        (String (b64char (x mod 4 * 16)) "==")
  | [a; b] =>
      let x := N_of_ascii a in
      let y := N_of_ascii b in
      String (b64char (x / 4))
        (String (b64char (x mod 4 * 16 + y / 16))
           (String (b64char (y mod 16 * 4)) "="))
  | a :: b :: c :: rest =>
      let x := N_of_ascii a in
      let y := N_of_ascii b in
      let z := N_of_ascii c in
      String (b64char (x / 4))
        (String (b64char (x mod 4 * 16 + y / 16))
           (String (b64char (y mod 16 * 4 + z / 64))
              (String (b64char (z mod 64)) (base64_bytes rest))))
  end%N.

(** The first two bytes of an unpaired surrogate: ED, then A0 to BF. *)
Definition surrogateLead (c1 c2 : ascii) : bool :=
  ((N_of_ascii c1 =? 237) && (160 <=? N_of_ascii c2))%N.

(** The bytes of [Buffer.from(s)]: the UTF-8 of [s], with U+FFFD (EF BF BD)
    in the place of every unpaired surrogate. *)
Fixpoint utf8 (s : string) : string :=
  match s with
  | EmptyString => EmptyString
  | String c1 s1 =>
      match s1 with
      | String c2 (String _ rest) =>
          if surrogateLead c1 c2 then
            String (ascii_of_N 239)
              (String (ascii_of_N 191) (String (ascii_of_N 189) (utf8 rest)))
          else String c1 (utf8 s1)
      | _ => String c1 (utf8 s1)
      end
  end.

(** Well-formed text: a string without unpaired surrogates. *)
Fixpoint wellFormed (s : string) : bool :=
  match s with
  | EmptyString => true
  | String c1 s1 =>
      match s1 with
      | String c2 _ => negb (surrogateLead c1 c2) && wellFormed s1
      | EmptyString => true
      end
  end.

(** [Buffer.from(s).toString('base64')] *)
Definition base64 (s : string) : string :=
  base64_bytes (list_ascii_of_string (utf8 s)).

(** One lower-case hexadecimal digit. *)
Definition hexDigit (n : N) : ascii :=
  default "0"%char (String.get (N.to_nat n) "0123456789abcdef").

(** The double-quote character. *)
Definition dquote : ascii := ascii_of_N 34.

(** The escape [JSON.stringify] writes for one character of a string. *)
Definition jsonEscape (c : ascii) : string :=
  let n := N_of_ascii c in
  if (n =? 34)%N then String "\"%char (String dquote EmptyString)
  else if (n =? 92)%N then "\\"
  else if (n =? 8)%N then "\b"
  else if (n =? 12)%N then "\f"
  else if (n =? 10)%N then "\n"
  else if (n =? 13)%N then "\r"
  else if (n =? 9)%N then "\t"
  else if (n <? 32)%N then
    "\u00" +:+ String (hexDigit (n / 16)) (String (hexDigit (n mod 16)) "")
  else String c "".

(** The escape [JSON.stringify] writes for the unpaired surrogate whose
    second and third byte are [c2] and [c3]: its code unit, [\udxxx]. *)
Definition surrogateEscape (c2 c3 : ascii) : string :=
  let unit := ((N_of_ascii c2 - 128) * 64 + (N_of_ascii c3 - 128))%N in
  "\ud" +:+
  String (hexDigit (unit / 256))
    (String (hexDigit (unit / 16 mod 16)) (String (hexDigit (unit mod 16)) "")).

Fixpoint jsonEscapeAll (s : string) : string :=
  match s with
  | EmptyString => ""
  | String c1 s1 =>
      match s1 with
      | String c2 (String c3 rest) =>
          if surrogateLead c1 c2 then
            surrogateEscape c2 c3 +:+ jsonEscapeAll rest
          else jsonEscape c1 +:+ jsonEscapeAll s1
      | _ => jsonEscape c1 +:+ jsonEscapeAll s1
      end
  end.

(** [JSON.stringify(s)] for a string [s]. *)
Definition jsonString (s : string) : string :=
  String dquote (jsonEscapeAll s) +:+ String dquote EmptyString.

(** The position of the first [c] in [s] (its length when there is none). *)
Fixpoint indexOf (c : ascii) (s : string) : N :=
  match s with
  | EmptyString => 0%N
  | String d s' => if Ascii.eqb c d then 0%N else N.succ (indexOf c s')
  end.

(** The six-bit value of a base64 digit. *)
Definition b64index (c : ascii) : N := indexOf c b64alphabet.

(** The six-bit values. *)
Definition sextets : list N := List.map N.of_nat (seq 0 64).

(** The characters of a string. *)
Definition chars (s : string) : list ascii := list_ascii_of_string s.

(** A string without a colon, the separator of the cache key. *)
Definition colonFree (s : string) : Prop := ":"%char ∉ chars s.

(** A decimal digit or the minus sign. *)
Definition isNumeral (c : ascii) : bool :=
  let n := N_of_ascii c in
  ((48 <=? n) && (n <=? 57) || (n =? 45))%N.

End Encoding.

(* ===================================================================== *)
(** ** Numbers, requests and responses *)
(* ===================================================================== *)

(** The operations the sources apply to a JavaScript number that is not an
    integer count: printing in a template literal, the truthiness test of
    [x || d] and [x ? a : b], and the literals [0.7], [1] and [0]. *)
Class JsNumber (Number : Type) : Type := {
  numberToString : Number -> string;
  numberTruthy : Number -> bool;
  num_0_7 : Number;
  num_1 : Number;
  num_0 : Number
}.

(** [x || d] on an optional number. *)
Definition orNumber `{JsNumber Number} (x : option Number) (d : Number) : Number :=
  match x with
  | Some n => if numberTruthy n then n else d
  | None => d
  end.

(** [x || d] on an optional integer. *)
Definition orZ (x : option Z) (d : Z) : Z :=
  match x with
  | Some n => if n =? 0 then d else n
  | None => d
  end.

(** [x || d] on an optional string. *)
Definition orStr (x : option string) (d : string) : string :=
  match x with
  | Some s => if String.eqb s EmptyString then d else s
  | None => d
  end.

(** The argument of the service's [generateText]. *)
Record GenerateParams (Number : Type) : Type := mkGenerateParams {
  p_prompt : string;
  p_systemPrompt : option string;
  p_temperature : option Number;
  p_maxTokens : option Z;
  p_model : option string;
  p_userId : option string;
  p_useCaching : option bool;
  p_topP : option Number;
  p_frequencyPenalty : option Number;
  p_presencePenalty : option Number
}.
Arguments mkGenerateParams {Number}.
Arguments p_prompt {Number}.
Arguments p_systemPrompt {Number}.
Arguments p_temperature {Number}.
Arguments p_maxTokens {Number}.
Arguments p_model {Number}.
Arguments p_userId {Number}.
Arguments p_useCaching {Number}.
Arguments p_topP {Number}.
Arguments p_frequencyPenalty {Number}.
Arguments p_presencePenalty {Number}.

(** One entry of [messages]. *)
Record ChatMessage : Type := mkChatMessage {
  role : string;
  content : string
}.

(** The argument of [openai.chat.completions.create]. *)
Record ApiRequest (Number : Type) : Type := mkApiRequest {
  req_model : string;
  req_messages : list ChatMessage;
  req_temperature : Number;
  req_max_tokens : Z;
  req_top_p : Number;
  req_frequency_penalty : Number;
  req_presence_penalty : Number;
  req_user : string
}.
Arguments mkApiRequest {Number}.

Record ApiUsage : Type := mkApiUsage {
  prompt_tokens : Z;
  completion_tokens : Z;
  total_tokens : Z
}.

(** What [openai.chat.completions.create] resolves to; each choice is given
    by its [message.content]. *)
Record ApiResponse : Type := mkApiResponse {
  choices : list string;
  api_usage : option ApiUsage;
  api_model : string
}.

Record Usage : Type := mkUsage {
  promptTokens : Z;
  completionTokens : Z;
  totalTokens : Z
}.

(** [responseData], the value [generateText] resolves to. *)
Record ResponseData : Type := mkResponseData {
  text : string;
  usage : Usage;
  model : string
}.

(** [JSON.stringify(responseData)]: the properties in insertion order. *)
Definition JSON_stringify (r : ResponseData) : string :=
  "{" +:+ Encoding.jsonString "text" +:+ ":" +:+ Encoding.jsonString (text r) +:+
  "," +:+ Encoding.jsonString "usage" +:+ ":{" +:+
     Encoding.jsonString "promptTokens" +:+ ":" +:+
       Encoding.showZ (promptTokens (usage r)) +:+
     "," +:+ Encoding.jsonString "completionTokens" +:+ ":" +:+
       Encoding.showZ (completionTokens (usage r)) +:+
     "," +:+ Encoding.jsonString "totalTokens" +:+ ":" +:+
       Encoding.showZ (totalTokens (usage r)) +:+ "}" +:+
  "," +:+ Encoding.jsonString "model" +:+ ":" +:+ Encoding.jsonString (model r) +:+
  "}".

(* ===================================================================== *)
(** ** Response cache *)
(* ===================================================================== *)

Record CacheEntry : Type := mkCacheEntry {
  entry_value : string;
  entry_ttl : Z
}.

(** The cache client [utils/cache] is not part of the sources at hand; its
    two operations follow section 4.4 of the specification.  An entry is
    present until its time-to-live runs out; the passing of time is outside
    the model. *)
Module Cache.

(** Modelled from the spec: [get(key)] of the missing [utils/cache]
    answers the stored value, or a miss ([null]). *)
Definition get (key : string) (c : gmap string CacheEntry) : option string :=
  entry_value <$> c !! key.

(** Modelled from the spec: [set(key, value, ttl)] of the missing
    [utils/cache] overwrites the entry of [key] wholesale. *)
Definition set (key value : string) (ttl : Z) (c : gmap string CacheEntry)
    : gmap string CacheEntry :=
  <[key := {| entry_value := value; entry_ttl := ttl |}]> c.

(** Every stored value is a non-empty text, as a serialised result is. *)
Definition nonEmptyValues (c : gmap string CacheEntry) : Prop :=
  forall key value, get key c = Some value -> value <> EmptyString.

End Cache.

(** The cache time-to-live of a fresh result, in seconds:
    [Math.min(24*60*60, Math.max(60*30, totalTokens*20))]. *)
Definition cacheTTL (totalTokens : Z) : Z :=
  Z.min (24 * 60 * 60) (Z.max (60 * 30) (totalTokens * 20)).

Section CacheKey.

Context `{JsNumber Number}.

(** The key computed before the backend call (the template literal of the
    look-up). *)
Definition lookupCacheKey (model : string) (temperature : Number)
    (maxTokens : Z) (prompt systemPrompt : string) : string :=
  "openai:text:" +:+ model +:+ ":" +:+ numberToString temperature +:+ ":" +:+
  Encoding.showZ maxTokens +:+ ":" +:+ Encoding.base64 prompt +:+ ":" +:+
  Encoding.base64 systemPrompt.

(** The key computed after the backend call (the template literal of the
    write). *)
Definition writeCacheKey (model : string) (temperature : Number)
    (maxTokens : Z) (prompt systemPrompt : string) : string :=
  "openai:text:" +:+ model +:+ ":" +:+ numberToString temperature +:+ ":" +:+
  Encoding.showZ maxTokens +:+ ":" +:+ Encoding.base64 prompt +:+ ":" +:+
  Encoding.base64 systemPrompt.

End CacheKey.

(* ===================================================================== *)
(** ** The OpenAI service: [generateText] *)
(* ===================================================================== *)

(** What the service acts on: the cache, the backend behind
    [openai.chat.completions.create] (a state [B] of its own), and a record
    of the effects so far: the requests sent to the backend and the cache
    writes, both in order. *)
Record ServiceState (Number B : Type) : Type := mkServiceState {
  st_cache : gmap string CacheEntry;
  st_backend : B;
  st_requests : list (ApiRequest Number);
  st_writes : list (string * string * Z)
}.
Arguments mkServiceState {Number B}.
Arguments st_cache {Number B}.
Arguments st_backend {Number B}.
Arguments st_requests {Number B}.
Arguments st_writes {Number B}.

(** [await p] for a computation that may throw. *)
Definition settle {A : Type} (c : Completion A) : Settled A :=
  match c with
  | Returned a => Fulfilled a
  | Thrown e => Rejected e
  end.

Section OpenAIService.

Context `{JsNumber Number} {B : Type}.
(** [openai.chat.completions.create(request)], raced against the timer. *)
Variable create : ApiRequest Number -> B -> Raced ApiResponse * B.
Variable random : Z -> Q.
(** [JSON.parse], at the type of the values the service caches. *)
Variable JSON_parse : string -> Completion ResponseData.

(** The function passed to [executeWithRetry]: one backend call. *)
Definition callBackend (request : ApiRequest Number)
    (st : ServiceState Number B) : Raced ApiResponse * ServiceState Number B :=
  let '(o, b') := create request (st_backend st) in
  (o, {| st_cache := st_cache st; st_backend := b';
         st_requests := (st_requests st ++ [request])%list;
         st_writes := st_writes st |}).

(** [await cache.set(key, value, ttl)] on the service state. *)
Definition cacheSet (key value : string) (ttl : Z)
    (st : ServiceState Number B) : ServiceState Number B :=
  {| st_cache := Cache.set key value ttl (st_cache st);
     st_backend := st_backend st;
     st_requests := st_requests st;
     st_writes := (st_writes st ++ [(key, value, ttl)])%list |}.

(** The [try] block of [generateText]: build the messages, call the
    backend through the retry engine, shape the response and write it to
    the cache.  The [catch] clause logs and rethrows, so a rejection
    passes through unchanged. *)
Definition generateFresh (prompt systemPrompt : string) (temperature : Number)
    (maxTokens : Z) (model userId : string) (useCaching : bool)
    (params : GenerateParams Number) (st : ServiceState Number B)
    : option (Settled ResponseData * ServiceState Number B) :=
  let messages :=
    ((if String.eqb systemPrompt EmptyString then []
      else [{| role := "system"; content := systemPrompt |}])
     ++ [{| role := "user"; content := prompt |}])%list in
  let request :=
    {| req_model := model;
       req_messages := messages;
       req_temperature := temperature;
       req_max_tokens := maxTokens;
       req_top_p := orNumber (p_topP params) num_1;
       req_frequency_penalty := orNumber (p_frequencyPenalty params) num_0;
       req_presence_penalty := orNumber (p_presencePenalty params) num_0;
       req_user := userId |} in
  run ← executeWithRetry (callBackend request) random noOptions st;
  Some
    match outcome run with
    | Rejected error => (Rejected error, world run)
    | Fulfilled result =>
        match choices result with
        | [] => (Rejected (typeError "message"), world run)
        | generatedText :: _ =>
            match api_usage result with
            | None => (Rejected (typeError "total_tokens"), world run)
            | Some u =>
                let totalTokens := total_tokens u in
                let responseData :=
                  {| text := generatedText;
                     usage := {| promptTokens := prompt_tokens u;
                                 completionTokens := completion_tokens u;
                                 totalTokens := totalTokens |};
                     model := api_model result |} in
                if useCaching then
                  let cacheKey :=
                    writeCacheKey model temperature maxTokens prompt systemPrompt in
                  (Fulfilled responseData,
                   cacheSet cacheKey (JSON_stringify responseData)
                     (cacheTTL totalTokens) (world run))
                else (Fulfilled responseData, world run)
            end
        end
    end.

(** [exports.generateText(params)].  [None] only if the retry loop ran out
    of fuel. *)
Definition generateText (params : GenerateParams Number)
    (st : ServiceState Number B)
    : option (Settled ResponseData * ServiceState Number B) :=
  let prompt := p_prompt params in
  let systemPrompt := default EmptyString (p_systemPrompt params) in
  let temperature := default num_0_7 (p_temperature params) in
  let maxTokens := default 1000 (p_maxTokens params) in
  let model := default "gpt-4" (p_model params) in
  let userId := default "anonymous" (p_userId params) in
  let useCaching := default true (p_useCaching params) in
  let cachedResult :=
    if useCaching then
      Cache.get (lookupCacheKey model temperature maxTokens prompt systemPrompt)
        (st_cache st)
    else None in
  if Js.truthy_str cachedResult then
    Some (settle (JSON_parse (default EmptyString cachedResult)), st)
  else
    generateFresh prompt systemPrompt temperature maxTokens model userId
      useCaching params st.

End OpenAIService.

(* ===================================================================== *)
(** ** The controller: effective parameters and backend selection *)
(* ===================================================================== *)

(** A document of the preference store. *)
Record UserPreference (Number : Type) : Type := mkUserPreference {
  preferredModel : option string;
  defaultTemperature : option Number;
  defaultSystemPrompt : option string
}.
Arguments mkUserPreference {Number}.
Arguments preferredModel {Number}.
Arguments defaultTemperature {Number}.
Arguments defaultSystemPrompt {Number}.

(** The opt-in flags of [req.body.options], by their truthiness. *)
Record RequestOptions : Type := mkRequestOptions {
  usePreferredModel : bool;
  usePreferredSettings : bool
}.

(** [options = {}] *)
Definition emptyOptions : RequestOptions :=
  {| usePreferredModel := false; usePreferredSettings := false |}.

(** The fields of [req.body] that parameter resolution reads. *)
Record GenerateBody (Number : Type) : Type := mkGenerateBody {
  body_model : option string;
  body_temperature : option Number;
  body_options : option RequestOptions
}.
Arguments mkGenerateBody {Number}.
Arguments body_model {Number}.
Arguments body_temperature {Number}.
Arguments body_options {Number}.

(** The four services the controller requires. *)
Inductive GenerationService : Type :=
| openaiService
| palmService
| anthropicService
| localLLMService.

Module Controller.

(** [c.toLowerCase()] on one byte.  On the bytes of UTF-8 text this agrees
    with JavaScript wherever the result is compared with the model names
    below: the only character outside ASCII whose lower case is an ASCII
    letter is the Kelvin sign (to k), and no model name contains a k. *)
Definition lowerChar (c : ascii) : ascii :=
  let n := N_of_ascii c in
  if ((65 <=? n) && (n <=? 90))%N then ascii_of_N (n + 32) else c.

Fixpoint toLowerCase (s : string) : string :=
  match s with
  | EmptyString => EmptyString
  | String c s' => String (lowerChar c) (toLowerCase s')
  end.

(** [req.user?.id || 'anonymous'] *)
Definition userIdOf (user_id : option string) : string :=
  orStr user_id "anonymous".

(** The look-up of the user's preferences: skipped for the anonymous
    user.  [findOne] is the preference store. *)
Definition findPreference {Number : Type}
    (findOne : string -> option (UserPreference Number)) (userId : string)
    : option (UserPreference Number) :=
  if String.eqb userId "anonymous" then None else findOne userId.

Section Effective.

Context `{JsNumber Number}.

(** [options.usePreferredModel && userPreference?.preferredModel
     ? userPreference.preferredModel : model] *)
Definition effectiveModel (options : RequestOptions)
    (userPreference : option (UserPreference Number)) (model : string)
    : string :=
  match userPreference ≫= preferredModel with
  | Some preferred =>
      if usePreferredModel options && negb (String.eqb preferred EmptyString)
      then preferred else model
  | None => model
  end.

(** [options.usePreferredSettings && userPreference?.defaultTemperature
     ? userPreference.defaultTemperature : temperature] *)
Definition effectiveTemperature (options : RequestOptions)
    (userPreference : option (UserPreference Number)) (temperature : Number)
    : Number :=
  match userPreference ≫= defaultTemperature with
  | Some preferred =>
      if usePreferredSettings options && numberTruthy preferred
      then preferred else temperature
  | None => temperature
  end.

(** The effective parameters of a request: destructuring of [req.body]
    with its defaults, the preference look-up and the two conditional
    expressions. *)
Definition resolve (body : GenerateBody Number) (user_id : option string)
    (findOne : string -> option (UserPreference Number))
    : string * Number :=
  let model := default "gpt-4" (body_model body) in
  let temperature := default num_0_7 (body_temperature body) in
  let options := default emptyOptions (body_options body) in
  let userId := userIdOf user_id in
  let userPreference := findPreference findOne userId in
  (effectiveModel options userPreference model,
   effectiveTemperature options userPreference temperature).

End Effective.

(** The [switch (effectiveModel.toLowerCase())] of [generateText]. *)
Definition selectService (effectiveModel : string) : GenerationService :=
  let m := toLowerCase effectiveModel in
  if String.eqb m "gpt-4" || String.eqb m "gpt-3.5-turbo" then openaiService
  else if String.eqb m "palm" || String.eqb m "gemini" then palmService
  else if String.eqb m "claude" || String.eqb m "claude-instant"
    then anthropicService
  else if String.eqb m "local-llama" || String.eqb m "local-mistral"
    then localLLMService
  else openaiService.

(** The model names the [switch] lists. *)
Definition knownModels : list string :=
  ["gpt-4"; "gpt-3.5-turbo"; "palm"; "gemini"; "claude"; "claude-instant";
   "local-llama"; "local-mistral"].

End Controller.

(* ===================================================================== *)
(** ** The controller: [batchGenerate] *)
(* ===================================================================== *)

(** One element of [req.body.prompts]: a string, an object with a [text]
    and optional [systemPrompt] and [maxTokens], or [null].  The other
    values a body can hold (numbers, booleans, objects without a [text])
    make a call whose prompt is [undefined]; they are not modelled. *)
Inductive PromptItem : Type :=
| PromptString (s : string)
| PromptObject (text : string) (systemPrompt : option string)
    (maxTokens : option Z)
| PromptNull.

(** [req.body.prompts] *)
Inductive PromptsField : Type :=
| NotAnArray
| PromptArray (items : list PromptItem).

Record BatchBody (Number : Type) : Type := mkBatchBody {
  batch_prompts : PromptsField;
  batch_model : option string;
  batch_temperature : option Number
}.
Arguments mkBatchBody {Number}.
Arguments batch_prompts {Number}.
Arguments batch_model {Number}.
Arguments batch_temperature {Number}.

(** One element of [processedResults]. *)
Inductive ProcessedResult : Type :=
| ItemSuccess (index : nat) (text : string) (tokensUsed : Z)
| ItemFailure (index : nat) (error : string).

Definition success (r : ProcessedResult) : bool :=
  match r with
  | ItemSuccess _ _ _ => true
  | ItemFailure _ _ => false
  end.

Definition index (r : ProcessedResult) : nat :=
  match r with
  | ItemSuccess i _ _ => i
  | ItemFailure i _ => i
  end.

(** How [batchGenerate] answers: [res.status(400).json(...)],
    [res.status(200).json(...)] or, from its [catch] clause, no reply and
    [next(error)].  [totalTime] is a clock reading and is left out. *)
Inductive BatchReply : Type :=
| Reply400 (message : string) (errorCode : ErrorCode)
| Reply200 (results : list ProcessedResult) (totalSuccessful : nat)
| PassedToNext (error : JsError).

(** The argument of [createMetricsRecord] for a batch, without the clock
    reading. *)
Record BatchMetrics : Type := mkBatchMetrics {
  m_userId : string;
  m_model : string;
  batchSize : nat;
  successCount : nat;
  failureCount : nat
}.

(** What one call of [batchGenerate] did: its answer, the [generateText]
    calls it issued (in the order of issue) and the metrics records it
    wrote. *)
Record BatchRun (Number : Type) : Type := mkBatchRun {
  reply : BatchReply;
  dispatched : list (GenerateParams Number);
  metrics : list BatchMetrics
}.
Arguments mkBatchRun {Number}.
Arguments reply {Number}.
Arguments dispatched {Number}.
Arguments metrics {Number}.

Module Batch.

(** Modelled from the spec: [createMetricsRecord] of the missing
    [utils/metrics] hands one record to the metrics sink; per section 7
    an unavailable sink does not fail the caller. *)
Definition createMetricsRecord (record : BatchMetrics)
    (sink : list BatchMetrics) : list BatchMetrics :=
  (sink ++ [record])%list.

(** The [switch (model.toLowerCase())] of [batchGenerate]. *)
Definition selectService (model : string) : GenerationService :=
  let m := Controller.toLowerCase model in
  if String.eqb m "gpt-4" || String.eqb m "gpt-3.5-turbo" then openaiService
  else openaiService.

Section Coordinator.

Context `{JsNumber Number}.

(** The argument of [generateText] built for one prompt.  On [null] the
    read of [prompt.text] throws. *)
Definition itemParams (model : string) (temperature : Number)
    (userId : string) (prompt : PromptItem)
    : Completion (GenerateParams Number) :=
  match prompt with
  | PromptNull =>
      Thrown (newError "Cannot read properties of null (reading 'text')")
  | PromptString s =>
      Returned
        {| p_prompt := s; p_systemPrompt := Some EmptyString;
           p_temperature := Some temperature; p_maxTokens := Some 1000;
           p_model := Some model; p_userId := Some userId;
           p_useCaching := None; p_topP := None;
           p_frequencyPenalty := None; p_presencePenalty := None |}
  | PromptObject text systemPrompt maxTokens =>
      Returned
        {| p_prompt := text; p_systemPrompt := systemPrompt;
           p_temperature := Some temperature;
           p_maxTokens := Some (orZ maxTokens 1000);
           p_model := Some model; p_userId := Some userId;
           p_useCaching := None; p_topP := None;
           p_frequencyPenalty := None; p_presencePenalty := None |}
  end.

(** [prompts.map(prompt => generationService.generateText({...}))]: the
    calls are issued in the order of the prompts; when building the
    argument of one throws, the calls issued before it stay issued and the
    exception leaves [map]. *)
Fixpoint issueCalls (build : PromptItem -> Completion (GenerateParams Number))
    (prompts : list PromptItem)
    : list (GenerateParams Number) * option JsError :=
  match prompts with
  | [] => ([], None)
  | prompt :: rest =>
      match build prompt with
      | Thrown error => ([], Some error)
      | Returned params =>
          let '(calls, thrown) := issueCalls build rest in
          (params :: calls, thrown)
      end
  end.

(** The callback of [results.map((result, index) => ...)]. *)
Definition processResult (index : nat) (result : Settled ResponseData)
    : ProcessedResult :=
  match result with
  | Fulfilled value =>
      ItemSuccess index (text value) (orZ (Some (totalTokens (usage value))) 0)
  | Rejected reason =>
      ItemFailure index (orStr (Some (message reason)) "Unknown error")
  end.

(** [processedResults.filter(p).length] *)
Definition countIf (p : ProcessedResult -> bool) (l : list ProcessedResult)
    : nat :=
  length (List.filter p l).

(** [exports.batchGenerate].  The calls of [generateText] run
    concurrently and [Promise.allSettled] waits for all of them;
    [settles i params] is the way the call issued for the prompt at
    position [i] by the selected service settles, whatever the
    interleaving. *)
Definition batchGenerate
    (settles : GenerationService -> nat -> GenerateParams Number ->
               Settled ResponseData)
    (body : BatchBody Number) (user_id : option string) : BatchRun Number :=
  let model := default "gpt-3.5-turbo" (batch_model body) in
  let temperature := default num_0_7 (batch_temperature body) in
  let userId := Controller.userIdOf user_id in
  match batch_prompts body with
  | NotAnArray =>
      {| reply := Reply400 "A non-empty array of prompts is required"
                    VALIDATION_ERROR;
         dispatched := []; metrics := [] |}
  | PromptArray prompts =>
      if (length prompts =? 0)%nat then
        {| reply := Reply400 "A non-empty array of prompts is required"
                      VALIDATION_ERROR;
           dispatched := []; metrics := [] |}
      else if (10 <? length prompts)%nat then
        {| reply := Reply400 "Batch requests are limited to 10 prompts"
                      TOO_MANY_REQUESTS;
           dispatched := []; metrics := [] |}
      else
        let generationService := selectService model in
        let '(calls, thrown) :=
          issueCalls (itemParams model temperature userId) prompts in
        match thrown with
        | Some error =>
            {| reply := PassedToNext error; dispatched := calls;
               metrics := [] |}
        | None =>
            let results := imap (settles generationService) calls in
            let processedResults := imap processResult results in
            {| reply :=
                 Reply200 processedResults (countIf success processedResults);
               dispatched := calls;
               metrics :=
                 createMetricsRecord
                   {| m_userId := userId; m_model := model;
                      batchSize := length prompts;
                      successCount := countIf success processedResults;
                      failureCount :=
                        countIf (fun r => negb (success r)) processedResults |}
                   [] |}
        end
  end.

End Coordinator.

End Batch.

(* ===================================================================== *)
(** ** The OpenAI service: editing, summaries, model list, health check *)
(* ===================================================================== *)

(** The request [generateText] sends for its parameters: the object literal
    passed to [openai.chat.completions.create], with the defaults of the
    destructuring applied. *)
Definition chatRequest `{JsNumber Number} (params : GenerateParams Number)
    : ApiRequest Number :=
  let systemPrompt := default EmptyString (p_systemPrompt params) in
  {| req_model := default "gpt-4" (p_model params);
     req_messages :=
       ((if String.eqb systemPrompt EmptyString then []
         else [{| role := "system"; content := systemPrompt |}])
        ++ [{| role := "user"; content := p_prompt params |}])%list;
     req_temperature := default num_0_7 (p_temperature params);
     req_max_tokens := default 1000 (p_maxTokens params);
     req_top_p := orNumber (p_topP params) num_1;
     req_frequency_penalty := orNumber (p_frequencyPenalty params) num_0;
     req_presence_penalty := orNumber (p_presencePenalty params) num_0;
     req_user := default "anonymous" (p_userId params) |}.

(** The key under which [generateText] looks up and stores the result of
    its parameters. *)
Definition textKeyOf `{JsNumber Number} (params : GenerateParams Number)
    : string :=
  lookupCacheKey (default "gpt-4" (p_model params))
    (default num_0_7 (p_temperature params))
    (default 1000 (p_maxTokens params)) (p_prompt params)
    (default EmptyString (p_systemPrompt params)).

(** The argument of [editText]. *)
Record EditParams (Number : Type) : Type := mkEditParams {
  e_text : string;
  e_instruction : string;
  e_model : option string;
  e_temperature : option Number;
  e_useCaching : option bool;
  e_userId : option string
}.
Arguments mkEditParams {Number}.
Arguments e_text {Number}.
Arguments e_instruction {Number}.
Arguments e_model {Number}.
Arguments e_temperature {Number}.
Arguments e_useCaching {Number}.
Arguments e_userId {Number}.

(** The argument [editText] passes to [openai.chat.completions.create]: it
    sets four properties only. *)
Record EditRequest (Number : Type) : Type := mkEditRequest {
  ereq_model : string;
  ereq_messages : list ChatMessage;
  ereq_temperature : Number;
  ereq_user : string
}.
Arguments mkEditRequest {Number}.
Arguments ereq_model {Number}.
Arguments ereq_messages {Number}.
Arguments ereq_temperature {Number}.
Arguments ereq_user {Number}.

(** What [editText] acts on, as [ServiceState] for [generateText]. *)
Record EditState (Number B : Type) : Type := mkEditState {
  es_cache : gmap string CacheEntry;
  es_backend : B;
  es_requests : list (EditRequest Number);
  es_writes : list (string * string * Z)
}.
Arguments mkEditState {Number B}.
Arguments es_cache {Number B}.
Arguments es_backend {Number B}.
Arguments es_requests {Number B}.
Arguments es_writes {Number B}.

(** The line feed of the template literals. *)
Definition lineFeed : string := String (ascii_of_N 10) EmptyString.

(** The system message of [editText]. *)
Definition editSystemMessage : string :=
  "你是一个能够根据指令编辑文本的助手。请遵循用户的指令修改提供的文本。只返回修改后的完整文本，不要添加额外的解释。".

(** The user message of [editText]: the text and the instruction under
    their headings. *)
Definition editUserMessage (text instruction : string) : string :=
  "原文本:" +:+ lineFeed +:+ text +:+ lineFeed +:+ lineFeed +:+
  "指令:" +:+ lineFeed +:+ instruction +:+ lineFeed +:+ lineFeed +:+
  "修改后的文本:".

Section EditService.

Context `{JsNumber Number} {B : Type}.
(** The literal [0.5]. *)
Variable num_0_5 : Number.
(** [openai.chat.completions.create(request)], raced against the timer. *)
Variable create : EditRequest Number -> B -> Raced ApiResponse * B.
Variable random : Z -> Q.
Variable JSON_parse : string -> Completion ResponseData.

(** The cache key of [editText]: the template literal, which is the same
    text at the look-up and at the write. *)
Definition editCacheKey (model : string) (temperature : Number)
    (text instruction : string) : string :=
  "openai:edit:" +:+ model +:+ ":" +:+ numberToString temperature +:+ ":" +:+
  Encoding.base64 text +:+ ":" +:+ Encoding.base64 instruction.

(** The request [editText] sends for its parameters. *)
Definition editRequest (params : EditParams Number) : EditRequest Number :=
  {| ereq_model := default "gpt-4" (e_model params);
     ereq_messages :=
       [{| role := "system"; content := editSystemMessage |};
        {| role := "user";
           content := editUserMessage (e_text params) (e_instruction params) |}];
     ereq_temperature := default num_0_5 (e_temperature params);
     ereq_user := default "anonymous" (e_userId params) |}.

(** The function [editText] passes to [executeWithRetry]. *)
Definition callEditBackend (request : EditRequest Number)
    (st : EditState Number B) : Raced ApiResponse * EditState Number B :=
  let '(o, b') := create request (es_backend st) in
  (o, {| es_cache := es_cache st; es_backend := b';
         es_requests := (es_requests st ++ [request])%list;
         es_writes := es_writes st |}).

(** [await cache.set(key, value, ttl)] on the state of [editText]. *)
Definition editCacheSet (key value : string) (ttl : Z)
    (st : EditState Number B) : EditState Number B :=
  {| es_cache := Cache.set key value ttl (es_cache st);
     es_backend := es_backend st;
     es_requests := es_requests st;
     es_writes := (es_writes st ++ [(key, value, ttl)])%list |}.

(** [exports.editText(params)].  [None] only if the retry loop ran out of
    fuel. *)
Definition editText (params : EditParams Number) (st : EditState Number B)
    : option (Settled ResponseData * EditState Number B) :=
  let text := e_text params in
  let instruction := e_instruction params in
  let model := default "gpt-4" (e_model params) in
  let temperature := default num_0_5 (e_temperature params) in
  let useCaching := default true (e_useCaching params) in
  let cacheKey := editCacheKey model temperature text instruction in
  let cachedResult :=
    if useCaching then Cache.get cacheKey (es_cache st) else None in
  if Js.truthy_str cachedResult then
    Some (settle (JSON_parse (default EmptyString cachedResult)), st)
  else
    run ← executeWithRetry (callEditBackend (editRequest params)) random
            noOptions st;
    Some
      match outcome run with
      | Rejected error => (Rejected error, world run)
      | Fulfilled result =>
          match choices result with
          | [] => (Rejected (typeError "message"), world run)
          | editedText :: _ =>
              match api_usage result with
              | None => (Rejected (typeError "prompt_tokens"), world run)
              | Some u =>
                  let responseData :=
                    {| text := editedText;
                       usage := {| promptTokens := prompt_tokens u;
                                   completionTokens := completion_tokens u;
                                   totalTokens := total_tokens u |};
                       model := api_model result |} in
                  if useCaching then
                    (Fulfilled responseData,
                     editCacheSet cacheKey (JSON_stringify responseData)
                       (60 * 60 * 12) (world run))
                  else (Fulfilled responseData, world run)
              end
          end
      end.

End EditService.

(** The argument of [summarizeText]. *)
Record SummarizeParams (Number : Type) : Type := mkSummarizeParams {
  s_text : string;
  s_maxLength : option Z;
  s_format : option string;
  s_temperature : option Number;
  s_model : option string;
  s_userId : option string;
  s_useCaching : option bool
}.
Arguments mkSummarizeParams {Number}.
Arguments s_text {Number}.
Arguments s_maxLength {Number}.
Arguments s_format {Number}.
Arguments s_temperature {Number}.
Arguments s_model {Number}.
Arguments s_userId {Number}.
Arguments s_useCaching {Number}.

(** The system prompt [summarizeText] builds: a list of points for the
    format [bullets], a paragraph for every other format, and the limit in
    words. *)
Definition summaryPrompt (format : string) (maxLength : Z) : string :=
  "总结以下文本，创建一个" +:+
  (if String.eqb format "bullets" then "要点列表" else "段落") +:+
  "。总结应包含最重要的信息，不超过" +:+ Encoding.showZ maxLength +:+
  "个单词。".

Section SummarizeService.

Context `{JsNumber Number} {B : Type}.
Variable num_0_5 : Number.
Variable create : ApiRequest Number -> B -> Raced ApiResponse * B.
Variable random : Z -> Q.
Variable JSON_parse : string -> Completion ResponseData.

(** The argument [summarizeText] hands to [generateText]. *)
Definition summarizeCall (params : SummarizeParams Number)
    : GenerateParams Number :=
  let maxLength := default 150 (s_maxLength params) in
  let format := default "paragraph" (s_format params) in
  {| p_prompt := s_text params;
     p_systemPrompt := Some (summaryPrompt format maxLength);
     p_temperature := Some (default num_0_5 (s_temperature params));
     p_maxTokens := None;
     p_model := Some (default "gpt-3.5-turbo" (s_model params));
     p_userId := Some (default "anonymous" (s_userId params));
     p_useCaching := Some (default true (s_useCaching params));
     p_topP := None;
     p_frequencyPenalty := None;
     p_presencePenalty := None |}.

(** [exports.summarizeText(params)]: [this.generateText] is the
    [generateText] of the same module. *)
Definition summarizeText (params : SummarizeParams Number)
    (st : ServiceState Number B)
    : option (Settled ResponseData * ServiceState Number B) :=
  generateText create random JSON_parse (summarizeCall params) st.

End SummarizeService.

(** A property read off an object literal by a computed key: a value of
    the literal itself, or a member the literal inherits from
    [Object.prototype] (a function or an object, never a text or a
    number). *)
Inductive Field (A : Type) : Type :=
| Plain (a : A)
| ProtoMember (key : string).
Arguments Plain {A} a.
Arguments ProtoMember {A} key.

(** The property names of [Object.prototype]. *)
Definition objectPrototypeKeys : list string :=
  ["constructor"; "__defineGetter__"; "__defineSetter__"; "hasOwnProperty";
   "__lookupGetter__"; "__lookupSetter__"; "isPrototypeOf";
   "propertyIsEnumerable"; "toString"; "valueOf"; "__proto__";
   "toLocaleString"].

(** The value of an own property of an object literal. *)
Fixpoint ownProperty {A : Type} (literal : list (string * A)) (key : string)
    : option A :=
  match literal with
  | [] => None
  | (k, v) :: rest => if String.eqb k key then Some v else ownProperty rest key
  end.

(** [literal[key]]: [None] is [undefined]. *)
Definition getProperty {A : Type} (literal : list (string * A)) (key : string)
    : option (Field A) :=
  match ownProperty literal key with
  | Some v => Some (Plain v)
  | None =>
      if existsb (String.eqb key) objectPrototypeKeys
      then Some (ProtoMember key) else None
  end.

Definition descriptions : list (string * string) :=
  [("gpt-4", "最强大的GPT模型，适合需要高级推理的复杂任务");
   ("gpt-4-turbo", "GPT-4的更快版本，适合需要高级推理且响应速度更快的场景");
   ("gpt-3.5-turbo", "强大的语言模型，适合大多数日常任务，速度快且成本较低")].

Definition tokenLimits : list (string * Z) :=
  [("gpt-4", 8192); ("gpt-4-32k", 32768); ("gpt-4-turbo", 8192);
   ("gpt-3.5-turbo", 4096); ("gpt-3.5-turbo-16k", 16384)].

(** [getModelDescription(modelId)]: every value the look-up can give is
    truthy, so the default stands in for [undefined] only. *)
Definition getModelDescription (modelId : string) : Field string :=
  default (Plain "通用语言模型") (getProperty descriptions modelId).

(** [getModelMaxTokens(modelId)] *)
Definition getModelMaxTokens (modelId : string) : Field Z :=
  default (Plain 4096) (getProperty tokenLimits modelId).

(** One entry of the list [getSupportedModels] answers. *)
Record ModelInfo : Type := mkModelInfo {
  mi_id : string;
  mi_name : string;
  mi_description : Field string;
  mi_maxTokens : Field Z;
  mi_type : string
}.

(** What [openai.models.list()] resolves to: its [data], if it has one,
    each model given by its [id]. *)
Record ModelsPage : Type := mkModelsPage {
  page_data : option (list string)
}.

(** The list [getSupportedModels] answers when the backend fails. *)
Definition fallbackModels : list ModelInfo :=
  [{| mi_id := "gpt-4"; mi_name := "GPT-4";
      mi_description := Plain "最强大的GPT模型，适合需要高级推理的复杂任务";
      mi_maxTokens := Plain 8192; mi_type := "text" |};
   {| mi_id := "gpt-3.5-turbo"; mi_name := "GPT-3.5 Turbo";
      mi_description :=
        Plain "强大的语言模型，适合大多数日常任务，速度快且成本较低";
      mi_maxTokens := Plain 4096; mi_type := "text" |}].

(** The callback of [.map(model => ...)] in [getSupportedModels]. *)
Definition describeModel (id : string) : ModelInfo :=
  {| mi_id := id; mi_name := id;
     mi_description := getModelDescription id;
     mi_maxTokens := getModelMaxTokens id;
     mi_type := "text" |}.

(** What [healthCheck] answers, without the time stamp. *)
Record HealthReport : Type := mkHealthReport {
  status : string;
  provider : string;
  health_error : option string
}.

Section ModelsAndHealth.

Context {B M : Type}.
(** [openai.models.list()] and [openai.models.retrieve('gpt-3.5-turbo')],
    each raced against the timer. *)
Variable listModels : B -> Raced ModelsPage * B.
Variable retrieve : string -> B -> Raced M * B.
Variable random : Z -> Q.

(** [exports.getSupportedModels()]: the list it resolves to, and the state
    of the backend afterwards.  The promise is never rejected: the [catch]
    clause answers the fallback list. *)
Definition getSupportedModels (b : B) : option (list ModelInfo * B) :=
  run ← executeWithRetry listModels random noOptions b;
  Some
    match outcome run with
    | Fulfilled response =>
        match page_data response with
        | Some data =>
            (describeModel <$> List.filter (String.prefix "gpt-") data,
             world run)
        | None => (fallbackModels, world run)
        end
    | Rejected error => (fallbackModels, world run)
    end.

(** [exports.healthCheck()] *)
Definition healthCheck (b : B) : option (HealthReport * B) :=
  run ← executeWithRetry (retrieve "gpt-3.5-turbo") random
          {| opt_maxRetries := None; opt_retryDelay := None;
             opt_timeout := Some 5000 |} b;
  Some
    match outcome run with
    | Fulfilled _ =>
        ({| status := "healthy"; provider := "openai"; health_error := None |},
         world run)
    | Rejected error =>
        ({| status := "unhealthy"; provider := "openai";
            health_error := Some (message error) |},
         world run)
    end.

End ModelsAndHealth.

(* ===================================================================== *)
(** ** The controller: the [generateText] handler *)
(* ===================================================================== *)

(** [req.body.options] as the handler uses it: the two opt-in flags, the
    project switches, and the properties that reach the service because the
    handler spreads [options] into the argument of the service call. *)
Record HandlerOptions (Number : Type) : Type := mkHandlerOptions {
  ho_flags : RequestOptions;
  saveAsProject : bool;
  projectTitle : option string;
  ho_prompt : option string;
  ho_systemPrompt : option string;
  ho_temperature : option Number;
  ho_maxTokens : option Z;
  ho_userId : option string;
  ho_model : option string;
  ho_useCaching : option bool;
  ho_topP : option Number;
  ho_frequencyPenalty : option Number;
  ho_presencePenalty : option Number
}.
Arguments mkHandlerOptions {Number}.
Arguments ho_flags {Number}.
Arguments saveAsProject {Number}.
Arguments projectTitle {Number}.
Arguments ho_prompt {Number}.
Arguments ho_systemPrompt {Number}.
Arguments ho_temperature {Number}.
Arguments ho_maxTokens {Number}.
Arguments ho_userId {Number}.
Arguments ho_model {Number}.
Arguments ho_useCaching {Number}.
Arguments ho_topP {Number}.
Arguments ho_frequencyPenalty {Number}.
Arguments ho_presencePenalty {Number}.

(** [options = {}] *)
Definition noHandlerOptions {Number : Type} : HandlerOptions Number :=
  {| ho_flags := emptyOptions; saveAsProject := false; projectTitle := None;
     ho_prompt := None; ho_systemPrompt := None; ho_temperature := None;
     ho_maxTokens := None; ho_userId := None; ho_model := None;
     ho_useCaching := None; ho_topP := None; ho_frequencyPenalty := None;
     ho_presencePenalty := None |}.

(** The request of the handler: the errors [validationResult(req)] holds,
    the body and the signed-in user. *)
Record HandlerRequest (Number : Type) : Type := mkHandlerRequest {
  hr_errors : list string;
  hr_prompt : string;
  hr_model : option string;
  hr_temperature : option Number;
  hr_maxTokens : option Z;
  hr_systemPrompt : option string;
  hr_options : option (HandlerOptions Number);
  hr_user : option string
}.
Arguments mkHandlerRequest {Number}.
Arguments hr_errors {Number}.
Arguments hr_prompt {Number}.
Arguments hr_model {Number}.
Arguments hr_temperature {Number}.
Arguments hr_maxTokens {Number}.
Arguments hr_systemPrompt {Number}.
Arguments hr_options {Number}.
Arguments hr_user {Number}.

(** The argument of [createMetricsRecord] for one generation, without the
    clock reading. *)
Record GenerationMetrics : Type := mkGenerationMetrics {
  gm_userId : string;
  gm_operation : string;
  gm_model : string;
  promptLength : Z;
  responseLength : Z;
  gm_tokensUsed : Z;
  successful : bool
}.

(** The argument of [TextProject.create], without the time stamps and the
    open [metadata]. *)
Record ProjectDoc : Type := mkProjectDoc {
  projectId : string;
  pd_userId : string;
  title : string;
  pd_content : string;
  pd_prompt : string;
  pd_systemPrompt : string;
  pd_model : string
}.

(** What the handler sends with [res.status(...).json(...)]. *)
Inductive HandlerReply : Type :=
| ReplyInvalid (errors : list string) (errorCode : ErrorCode)
| ReplyFailed (httpStatus : Z) (message : string) (errorCode : ErrorCode)
| ReplyGenerated (text model : string) (tokensUsed : Z)
    (projectId : option string).

(** What one call of the handler did: the reply it sent, the error it
    handed to [next], and, in order, the preference look-ups, the service
    calls, the metrics records and the documents it handed to
    [TextProject.create]. *)
Record HandlerRun (Number : Type) : Type := mkHandlerRun {
  hd_reply : option HandlerReply;
  hd_next : option JsError;
  hd_lookups : list string;
  hd_calls : list (GenerationService * GenerateParams Number);
  hd_metrics : list GenerationMetrics;
  hd_projects : list ProjectDoc
}.
Arguments mkHandlerRun {Number}.
Arguments hd_reply {Number}.
Arguments hd_next {Number}.
Arguments hd_lookups {Number}.
Arguments hd_calls {Number}.
Arguments hd_metrics {Number}.
Arguments hd_projects {Number}.

Module Handler.

(** [s.length]: the number of UTF-16 code units of the string whose bytes
    are [s].  Every byte that starts a character counts once (an unpaired
    surrogate is one code unit), and the first byte of a four-byte
    character twice. *)
Fixpoint utf16Length (s : string) : Z :=
  match s with
  | EmptyString => 0
  | String c s' =>
      let n := N_of_ascii c in
      (if (n <? 128)%N || (192 <=? n)%N then 1 else 0) +
      (if (240 <=? n)%N then 1 else 0) + utf16Length s'
  end.

(** [s.split('\n')[0]] *)
Fixpoint firstLine (s : string) : string :=
  match s with
  | EmptyString => EmptyString
  | String c s' =>
      if (N_of_ascii c =? 10)%N then EmptyString else String c (firstLine s')
  end.

(** Modelled from the spec: [createMetricsRecord] of the missing
    [utils/metrics] hands one record to the metrics sink; per section 7 an
    unavailable sink does not fail the caller. *)
Definition createMetricsRecord (record : GenerationMetrics)
    (sink : list GenerationMetrics) : list GenerationMetrics :=
  (sink ++ [record])%list.

Section GenerateHandler.

Context `{JsNumber Number}.
(** [UserPreference.findOne({ userId })] *)
Variable findOne : string -> Settled (option (UserPreference Number)).
(** [generationService.generateText(params)] for each of the services. *)
Variable callService : GenerationService -> GenerateParams Number ->
                       Settled ResponseData.
(** [TextProject.create(doc)], resolving to the stored document. *)
Variable createProject : ProjectDoc -> Settled ProjectDoc.
(** [uuidv4()] *)
Variable uuid : string.
(** [s.substring(0, 50)] *)
Variable substring50 : string -> string.

(** The [catch] clause. *)
Definition handleError (error : JsError)
    (lookups : list string)
    (calls : list (GenerationService * GenerateParams Number))
    (records : list GenerationMetrics) (projects : list ProjectDoc)
    : HandlerRun Number :=
  let reply :=
    if Js.is_str (code error) "context_length_exceeded" then
      Some (ReplyFailed 400
              "The provided prompt is too long for the selected model."
              CONTEXT_LENGTH_EXCEEDED)
    else if Js.is_str (code error) "model_not_available" then
      Some (ReplyFailed 503
              "The requested model is currently not available."
              MODEL_UNAVAILABLE)
    else None in
  {| hd_reply := reply;
     hd_next := match reply with Some _ => None | None => Some error end;
     hd_lookups := lookups; hd_calls := calls; hd_metrics := records;
     hd_projects := projects |}.

(** The argument of the service call: the object literal of the handler
    with [...options] spread over it. *)
Definition serviceParams (request : HandlerRequest Number)
    (options : HandlerOptions Number)
    (userPreference : option (UserPreference Number))
    (effectiveModel : string) (effectiveTemperature : Number)
    (userId : string) : GenerateParams Number :=
  let systemPrompt :=
    orStr (hr_systemPrompt request)
      (orStr (userPreference ≫= defaultSystemPrompt) EmptyString) in
  {| p_prompt := default (hr_prompt request) (ho_prompt options);
     p_systemPrompt := Some (default systemPrompt (ho_systemPrompt options));
     p_temperature :=
       Some (default effectiveTemperature (ho_temperature options));
     p_maxTokens :=
       Some (default (default 1000 (hr_maxTokens request))
               (ho_maxTokens options));
     p_model := Some (default effectiveModel (ho_model options));
     p_userId := Some (default userId (ho_userId options));
     p_useCaching := ho_useCaching options;
     p_topP := ho_topP options;
     p_frequencyPenalty := ho_frequencyPenalty options;
     p_presencePenalty := ho_presencePenalty options |}.

(** The handler after the look-up of the preferences. *)
Definition generateWith (request : HandlerRequest Number)
    (options : HandlerOptions Number) (userId : string)
    (lookups : list string)
    (userPreference : option (UserPreference Number)) : HandlerRun Number :=
  let prompt := hr_prompt request in
  let model := default "gpt-4" (hr_model request) in
  let temperature := default num_0_7 (hr_temperature request) in
  let effectiveModel :=
    Controller.effectiveModel (ho_flags options) userPreference model in
  let effectiveTemperature :=
    Controller.effectiveTemperature (ho_flags options) userPreference
      temperature in
  let generationService := Controller.selectService effectiveModel in
  let params :=
    serviceParams request options userPreference effectiveModel
      effectiveTemperature userId in
  let calls := [(generationService, params)] in
  match callService generationService params with
  | Rejected error => handleError error lookups calls [] []
  | Fulfilled generationResult =>
      let tokensUsed := orZ (Some (totalTokens (usage generationResult))) 0 in
      let records :=
        createMetricsRecord
          {| gm_userId := userId; gm_operation := "text_generation";
             gm_model := effectiveModel;
             promptLength := utf16Length prompt;
             responseLength := utf16Length (text generationResult);
             gm_tokensUsed := tokensUsed; successful := true |} [] in
      let systemPrompt :=
        orStr (hr_systemPrompt request)
          (orStr (userPreference ≫= defaultSystemPrompt) EmptyString) in
      let doc :=
        {| projectId := uuid; pd_userId := userId;
           title :=
             orStr (projectTitle options)
               (substring50 (firstLine (text generationResult)));
           pd_content := text generationResult; pd_prompt := prompt;
           pd_systemPrompt := systemPrompt; pd_model := effectiveModel |} in
      let reply (projectRecord : option ProjectDoc) :=
        ReplyGenerated (text generationResult) effectiveModel tokensUsed
          (match projectRecord with
           | Some record =>
               if String.eqb (projectId record) EmptyString then None
               else Some (projectId record)
           | None => None
           end) in
      if saveAsProject options then
        match createProject doc with
        | Rejected error => handleError error lookups calls records [doc]
        | Fulfilled projectRecord =>
            {| hd_reply := Some (reply (Some projectRecord)); hd_next := None;
               hd_lookups := lookups; hd_calls := calls;
               hd_metrics := records; hd_projects := [doc] |}
        end
      else
        {| hd_reply := Some (reply None); hd_next := None;
           hd_lookups := lookups; hd_calls := calls; hd_metrics := records;
           hd_projects := [] |}
  end.

(** [exports.generateText(req, res, next)] *)
Definition generateText (request : HandlerRequest Number) : HandlerRun Number :=
  if negb (length (hr_errors request) =? 0)%nat then
    {| hd_reply := Some (ReplyInvalid (hr_errors request) VALIDATION_ERROR);
       hd_next := None; hd_lookups := []; hd_calls := []; hd_metrics := [];
       hd_projects := [] |}
  else
    let options := default noHandlerOptions (hr_options request) in
    let userId := Controller.userIdOf (hr_user request) in
    if String.eqb userId "anonymous" then
      generateWith request options userId [] None
    else
      match findOne userId with
      | Rejected error => handleError error [userId] [] [] []
      | Fulfilled userPreference =>
          generateWith request options userId [userId] userPreference
      end.

End GenerateHandler.

End Handler.

(* ===================================================================== *)
(** ** The specification's vocabulary *)
(* ===================================================================== *)

(** Definitions that follow the words of the specification, to be compared
    with the code above. *)
Module Spec.

Inductive InputDetail : Type :=
| ContextLengthExceeded
| Other.

(** Section 4.2: the uniform taxonomy. *)
Inductive ErrorKind : Type :=
| Timeout
| RateLimited
| ServerTransient
| InvalidInput (d : InputDetail)
| Unauthorized
| Forbidden
| NotFound
| NetworkTransient
| Unknown.

(** The elapsed time exceeded the per-attempt timeout. *)
Definition isTimeout (e : JsError) : bool :=
  Js.includes "timed out" (message e) || Js.is_str (code e) "ETIMEDOUT".

(** A low-level connection failure (reset, refused, DNS failure): no
    response arrived. *)
Definition isConnectionFailure (e : JsError) : bool :=
  match response e with
  | Some _ => false
  | None =>
      Js.is_str (code e) "ECONNRESET" || Js.is_str (code e) "ECONNREFUSED" ||
      Js.is_str (code e) "ENOTFOUND"
  end.

(** A status 400 with the context-length sub-code. *)
Definition isContextLength400 (resp : HttpResponse) : bool :=
  (resp_status resp =? 400) &&
  match resp_data resp with
  | Some data => isContextLength data
  | None => false
  end.


(** The failure came with a response whose status is one of [statuses]. *)
Definition hasStatus (e : JsError) (statuses : list Z) : Prop :=
  exists resp, response e = Some resp /\ resp_status resp ∈ statuses.

(** The retryable failures, one by one: a per-attempt timeout, HTTP 429,
    HTTP 500, 502, 503 or 504, or a low-level connection failure. *)
Definition inRetryableSet (e : JsError) : Prop :=
  isTimeout e = true \/ hasStatus e [429] \/
  hasStatus e [500; 502; 503; 504] \/ isConnectionFailure e = true.


(** The kind a surfaced error carries: the one its [errorCode] names. *)
Definition kindOfCode (c : ErrorCode) : option ErrorKind :=
  match c with
  | CONTEXT_LENGTH_EXCEEDED => Some (InvalidInput ContextLengthExceeded)
  | UNAUTHORIZED => Some Unauthorized
  | FORBIDDEN => Some Forbidden
  | RESOURCE_NOT_FOUND => Some NotFound
  | RATE_LIMIT_EXCEEDED => Some RateLimited
  | _ => None
  end.

Definition carriedKind (e : JsError) : option ErrorKind :=
  errorCode e ≫= kindOfCode.

(** The rows of the decision table that go by the status of the response
    alone. *)
Definition statusKind (e : JsError) : option ErrorKind :=
  match response e with
  | Some resp =>
      let status := resp_status resp in
      if isContextLength400 resp then Some (InvalidInput ContextLengthExceeded)
      else if status =? 401 then Some Unauthorized
      else if status =? 403 then Some Forbidden
      else if status =? 404 then Some NotFound
      else if status =? 429 then Some RateLimited
      else None
  | None => None
  end.

(** Section 4.4: [clamp(x, lowerBound, upperBound)]. *)
Definition clamp (x lowerBound upperBound : Z) : Z :=
  if x <? lowerBound then lowerBound
  else if upperBound <? x then upperBound
  else x.

(** Section 3: the precedence of an effective parameter as the
    specification words it: the explicit request value if present,
    otherwise the stored preference if the request opted in, otherwise
    the system default. *)
Definition precedence {A : Type} (explicit : option A) (optedIn : bool)
    (stored : option A) (systemDefault : A) : A :=
  match explicit with
  | Some v => v
  | None => if optedIn then default systemDefault stored else systemDefault
  end.

End Spec.

(* ===================================================================== *)
(** ** An instance of the numbers: decimals with one fractional digit *)
(* ===================================================================== *)

(** The numbers [n / 10] for a natural [n], which include the literals of
    the sources, printed the way JavaScript prints them: [7] is 0.7 and
    prints as 0.7, [10] is 1 and prints as 1. *)
Module Tenths.

Definition toString (n : N) : string :=
  Encoding.showZ (Z.of_N (n / 10)) +:+
  (if (n mod 10 =? 0)%N then EmptyString
   else "." +:+ Encoding.showZ (Z.of_N (n mod 10))).

#[global] Instance number : JsNumber N := {|
  numberToString := toString;
  numberTruthy := fun n => negb (n =? 0)%N;
  num_0_7 := 7%N;
  num_1 := 10%N;
  num_0 := 0%N
|}.

End Tenths.

(* ===================================================================== *)
(** ** The scenario of section 8 *)
(* ===================================================================== *)

(** The request [{prompt: 'Hello', model: 'gpt-4', temperature: 0.7}], a
    backend that answers [Hi there] with usage 5 + 3 = 8 tokens and counts
    its calls, and an empty cache. *)
Module Scenario.

Definition helloParams : GenerateParams N :=
  {| p_prompt := "Hello"; p_systemPrompt := None; p_temperature := Some 7%N;
     p_maxTokens := None; p_model := Some "gpt-4"; p_userId := None;
     p_useCaching := None; p_topP := None; p_frequencyPenalty := None;
     p_presencePenalty := None |}.

Definition hiThere : ApiResponse :=
  {| choices := ["Hi there"];
     api_usage := Some {| prompt_tokens := 5; completion_tokens := 3;
                          total_tokens := 8 |};
     api_model := "gpt-4" |}.

Definition hiThereData : ResponseData :=
  {| text := "Hi there";
     usage := {| promptTokens := 5; completionTokens := 3; totalTokens := 8 |};
     model := "gpt-4" |}.

Definition create (request : ApiRequest N) (calls : nat)
    : Raced ApiResponse * nat :=
  (InTime (Fulfilled hiThere), S calls).

Definition random (attempt : Z) : Q := 0%Q.

(** [JSON.parse] on the one text the scenario caches. *)
Definition parse (s : string) : Completion ResponseData :=
  if String.eqb s (JSON_stringify hiThereData) then Returned hiThereData
  else Thrown (newError "Unexpected token in JSON").

Definition emptyState : ServiceState N nat :=
  {| st_cache := ∅; st_backend := 0%nat; st_requests := []; st_writes := [] |}.

Definition helloKey : string :=
  lookupCacheKey "gpt-4" 7%N 1000 "Hello" EmptyString.

(** The state after the first call. *)
Definition afterFirst : ServiceState N nat :=
  {| st_cache :=
       Cache.set helloKey (JSON_stringify hiThereData) 1800 ∅;
     st_backend := 1%nat;
     st_requests :=
       [{| req_model := "gpt-4";
           req_messages := [{| role := "user"; content := "Hello" |}];
           req_temperature := 7%N; req_max_tokens := 1000;
           req_top_p := 10%N; req_frequency_penalty := 0%N;
           req_presence_penalty := 0%N; req_user := "anonymous" |}];
     st_writes := [(helloKey, JSON_stringify hiThereData, 1800)] |}.

End Scenario.

(* ===================================================================== *)
(** * Properties *)
(* ===================================================================== *)

(** ** The retry loop *)

Section RetryFacts.

Context {A W : Type}.
Variable operation : W -> Raced A * W.
Variable random : Z -> Q.
Variable config : Config.

Local Abbreviation loop := (retryLoop operation random config).

Local Abbreviation testsLeft := (testsLeft config).

Lemma testsLeft_succ attempt :
  attempt <= maxRetries config ->
  testsLeft attempt = S (testsLeft (attempt + 1)).
Proof. unfold testsLeft. lia. Qed.

(** With more fuel than loop tests left, the loop ends. *)
Lemma retryLoop_total fuel : forall attempt lastError w,
  (testsLeft attempt < fuel)%nat ->
  exists run, loop fuel attempt lastError w = Some run.
Proof.
  induction fuel as [|fuel IH]; intros attempt lastError w Hfuel; [lia|].
  cbn [retryLoop].
  destruct (Z.leb_spec attempt (maxRetries config)) as [Hle|Hgt]; [|eauto].
  destruct (operation w) as [o w'].
  destruct (race o) as [v|e]; [eauto|].
  destruct (negb (isRetryableError e) || (attempt =? maxRetries config));
    [eauto|].
  rewrite (testsLeft_succ attempt Hle) in Hfuel.
  destruct (IH (attempt + 1) (Some e) w') as [run ->]; [lia|].
  cbn. eauto.
Qed.

(** Fuel beyond what the loop needs does not change its result. *)
Lemma retryLoop_more_fuel fuel : forall fuel' attempt lastError w run,
  loop fuel attempt lastError w = Some run ->
  (fuel <= fuel')%nat ->
  loop fuel' attempt lastError w = Some run.
Proof.
  induction fuel as [|fuel IH]; intros fuel' attempt lastError w run Hrun Hle;
    [discriminate|].
  destruct fuel' as [|fuel']; [lia|].
  cbn [retryLoop] in *.
  destruct (attempt <=? maxRetries config); [|exact Hrun].
  destruct (operation w) as [o w'].
  destruct (race o) as [v|e]; [exact Hrun|].
  destruct (negb (isRetryableError e) || (attempt =? maxRetries config));
    [exact Hrun|].
  destruct (loop fuel (attempt + 1) (Some e) w') as [r|] eqn:Hr;
    [|discriminate].
  rewrite (IH fuel' _ _ _ _ Hr); [exact Hrun|lia].
Qed.

(** No more attempts than loop tests left. *)
Lemma retryLoop_attempts_le fuel : forall attempt lastError w run,
  loop fuel attempt lastError w = Some run ->
  (length (attempts run) <= testsLeft attempt)%nat.
Proof.
  induction fuel as [|fuel IH]; intros attempt lastError w run Hrun;
    [discriminate|].
  cbn [retryLoop] in Hrun.
  destruct (Z.leb_spec attempt (maxRetries config)) as [Hle|Hgt].
  2:{ injection Hrun as <-. cbn. lia. }
  rewrite (testsLeft_succ attempt Hle).
  destruct (operation w) as [o w'].
  destruct (race o) as [v|e].
  { injection Hrun as <-. cbn. lia. }
  destruct (negb (isRetryableError e) || (attempt =? maxRetries config)).
  { injection Hrun as <-. cbn. lia. }
  destruct (loop fuel (attempt + 1) (Some e) w') as [r|] eqn:Hr;
    [|discriminate].
  injection Hrun as <-. cbn. apply IH in Hr. lia.
Qed.

(** A fulfilled attempt is the last one, and its value is the result. *)
Lemma retryLoop_fulfilled fuel : forall attempt lastError w run i v,
  loop fuel attempt lastError w = Some run ->
  attempts run !! i = Some (Fulfilled v) ->
  attempts run !! S i = None /\ outcome run = Fulfilled v.
Proof.
  induction fuel as [|fuel IH]; intros attempt lastError w run i v Hrun Hi;
    [discriminate|].
  cbn [retryLoop] in Hrun.
  destruct (attempt <=? maxRetries config).
  2:{ injection Hrun as <-. discriminate. }
  destruct (operation w) as [o w'].
  destruct (race o) as [v'|e].
  { injection Hrun as <-. destruct i as [|i]; [|discriminate].
    cbn in Hi. injection Hi as ->. split; reflexivity. }
  destruct (negb (isRetryableError e) || (attempt =? maxRetries config)).
  { injection Hrun as <-. destruct i as [|i]; discriminate. }
  destruct (loop fuel (attempt + 1) (Some e) w') as [r|] eqn:Hr;
    [|discriminate].
  injection Hrun as <-. destruct i as [|i]; [discriminate|].
  cbn in Hi |- *. exact (IH _ _ _ _ _ _ Hr Hi).
Qed.

(** While the loop test passes, at least one attempt is made. *)
Lemma retryLoop_attempts_nonempty fuel attempt lastError w run :
  loop fuel attempt lastError w = Some run ->
  attempt <= maxRetries config ->
  exists a l, attempts run = a :: l.
Proof.
  destruct fuel as [|fuel]; intros Hrun Hle; [discriminate|].
  cbn [retryLoop] in Hrun.
  destruct (Z.leb_spec attempt (maxRetries config)); [|lia].
  destruct (operation w) as [o w'].
  destruct (race o) as [v|e].
  { injection Hrun as <-. cbn. eauto. }
  destruct (negb (isRetryableError e) || (attempt =? maxRetries config)).
  { injection Hrun as <-. cbn. eauto. }
  destruct (loop fuel (attempt + 1) (Some e) w'); [|discriminate].
  injection Hrun as <-. cbn. eauto.
Qed.

(** After a rejected attempt the loop goes on exactly when the error is
    retryable and the counter has not reached [maxRetries]. *)
Lemma retryLoop_rejected fuel : forall attempt lastError w run i e,
  loop fuel attempt lastError w = Some run ->
  attempts run !! i = Some (Rejected e) ->
  (is_Some (attempts run !! S i) <->
   isRetryableError e = true /\ attempt + Z.of_nat i < maxRetries config).
Proof.
  induction fuel as [|fuel IH]; intros attempt lastError w run i e Hrun Hi;
    [discriminate|].
  cbn [retryLoop] in Hrun.
  destruct (Z.leb_spec attempt (maxRetries config)) as [Hle|Hgt].
  2:{ injection Hrun as <-. discriminate. }
  destruct (operation w) as [o w'].
  destruct (race o) as [v'|e'].
  { injection Hrun as <-. destruct i as [|i]; discriminate. }
  destruct (isRetryableError e') eqn:Hretry; cbn [negb orb] in Hrun.
  - destruct (Z.eqb_spec attempt (maxRetries config)) as [Heq|Hne].
    + injection Hrun as <-. destruct i as [|i]; [|discriminate].
      cbn in Hi |- *. injection Hi as ->.
      split; [intros [? ?]; discriminate|intros [_ ?]; lia].
    + destruct (loop fuel (attempt + 1) (Some e') w') as [r|] eqn:Hr;
        [|discriminate].
      injection Hrun as <-. destruct i as [|i].
      * cbn in Hi |- *. injection Hi as ->.
        split; [intros _; split; [exact Hretry|lia]|intros _].
        destruct (retryLoop_attempts_nonempty _ _ _ _ _ Hr) as (a & l & ->);
          [lia|].
        cbn. eauto.
      * change (is_Some (attempts r !! S i) <->
                isRetryableError e = true /\
                attempt + Z.of_nat (S i) < maxRetries config).
        change (attempts r !! i = Some (Rejected e)) in Hi.
        rewrite (IH _ _ _ _ _ _ Hr Hi). intuition lia.
  - injection Hrun as <-. destruct i as [|i]; [|discriminate].
    cbn in Hi |- *. injection Hi as ->.
    split; [intros [? ?]; discriminate|intros [? _]; congruence].
Qed.

(** The promise settles as the last attempt did: fulfilled with its value,
    or rejected with the mapping of the last error (of [lastError] when no
    attempt was made). *)
Lemma retryLoop_outcome fuel : forall attempt lastError w run,
  loop fuel attempt lastError w = Some run ->
  match last (attempts run) with
  | Some (Fulfilled v) => outcome run = Fulfilled v
  | Some (Rejected e) =>
      outcome run = Rejected (thrownBy (mapToServiceError (Some e)))
  | None => outcome run = Rejected (thrownBy (mapToServiceError lastError))
  end.
Proof.
  induction fuel as [|fuel IH]; intros attempt lastError w run Hrun;
    [discriminate|].
  cbn [retryLoop] in Hrun.
  destruct (attempt <=? maxRetries config).
  2:{ injection Hrun as <-. reflexivity. }
  destruct (operation w) as [o w'].
  destruct (race o) as [v'|e'].
  { injection Hrun as <-. reflexivity. }
  destruct (negb (isRetryableError e') || (attempt =? maxRetries config)).
  { injection Hrun as <-. reflexivity. }
  destruct (loop fuel (attempt + 1) (Some e') w') as [r|] eqn:Hr;
    [|discriminate].
  injection Hrun as <-. apply IH in Hr. cbn [afterAttempt afterSleep attempts outcome].
  destruct (attempts r) as [|a l] eqn:Hl; [exact Hr|].
  change (last (Rejected e' :: a :: l)) with (last (a :: l)).
  destruct (last (a :: l)) as [[v|e]|] eqn:Hlast; [exact Hr|exact Hr|].
  apply last_None in Hlast. discriminate.
Qed.

(** One sleep between two consecutive attempts, and none else. *)
Lemma retryLoop_sleeps fuel : forall attempt lastError w run,
  loop fuel attempt lastError w = Some run ->
  length (sleeps run) = pred (length (attempts run)).
Proof.
  induction fuel as [|fuel IH]; intros attempt lastError w run Hrun;
    [discriminate|].
  cbn [retryLoop] in Hrun.
  destruct (Z.leb_spec attempt (maxRetries config)) as [Hle|Hgt].
  2:{ injection Hrun as <-. reflexivity. }
  destruct (operation w) as [o w'].
  destruct (race o) as [v'|e'].
  { injection Hrun as <-. reflexivity. }
  destruct (isRetryableError e') eqn:Hretry; cbn [negb orb] in Hrun.
  2:{ injection Hrun as <-. reflexivity. }
  destruct (Z.eqb_spec attempt (maxRetries config)) as [Heq|Hne].
  { injection Hrun as <-. reflexivity. }
  destruct (loop fuel (attempt + 1) (Some e') w') as [r|] eqn:Hr;
    [|discriminate].
  injection Hrun as <-. cbn. rewrite (IH _ _ _ _ Hr).
  destruct (retryLoop_attempts_nonempty _ _ _ _ _ Hr) as (a & l & ->); [lia|].
  reflexivity.
Qed.


End RetryFacts.

(** ** Classification and the retry decision *)


Lemma includesZ_elem (l : list Z) (n : Z) : Js.includesZ l n = true <-> n ∈ l.
Proof.
  unfold Js.includesZ. rewrite existsb_exists, list_elem_of_In. split.
  - intros (x & Hin & Heq). apply Z.eqb_eq in Heq. subst. exact Hin.
  - intros Hin. exists n. split; [exact Hin|apply Z.eqb_refl].
Qed.

(** [isRetryableError] accepts exactly the failures of the retryable set. *)
Lemma isRetryableError_set (e : JsError) :
  isRetryableError e = true <-> Spec.inRetryableSet e.
Proof.
  unfold isRetryableError, Spec.inRetryableSet, Spec.isTimeout,
    Spec.isConnectionFailure, Spec.hasStatus.
  destruct (Js.includes "timed out" (message e) ||
            Js.is_str (code e) "ETIMEDOUT"); [tauto|].
  destruct (response e) as [resp|].
  - rewrite includesZ_elem. split.
    + intros Hin. right.
      apply elem_of_cons in Hin as [Hin|Hin].
      * left. exists resp. split; [reflexivity|].
        apply list_elem_of_singleton. exact Hin.
      * right. left. exists resp. auto.
    + intros [Ht|[(r & Hr & Hin)|[(r & Hr & Hin)|Hc]]].
      * discriminate.
      * injection Hr as <-. apply list_elem_of_singleton in Hin.
        rewrite Hin. left.
      * injection Hr as <-. right. exact Hin.
      * discriminate.
  - split.
    + intros Hconn. right. right. right. exact Hconn.
    + intros [?|[(r & ? & _)|[(r & ? & _)|Hconn]]];
        try discriminate; exact Hconn.
Qed.


(** The error thrown for a status 400 with the context-length sub-code. *)
Lemma mapToServiceError_context_length (e : JsError) (resp : HttpResponse) :
  response e = Some resp ->
  Spec.isContextLength400 resp = true ->
  mapToServiceError (Some e) =
  Returned {| message := "Prompt exceeds maximum context length for the model";
              code := Some "context_length_exceeded";
              response := None;
              errorCode := Some CONTEXT_LENGTH_EXCEEDED |}.
Proof.
  intros Hresp Hctx. unfold mapToServiceError. rewrite Hresp.
  unfold Spec.isContextLength400 in Hctx.
  apply andb_true_iff in Hctx as [H400 Hdata]. rewrite H400.
  destruct (resp_data resp) as [data|]; [|discriminate].
  rewrite Hdata. reflexivity.
Qed.


(** ** The retry engine *)

Section EngineFacts.

Context {A W : Type}.
Variable operation : W -> Raced A * W.
Variable random : Z -> Q.
Variable options : RetryOptions.

(** [executeWithRetry] settles, whatever the operation does. *)
Lemma executeWithRetry_total (w : W) :
  exists run, executeWithRetry operation random options w = Some run.
Proof.
  unfold executeWithRetry. apply retryLoop_total. unfold testsLeft.
  rewrite Z.sub_0_r. lia.
Qed.

(** The fuel [executeWithRetry] hands to the loop is no limit of its own:
    with any larger amount the loop gives the same run. *)
Lemma executeWithRetry_fuel (w : W) (run : Run A W) (fuel : nat) :
  executeWithRetry operation random options w = Some run ->
  (Z.to_nat (maxRetries (mergeConfig options) + 1) < fuel)%nat ->
  retryLoop operation random (mergeConfig options) fuel 0 None w = Some run.
Proof.
  unfold executeWithRetry. intros Hrun Hfuel.
  eapply retryLoop_more_fuel; [exact Hrun|lia].
Qed.


End EngineFacts.



(** C2. For every wrapped operation, whatever it does: [executeWithRetry]
    ends in a terminal state, fulfilled with the value of its last attempt
    (Succeeded) or rejected (Exhausted), after at most [maxRetries + 1]
    attempts, which is three attempts with the default configuration.  The
    bound is the loop's own: more fuel gives the same run. *)
Theorem executeWithRetry_terminates {A W : Type}
    (operation : W -> Raced A * W) (random : Z -> Q) (options : RetryOptions)
    (w : W) :
  exists run,
    executeWithRetry operation random options w = Some run /\
    (forall fuel,
       (Z.to_nat (maxRetries (mergeConfig options) + 1) < fuel)%nat ->
       retryLoop operation random (mergeConfig options) fuel 0 None w = Some run) /\
    ((exists v, outcome run = Fulfilled v /\
                last (attempts run) = Some (Fulfilled v)) \/
     (exists e, outcome run = Rejected e)) /\
    (length (attempts run) <= Z.to_nat (maxRetries (mergeConfig options) + 1))%nat /\
    (opt_maxRetries options = None -> (length (attempts run) <= 3)%nat).
Proof.
  destruct (executeWithRetry_total operation random options w) as [run Hrun].
  exists run. split; [exact Hrun|].
  split; [intros fuel; apply executeWithRetry_fuel; exact Hrun|].
  assert (Hlen : (length (attempts run) <=
                  Z.to_nat (maxRetries (mergeConfig options) + 1))%nat).
  { unfold executeWithRetry in Hrun.
    apply retryLoop_attempts_le in Hrun. unfold testsLeft in Hrun.
    rewrite Z.sub_0_r in Hrun. exact Hrun. }
  split.
  - unfold executeWithRetry in Hrun.
    pose proof (retryLoop_outcome _ _ _ _ _ _ _ _ Hrun) as Hout.
    destruct (last (attempts run)) as [[v|e]|]; eauto.
  - split; [exact Hlen|].
    intros Hdefault. unfold mergeConfig in Hlen. rewrite Hdefault in Hlen.
    cbn in Hlen. lia.
Qed.

(** A backend that answers 429 twice and then succeeds: three attempts, two
    sleeps, and the value of the third attempt. *)
Example retry_after_two_rate_limits :
  let e429 := {| message := "Too Many Requests"; code := None;
                 response := Some {| resp_status := 429; resp_data := None |};
                 errorCode := None |} in
  let operation (n : nat) : Raced string * nat :=
    (if (n <? 2)%nat then InTime (Rejected e429)
     else InTime (Fulfilled "Hi there"), S n) in
  exists d0 d1,
    executeWithRetry operation (fun _ => 0%Q) noOptions 0%nat =
    Some {| outcome := Fulfilled "Hi there";
            attempts := [Rejected e429; Rejected e429; Fulfilled "Hi there"];
            sleeps := [d0; d1];
            world := 3%nat |}.
Proof. cbv zeta. eexists _, _. vm_compute. reflexivity. Qed.

(** An operation that never settles in time is given up after three
    time-outs; the raw time-out error is thrown. *)
Example retry_gives_up_after_three_timeouts :
  let operation (n : nat) : Raced string * nat := (StillPending, S n) in
  exists run,
    executeWithRetry operation (fun _ => 0%Q) noOptions 0%nat = Some run /\
    attempts run = replicate 3 (Rejected (newError "Request timed out")) /\
    outcome run = Rejected (newError "Request timed out") /\
    world run = 3%nat.
Proof. cbv zeta. eexists. vm_compute. repeat split. Qed.

(** ** Error mapping *)




(** ** The service: what a call leaves behind *)

Lemma JSON_stringify_nonempty (r : ResponseData) : JSON_stringify r <> EmptyString.
Proof. unfold JSON_stringify. discriminate. Qed.


Section ServiceFacts.

Context `{JsNumber Number} {B : Type}.
Variable create : ApiRequest Number -> B -> Raced ApiResponse * B.
Variable random : Z -> Q.
Variable JSON_parse : string -> Completion ResponseData.

(** One backend call leaves the cache alone and records its request. *)
Lemma callBackend_frame (request : ApiRequest Number)
    (st st' : ServiceState Number B) (o : Raced ApiResponse) :
  callBackend create request st = (o, st') ->
  st_cache st' = st_cache st /\ st_writes st' = st_writes st /\
  st_requests st' = (st_requests st ++ [request])%list.
Proof.
  unfold callBackend. destruct (create request (st_backend st)) as [o' b'].
  intros [= <- <-]. auto.
Qed.

(** The retry loop around [callBackend] leaves the cache alone and sends one
    request per attempt. *)
Lemma retryLoop_callBackend_frame (request : ApiRequest Number)
    (config : Config) (fuel : nat) :
  forall attempt lastError st run,
    retryLoop (callBackend create request) random config fuel attempt lastError st
      = Some run ->
    st_cache (world run) = st_cache st /\
    st_writes (world run) = st_writes st /\
    st_requests (world run) =
      (st_requests st ++ replicate (length (attempts run)) request)%list.
Proof.
  induction fuel as [|fuel IH]; intros attempt lastError st run Hrun;
    [discriminate|].
  cbn [retryLoop] in Hrun.
  destruct (attempt <=? maxRetries config).
  2:{ injection Hrun as <-. cbn. rewrite app_nil_r. auto. }
  destruct (callBackend create request st) as [o st1] eqn:Hcall.
  apply callBackend_frame in Hcall as (Hc & Hw & Hr).
  destruct (race o) as [v|e].
  { injection Hrun as <-. cbn. auto. }
  destruct (negb (isRetryableError e) || (attempt =? maxRetries config)).
  { injection Hrun as <-. cbn. auto. }
  destruct (retryLoop (callBackend create request) random config fuel
              (attempt + 1) (Some e) st1) as [r|] eqn:Hrec; [|discriminate].
  injection Hrun as <-. cbn.
  destruct (IH _ _ _ _ Hrec) as (Hc' & Hw' & Hr').
  rewrite Hc', Hw', Hr', Hc, Hw, Hr, <- app_assoc. auto.
Qed.

(** [generateText] settles, whatever the backend does. *)
Lemma generateText_total (params : GenerateParams Number)
    (st : ServiceState Number B) :
  exists result st',
    generateText create random JSON_parse params st = Some (result, st').
Proof.
  unfold generateText.
  match goal with
  | |- context [if Js.truthy_str ?c then _ else _] => destruct (Js.truthy_str c)
  end; [eauto|].
  unfold generateFresh.
  match goal with
  | |- context [executeWithRetry ?op random noOptions st] =>
      destruct (executeWithRetry_total op random noOptions st) as [run ->]
  end.
  cbn [mbind option_bind].
  match goal with
  | |- exists result st', Some ?x = Some (result, st') =>
      exists (fst x), (snd x); destruct x; reflexivity
  end.
Qed.

(** A call that is answered from the cache: the parsed entry is the result
    and the state is untouched. *)
Lemma generateText_hit (params : GenerateParams Number)
    (st : ServiceState Number B) (cached : string) :
  default true (p_useCaching params) = true ->
  Cache.get
    (lookupCacheKey (default "gpt-4" (p_model params))
       (default num_0_7 (p_temperature params))
       (default 1000 (p_maxTokens params)) (p_prompt params)
       (default EmptyString (p_systemPrompt params)))
    (st_cache st) = Some cached ->
  cached <> EmptyString ->
  generateText create random JSON_parse params st =
  Some (settle (JSON_parse cached), st).
Proof.
  intros Hcaching Hget Hne. unfold generateText.
  rewrite Hcaching, Hget. cbn.
  destruct (String.eqb_spec cached EmptyString) as [->|_]; [congruence|].
  reflexivity.
Qed.

(** A call that is fulfilled with a fresh result while caching is on: the
    backend was asked at least once and at most [maxRetries + 1 = 3] times,
    and the one cache write stores the serialised result under the key of
    the request with the time-to-live [cacheTTL]. *)
Lemma generateText_fresh (params : GenerateParams Number)
    (st st' : ServiceState Number B) (r : ResponseData) :
  let key :=
    writeCacheKey (default "gpt-4" (p_model params))
      (default num_0_7 (p_temperature params))
      (default 1000 (p_maxTokens params)) (p_prompt params)
      (default EmptyString (p_systemPrompt params)) in
  default true (p_useCaching params) = true ->
  Js.truthy_str (Cache.get key (st_cache st)) = false ->
  generateText create random JSON_parse params st = Some (Fulfilled r, st') ->
  st_writes st' =
    (st_writes st ++ [(key, JSON_stringify r, cacheTTL (totalTokens (usage r)))])%list /\
  st_cache st' =
    Cache.set key (JSON_stringify r) (cacheTTL (totalTokens (usage r))) (st_cache st) /\
  exists n request, (1 <= n <= 3)%nat /\
    st_requests st' = (st_requests st ++ replicate n request)%list.
Proof.
  intros key Hcaching Hmiss. unfold generateText.
  rewrite Hcaching. fold key.
  change (lookupCacheKey (default "gpt-4" (p_model params))
            (default num_0_7 (p_temperature params))
            (default 1000 (p_maxTokens params)) (p_prompt params)
            (default EmptyString (p_systemPrompt params))) with key.
  rewrite Hmiss. unfold generateFresh.
  match goal with
  | |- context [executeWithRetry ?op random noOptions st] =>
      destruct (executeWithRetry op random noOptions st) as [run|] eqn:Hrun
  end; [|discriminate].
  cbn [mbind option_bind].
  pose proof Hrun as Hframe. unfold executeWithRetry in Hframe.
  pose proof (retryLoop_attempts_le _ _ _ _ _ _ _ _ Hframe) as Hle.
  pose proof (retryLoop_outcome _ _ _ _ _ _ _ _ Hframe) as Hout.
  apply retryLoop_callBackend_frame in Hframe as (Hc & Hw & Hr).
  destruct (outcome run) as [result|e] eqn:Hres; [|discriminate].
  destruct (choices result) as [|generatedText rest]; [discriminate|].
  destruct (api_usage result) as [u|]; [|discriminate].
  intros [= <- <-]. cbn. rewrite Hc, Hw. fold key. repeat split.
  eexists _, _. split; [|exact Hr].
  change (testsLeft (mergeConfig noOptions) 0) with 3%nat in Hle.
  split; [|exact Hle].
  destruct (attempts run) as [|a l]; [|cbn; lia].
  cbn in Hout. congruence.
Qed.

(** The service only ever stores non-empty values. *)
Lemma generateText_nonEmptyValues (params : GenerateParams Number)
    (st st' : ServiceState Number B) (result : Settled ResponseData) :
  Cache.nonEmptyValues (st_cache st) ->
  generateText create random JSON_parse params st = Some (result, st') ->
  Cache.nonEmptyValues (st_cache st').
Proof.
  intros Hinv. unfold generateText.
  match goal with
  | |- context [if Js.truthy_str ?c then _ else _] => destruct (Js.truthy_str c)
  end.
  { intros [= _ <-]. exact Hinv. }
  unfold generateFresh.
  match goal with
  | |- context [executeWithRetry ?op random noOptions st] =>
      destruct (executeWithRetry op random noOptions st) as [run|] eqn:Hrun
  end; [|discriminate].
  cbn [mbind option_bind].
  unfold executeWithRetry in Hrun.
  apply retryLoop_callBackend_frame in Hrun as (Hc & _ & _).
  rewrite <- Hc in Hinv.
  destruct (outcome run) as [response|e]; [|intros [= _ <-]; exact Hinv].
  destruct (choices response) as [|generatedText rest];
    [intros [= _ <-]; exact Hinv|].
  destruct (api_usage response) as [u|]; [|intros [= _ <-]; exact Hinv].
  destruct (default true (p_useCaching params));
    [|intros [= _ <-]; exact Hinv].
  intros [= _ <-]. cbn [cacheSet st_cache].
  intros key value. unfold Cache.get, Cache.set.
  rewrite lookup_insert. case_decide as Hkey.
  - cbn. intros [= <-]. apply JSON_stringify_nonempty.
  - intros Hget. exact (Hinv key value Hget).
Qed.

End ServiceFacts.

(** ** Encodings: printing is injective and never writes a colon *)

Module EncodingFacts.

Import Encoding.

(** A string is a prefix of what it is joined with. *)
Lemma prefix_append (a b : string) : String.prefix a (a +:+ b) = true.
Proof.
  induction a as [|c a IH]; [destruct b; reflexivity|].
  change (String c a +:+ b) with (String c (a +:+ b)).
  cbn [String.prefix]. destruct (Ascii.ascii_dec c c); [exact IH|contradiction].
Qed.

Lemma chars_append (a b : string) : chars (a +:+ b) = (chars a ++ chars b)%list.
Proof.
  unfold chars. induction a as [|c a IH]; [reflexivity|].
  change (String c a +:+ b) with (String c (a +:+ b)).
  cbn [list_ascii_of_string app]. f_equal. exact IH.
Qed.

Lemma chars_inj (a b : string) : chars a = chars b -> a = b.
Proof.
  unfold chars. intros E.
  rewrite <- (string_of_list_ascii_of_string a),
          <- (string_of_list_ascii_of_string b), E.
  reflexivity.
Qed.

(** Cutting at the first occurrence of a separator is unambiguous. *)
Lemma split_first {X : Type} (c : X) (a1 a2 b1 b2 : list X) :
  c ∉ a1 -> c ∉ a2 ->
  (a1 ++ c :: b1 = a2 ++ c :: b2)%list -> a1 = a2 /\ b1 = b2.
Proof.
  revert a2. induction a1 as [|x a1 IH]; intros [|y a2] H1 H2 E; cbn in E.
  - injection E as ->. auto.
  - injection E as <- _. exfalso. apply H2. left.
  - injection E as -> _. exfalso. apply H1. left.
  - injection E as -> E.
    destruct (IH a2) as [-> ->]; auto.
    + intros Hin. apply H1. right. exact Hin.
    + intros Hin. apply H2. right. exact Hin.
Qed.

(** Cutting at the last occurrence of a separator is unambiguous. *)
Lemma split_last {X : Type} (c : X) (a1 a2 b1 b2 : list X) :
  c ∉ b1 -> c ∉ b2 ->
  (a1 ++ c :: b1 = a2 ++ c :: b2)%list -> a1 = a2 /\ b1 = b2.
Proof.
  intros H1 H2 E. apply (f_equal (@rev X)) in E.
  rewrite !rev_app_distr in E. cbn in E. rewrite <- !app_assoc in E. cbn in E.
  apply split_first in E as [Eb Ea].
  - split; apply rev_inj; assumption.
  - rewrite list_elem_of_In, <- in_rev, <- list_elem_of_In. exact H1.
  - rewrite list_elem_of_In, <- in_rev, <- list_elem_of_In. exact H2.
Qed.

(** *** Decimal printing *)

Lemma uint_numerals (d : Decimal.uint) (c : ascii) :
  c ∈ chars (NilEmpty.string_of_uint d) -> isNumeral c = true.
Proof.
  unfold chars.
  induction d; cbn; intros Hin;
    try (apply elem_of_cons in Hin as [->|Hin]; [reflexivity|auto]).
  apply elem_of_nil in Hin. contradiction.
Qed.

Lemma showZ_numerals (z : Z) (c : ascii) :
  c ∈ chars (showZ z) -> isNumeral c = true.
Proof.
  unfold showZ, NilZero.string_of_int, NilZero.string_of_uint.
  destruct (Z.to_int z) as [d|d]; intros Hin.
  - destruct d; try (eapply uint_numerals; exact Hin).
    apply list_elem_of_singleton in Hin as ->. reflexivity.
  - unfold chars in Hin. cbn in Hin.
    apply elem_of_cons in Hin as [->|Hin]; [reflexivity|].
    destruct d; try (eapply uint_numerals; exact Hin).
    apply list_elem_of_singleton in Hin as ->. reflexivity.
Qed.

Lemma showZ_colonFree (z : Z) : colonFree (showZ z).
Proof. intros Hin. apply showZ_numerals in Hin. discriminate. Qed.

Lemma to_int_proper (z : Z) :
  Z.to_int z <> Decimal.Pos Decimal.Nil /\ Z.to_int z <> Decimal.Neg Decimal.Nil.
Proof.
  destruct z as [|p|p]; cbn; split; try discriminate;
    intros [= E]; exact (Unsigned.to_uint_nonnil p E).
Qed.

Lemma showZ_inj (a b : Z) : showZ a = showZ b -> a = b.
Proof.
  unfold showZ. intros E.
  apply (f_equal NilZero.int_of_string) in E.
  destruct (to_int_proper a) as [Ha1 Ha2], (to_int_proper b) as [Hb1 Hb2].
  rewrite !NilZero.isi in E by assumption.
  injection E as E. apply DecimalZ.to_int_inj. exact E.
Qed.

End EncodingFacts.

Module Base64Facts.

Import Encoding EncodingFacts.
Local Open Scope N_scope.

(** Induction on a list three elements at a time, as [base64_bytes]
    recurses. *)
Lemma list_ind3 {X : Type} (P : list X -> Prop) :
  P [] -> (forall a, P [a]) -> (forall a b, P [a; b]) ->
  (forall a b c l, P l -> P (a :: b :: c :: l)) ->
  forall l, P l.
Proof.
  intros H0 H1 H2 H3.
  assert (Hall : forall n (l : list X), (length l <= n)%nat -> P l).
  { induction n as [|n IH]; intros l Hl.
    - destruct l; [exact H0|cbn in Hl; lia].
    - destruct l as [|a [|b [|c l]]]; auto.
      apply H3. apply IH. cbn in Hl. lia. }
  intros l. exact (Hall (length l) l (Nat.le_refl _)).
Qed.

Lemma sextet_listed (n : N) : n < 64 -> In n sextets.
Proof.
  intros Hn. unfold sextets. rewrite <- (N2Nat.id n).
  apply in_map, in_seq. lia.
Qed.

(** Every six-bit value has a digit of its own, which is neither the
    padding character nor a colon. *)
Lemma b64char_table :
  forallb (fun n => (b64index (b64char n) =? n) &&
                    negb (Ascii.eqb (b64char n) "=") &&
                    negb (Ascii.eqb (b64char n) ":")) sextets = true.
Proof. vm_compute. reflexivity. Qed.

Lemma b64char_facts (n : N) :
  n < 64 ->
  b64index (b64char n) = n /\ b64char n <> "="%char /\ b64char n <> ":"%char.
Proof.
  intros Hn. pose proof b64char_table as Htab.
  rewrite forallb_forall in Htab. specialize (Htab n (sextet_listed n Hn)).
  apply andb_true_iff in Htab as [Htab H3].
  apply andb_true_iff in Htab as [H1 H2].
  apply N.eqb_eq in H1. apply negb_true_iff, Ascii.eqb_neq in H2, H3. auto.
Qed.

Lemma b64char_inj (m n : N) : m < 64 -> n < 64 -> b64char m = b64char n -> m = n.
Proof.
  intros Hm Hn E.
  destruct (b64char_facts m Hm) as [<- _], (b64char_facts n Hn) as [<- _].
  rewrite E. reflexivity.
Qed.

Lemma byte_bound (a : ascii) : N_of_ascii a < 256.
Proof. apply N_ascii_bounded. Qed.

Lemma N_of_ascii_inj (a b : ascii) : N_of_ascii a = N_of_ascii b -> a = b.
Proof.
  intros E. rewrite <- (ascii_N_embedding a), <- (ascii_N_embedding b), E.
  reflexivity.
Qed.

(** The bounds of the four six-bit groups of three bytes. *)
Lemma hi6_bound (x : N) : x < 256 -> x / 4 < 64.
Proof. intros. apply N.Div0.div_lt_upper_bound. exact H. Qed.

Lemma sextet2_bound (x y : N) : y < 256 -> x mod 4 * 16 + y / 16 < 64.
Proof.
  intros Hy. pose proof (N.mod_lt x 4 ltac:(discriminate)).
  assert (y / 16 < 16) by (apply N.Div0.div_lt_upper_bound; exact Hy). lia.
Qed.

Lemma sextet3_bound (y z : N) : z < 256 -> y mod 16 * 4 + z / 64 < 64.
Proof.
  intros Hz. pose proof (N.mod_lt y 16 ltac:(discriminate)).
  assert (z / 64 < 4) by (apply N.Div0.div_lt_upper_bound; exact Hz). lia.
Qed.

Lemma lo6_bound (z : N) : z mod 64 < 64.
Proof. apply N.mod_lt. discriminate. Qed.

Lemma digits_split (k a b a' b' : N) :
  b < k -> b' < k -> a * k + b = a' * k + b' -> a = a' /\ b = b'.
Proof.
  intros Hb Hb' E. apply (N.div_mod_unique k); try assumption.
  rewrite !(N.mul_comm k). exact E.
Qed.

Lemma rebuild (k x x' : N) :
  k <> 0 -> x / k = x' / k -> x mod k = x' mod k -> x = x'.
Proof.
  intros Hk Hq Hr.
  rewrite (N.div_mod x k Hk), (N.div_mod x' k Hk), Hq, Hr. reflexivity.
Qed.

Lemma sextet2_bound0 (x : N) : x mod 4 * 16 < 64.
Proof. pose proof (N.mod_lt x 4 ltac:(discriminate)). lia. Qed.

Lemma sextet3_bound0 (y : N) : y mod 16 * 4 < 64.
Proof. pose proof (N.mod_lt y 16 ltac:(discriminate)). lia. Qed.

(** The digits of one, two and three bytes determine the bytes. *)
Lemma one_byte_inj (a a' : ascii) :
  b64char (N_of_ascii a / 4) = b64char (N_of_ascii a' / 4) ->
  b64char (N_of_ascii a mod 4 * 16) = b64char (N_of_ascii a' mod 4 * 16) ->
  a = a'.
Proof.
  intros E1 E2.
  apply b64char_inj in E1; try (apply hi6_bound, byte_bound).
  apply b64char_inj in E2; try apply sextet2_bound0.
  apply N_of_ascii_inj, (rebuild 4); [discriminate|exact E1|lia].
Qed.

Lemma two_bytes_inj (a b a' b' : ascii) :
  b64char (N_of_ascii a / 4) = b64char (N_of_ascii a' / 4) ->
  b64char (N_of_ascii a mod 4 * 16 + N_of_ascii b / 16) =
  b64char (N_of_ascii a' mod 4 * 16 + N_of_ascii b' / 16) ->
  b64char (N_of_ascii b mod 16 * 4) = b64char (N_of_ascii b' mod 16 * 4) ->
  a = a' /\ b = b'.
Proof.
  intros E1 E2 E3.
  apply b64char_inj in E1; try (apply hi6_bound, byte_bound).
  apply b64char_inj in E2; try (apply sextet2_bound, byte_bound).
  apply b64char_inj in E3; try apply sextet3_bound0.
  apply digits_split in E2 as [E2a E2b];
    try (apply N.Div0.div_lt_upper_bound, byte_bound).
  split; apply N_of_ascii_inj.
  - apply (rebuild 4); [discriminate|exact E1|exact E2a].
  - apply (rebuild 16); [discriminate|exact E2b|lia].
Qed.

Lemma three_bytes_inj (a b c a' b' c' : ascii) :
  b64char (N_of_ascii a / 4) = b64char (N_of_ascii a' / 4) ->
  b64char (N_of_ascii a mod 4 * 16 + N_of_ascii b / 16) =
  b64char (N_of_ascii a' mod 4 * 16 + N_of_ascii b' / 16) ->
  b64char (N_of_ascii b mod 16 * 4 + N_of_ascii c / 64) =
  b64char (N_of_ascii b' mod 16 * 4 + N_of_ascii c' / 64) ->
  b64char (N_of_ascii c mod 64) = b64char (N_of_ascii c' mod 64) ->
  a = a' /\ b = b' /\ c = c'.
Proof.
  intros E1 E2 E3 E4.
  apply b64char_inj in E1; try (apply hi6_bound, byte_bound).
  apply b64char_inj in E2; try (apply sextet2_bound, byte_bound).
  apply b64char_inj in E3; try (apply sextet3_bound, byte_bound).
  apply b64char_inj in E4; try apply lo6_bound.
  apply digits_split in E2 as [E2a E2b];
    try (apply N.Div0.div_lt_upper_bound, byte_bound).
  apply digits_split in E3 as [E3a E3b];
    try (apply N.Div0.div_lt_upper_bound, byte_bound).
  repeat split; apply N_of_ascii_inj.
  - apply (rebuild 4); [discriminate|exact E1|exact E2a].
  - apply (rebuild 16); [discriminate|exact E2b|exact E3a].
  - apply (rebuild 64); [discriminate|exact E3b|exact E4].
Qed.

(** A digit is not the padding character. *)
Lemma digit_not_padding (n : N) : n < 64 -> "="%char <> b64char n.
Proof. intros Hn E. destruct (b64char_facts n Hn) as (_ & Hpad & _). auto. Qed.

(** Base64 is injective on byte sequences. *)
Lemma base64_bytes_inj (l1 : list ascii) :
  forall l2, base64_bytes l1 = base64_bytes l2 -> l1 = l2.
Proof.
  induction l1 as [|a|a b|a b c l1 IH] using list_ind3;
    intros [|a' [|b' [|c' l2]]] E; cbn [base64_bytes] in E;
    try discriminate; try reflexivity.
  - injection E as E1 E2. f_equal. exact (one_byte_inj a a' E1 E2).
  - injection E as _ _ E3. exfalso.
    exact (digit_not_padding _ (sextet3_bound0 _) E3).
  - injection E as _ _ E3 _. exfalso.
    exact (digit_not_padding _ (sextet3_bound _ _ (byte_bound _)) E3).
  - injection E as _ _ E3. exfalso. symmetry in E3.
    exact (digit_not_padding _ (sextet3_bound0 _) E3).
  - injection E as E1 E2 E3.
    destruct (two_bytes_inj a b a' b' E1 E2 E3) as [-> ->]. reflexivity.
  - injection E as _ _ _ E4. exfalso.
    exact (digit_not_padding _ (lo6_bound _) E4).
  - injection E as _ _ E3 _. exfalso. symmetry in E3.
    exact (digit_not_padding _ (sextet3_bound _ _ (byte_bound _)) E3).
  - injection E as _ _ _ E4. exfalso. symmetry in E4.
    exact (digit_not_padding _ (lo6_bound _) E4).
  - injection E as E1 E2 E3 E4 E5.
    destruct (three_bytes_inj a b c a' b' c' E1 E2 E3 E4) as (-> & -> & ->).
    rewrite (IH l2 E5). reflexivity.
Qed.

(** Base64 tells apart what [Buffer.from] tells apart. *)
Lemma base64_inj (s1 s2 : string) : base64 s1 = base64 s2 -> utf8 s1 = utf8 s2.
Proof. unfold base64. intros E. apply chars_inj, base64_bytes_inj, E. Qed.

(** On well-formed text [Buffer.from] changes nothing. *)
Lemma utf8_wellFormed (s : string) : wellFormed s = true -> utf8 s = s.
Proof.
  induction s as [|c1 s1 IH]; [reflexivity|].
  destruct s1 as [|c2 [|c3 rest]].
  - reflexivity.
  - reflexivity.
  - intros Hwf.
    change (wellFormed (String c1 (String c2 (String c3 rest)))) with
      (negb (surrogateLead c1 c2) && wellFormed (String c2 (String c3 rest)))
      in Hwf.
    apply andb_true_iff in Hwf as [Hlead Hrest].
    apply negb_true_iff in Hlead.
    change (utf8 (String c1 (String c2 (String c3 rest)))) with
      (if surrogateLead c1 c2 then
         String (ascii_of_N 239)
           (String (ascii_of_N 191) (String (ascii_of_N 189) (utf8 rest)))
       else String c1 (utf8 (String c2 (String c3 rest)))).
    rewrite Hlead, (IH Hrest). reflexivity.
Qed.

(** A string without the byte ED is well-formed. *)
Lemma wellFormed_without_lead (s : string) :
  Forall (fun c => N_of_ascii c <> 237) (chars s) -> wellFormed s = true.
Proof.
  induction s as [|c1 s1 IH]; [reflexivity|].
  intros Hs. apply Forall_cons in Hs as [Hc Hs1].
  destruct s1 as [|c2 s2]; [reflexivity|].
  change (wellFormed (String c1 (String c2 s2))) with
    (negb (surrogateLead c1 c2) && wellFormed (String c2 s2)).
  rewrite (IH Hs1), andb_true_r.
  unfold surrogateLead. destruct (N.eqb_spec (N_of_ascii c1) 237); [lia|].
  reflexivity.
Qed.

(** On well-formed text base64 is injective. *)
Lemma base64_inj_wellFormed (s1 s2 : string) :
  wellFormed s1 = true -> wellFormed s2 = true ->
  base64 s1 = base64 s2 -> s1 = s2.
Proof.
  intros H1 H2 E. apply base64_inj in E.
  rewrite (utf8_wellFormed s1 H1), (utf8_wellFormed s2 H2) in E. exact E.
Qed.

(** Base64 never writes a colon. *)
Lemma base64_bytes_colonFree (l : list ascii) : colonFree (base64_bytes l).
Proof.
  unfold colonFree, chars.
  assert (Hd : forall n, n < 64 -> ":"%char <> b64char n).
  { intros n Hn E. destruct (b64char_facts n Hn) as (_ & _ & Hc). auto. }
  induction l as [|a|a b|a b c l IH] using list_ind3;
    cbn [base64_bytes list_ascii_of_string];
    rewrite ?elem_of_cons, ?elem_of_nil.
  - tauto.
  - intros [E|[E|[E|[E|[]]]]]; try discriminate.
    + exact (Hd _ (hi6_bound _ (byte_bound _)) E).
    + exact (Hd _ (sextet2_bound0 _) E).
  - intros [E|[E|[E|[E|[]]]]]; try discriminate.
    + exact (Hd _ (hi6_bound _ (byte_bound _)) E).
    + exact (Hd _ (sextet2_bound _ _ (byte_bound _)) E).
    + exact (Hd _ (sextet3_bound0 _) E).
  - intros [E|[E|[E|[E|E]]]].
    + exact (Hd _ (hi6_bound _ (byte_bound _)) E).
    + exact (Hd _ (sextet2_bound _ _ (byte_bound _)) E).
    + exact (Hd _ (sextet3_bound _ _ (byte_bound _)) E).
    + exact (Hd _ (lo6_bound _) E).
    + exact (IH E).
Qed.

Lemma base64_colonFree (s : string) : colonFree (base64 s).
Proof. apply base64_bytes_colonFree. Qed.

End Base64Facts.

(** ** The encodings on examples *)

Example base64_examples :
  Encoding.base64 "Hello" = "SGVsbG8=" /\
  Encoding.base64 "Hi" = "SGk=" /\
  Encoding.base64 "abc" = "YWJj" /\
  Encoding.base64 EmptyString = EmptyString.
Proof. repeat split. Qed.

Example showZ_examples :
  Encoding.showZ 1000 = "1000" /\ Encoding.showZ 0 = "0" /\
  Encoding.showZ (-5) = "-5".
Proof. repeat split. Qed.

Example tenths_examples :
  Tenths.toString 7 = "0.7" /\ Tenths.toString 10 = "1" /\
  Tenths.toString 0 = "0" /\ Tenths.toString 15 = "1.5".
Proof. repeat split. Qed.

Example cacheKey_example :
  lookupCacheKey "gpt-4" 7%N 1000 "Hello" EmptyString =
  "openai:text:gpt-4:0.7:1000:SGVsbG8=:".
Proof. reflexivity. Qed.

(** ** The instance [Tenths] prints injectively and without a colon *)

Module TenthsFacts.

Import Encoding EncodingFacts.

Lemma dot_not_numeral (z : Z) : "."%char ∉ chars (showZ z).
Proof. intros Hin. apply showZ_numerals in Hin. discriminate. Qed.

Lemma toString_chars (n : N) :
  chars (Tenths.toString n) =
  (chars (showZ (Z.of_N (n / 10))) ++
   (if (n mod 10 =? 0)%N then []
    else "."%char :: chars (showZ (Z.of_N (n mod 10)))))%list.
Proof.
  unfold Tenths.toString. rewrite chars_append.
  destruct (n mod 10 =? 0)%N; [reflexivity|].
  rewrite chars_append. reflexivity.
Qed.

Lemma toString_inj (a b : N) : Tenths.toString a = Tenths.toString b -> a = b.
Proof.
  intros E. apply (f_equal chars) in E. rewrite !toString_chars in E.
  destruct (N.eqb_spec (a mod 10) 0) as [Ha|Ha],
           (N.eqb_spec (b mod 10) 0) as [Hb|Hb].
  - rewrite !app_nil_r in E. apply chars_inj, showZ_inj, N2Z.inj in E.
    apply (Base64Facts.rebuild 10); [discriminate|exact E|congruence].
  - exfalso. apply (dot_not_numeral (Z.of_N (a / 10))).
    rewrite app_nil_r in E. rewrite E. apply elem_of_app. right. left.
  - exfalso. apply (dot_not_numeral (Z.of_N (b / 10))).
    rewrite app_nil_r in E. rewrite <- E. apply elem_of_app. right. left.
  - apply split_first in E as [Eq Er]; try apply dot_not_numeral.
    apply chars_inj, showZ_inj, N2Z.inj in Eq, Er.
    apply (Base64Facts.rebuild 10); [discriminate|exact Eq|exact Er].
Qed.

Lemma toString_colonFree (n : N) : colonFree (Tenths.toString n).
Proof.
  unfold colonFree. rewrite toString_chars. rewrite elem_of_app.
  intros [Hin|Hin].
  - exact (showZ_colonFree _ Hin).
  - destruct (n mod 10 =? 0)%N.
    + apply elem_of_nil in Hin. exact Hin.
    + apply elem_of_cons in Hin as [E|Hin]; [discriminate|].
      exact (showZ_colonFree _ Hin).
Qed.

End TenthsFacts.

(** ** The cache key *)

Section CacheKeyFacts.

Context `{JsNumber Number}.

Import Encoding EncodingFacts.

(** The characters of the key: the fixed prefix, the model, and four fields
    each behind a colon. *)
Lemma lookupCacheKey_chars (model : string) (temperature : Number)
    (maxTokens : Z) (prompt systemPrompt : string) :
  chars (lookupCacheKey model temperature maxTokens prompt systemPrompt) =
  (((((chars "openai:text:" ++ chars model) ++
      ":"%char :: chars (numberToString temperature)) ++
     ":"%char :: chars (showZ maxTokens)) ++
    ":"%char :: chars (base64 prompt)) ++
   ":"%char :: chars (base64 systemPrompt))%list.
Proof.
  unfold lookupCacheKey. rewrite !chars_append.
  change (chars ":") with [":"%char].
  rewrite <- !app_assoc. reflexivity.
Qed.

End CacheKeyFacts.

(** C5, as the specification states it, fails: [Buffer.from] writes U+FFFD
    for every unpaired surrogate, so the prompts U+D800, U+D801 and U+FFFD,
    three different strings, have the same key. *)
Lemma unpaired_surrogates_share_a_key :
  let surrogate (low : N) :=
    String (ascii_of_N 237) (String (ascii_of_N 160) (String (ascii_of_N low) "")) in
  let replacement :=
    String (ascii_of_N 239) (String (ascii_of_N 191) (String (ascii_of_N 189) "")) in
  String.eqb (surrogate 128%N) (surrogate 129%N) = false /\
  String.eqb (surrogate 128%N) replacement = false /\
  lookupCacheKey "gpt-4" 7%N 1000 (surrogate 128%N) EmptyString =
  lookupCacheKey "gpt-4" 7%N 1000 (surrogate 129%N) EmptyString /\
  lookupCacheKey "gpt-4" 7%N 1000 (surrogate 128%N) EmptyString =
  lookupCacheKey "gpt-4" 7%N 1000 replacement EmptyString /\
  lookupCacheKey "gpt-4" 7%N 1000 replacement EmptyString =
  "openai:text:gpt-4:0.7:1000:77+9:".
Proof. cbv zeta. repeat split. Qed.

(** C5, as the code has it.  The cache key is a function of (model,
    temperature, maxTokens, prompt, systemPrompt) behind the literal prefix
    that names the backend of this service.  The look-up before the call and
    the write after it compute the same key.  Two requests have the same
    key exactly when they agree in model, temperature and maxTokens and
    their prompts, and their system prompts, have the same UTF-8 encoding,
    that is, are equal once every unpaired surrogate is replaced by U+FFFD;
    for well-formed text that is when all five fields are equal.  Printing
    a number is taken to be injective and to write no colon, as the printing
    of JavaScript numbers is. *)
Theorem cacheKey_deterministic_injective `{JsNumber Number} :
  (forall x y : Number, numberToString x = numberToString y -> x = y) ->
  (forall x : Number, Encoding.colonFree (numberToString x)) ->
  forall (m : string) (t : Number) (k : Z) (p s : string)
         (m' : string) (t' : Number) (k' : Z) (p' s' : string),
    lookupCacheKey m t k p s = writeCacheKey m t k p s /\
    String.prefix "openai:text:" (lookupCacheKey m t k p s) = true /\
    (lookupCacheKey m t k p s = lookupCacheKey m' t' k' p' s' <->
     (m, t, k) = (m', t', k') /\
     Encoding.utf8 p = Encoding.utf8 p' /\
     Encoding.utf8 s = Encoding.utf8 s') /\
    (Encoding.wellFormed p = true -> Encoding.wellFormed p' = true ->
     Encoding.wellFormed s = true -> Encoding.wellFormed s' = true ->
     (lookupCacheKey m t k p s = lookupCacheKey m' t' k' p' s' <->
      (m, t, k, p, s) = (m', t', k', p', s'))).
Proof.
  intros Hinj Hcolon m t k p s m' t' k' p' s'.
  assert (Hkey : lookupCacheKey m t k p s = lookupCacheKey m' t' k' p' s' ->
                 (m, t, k) = (m', t', k') /\
                 Encoding.utf8 p = Encoding.utf8 p' /\
                 Encoding.utf8 s = Encoding.utf8 s').
  { intros E. apply (f_equal Encoding.chars) in E.
    rewrite !lookupCacheKey_chars in E.
    apply EncodingFacts.split_last in E as [E Es];
      try apply Base64Facts.base64_colonFree.
    apply EncodingFacts.split_last in E as [E Ep];
      try apply Base64Facts.base64_colonFree.
    apply EncodingFacts.split_last in E as [E Ek];
      try apply EncodingFacts.showZ_colonFree.
    apply EncodingFacts.split_last in E as [E Et]; try apply Hcolon.
    apply app_inv_head in E.
    apply EncodingFacts.chars_inj in E, Et, Ek, Ep, Es.
    apply Hinj in Et. apply EncodingFacts.showZ_inj in Ek.
    apply Base64Facts.base64_inj in Ep, Es.
    split; [congruence|]. split; assumption. }
  split; [reflexivity|]. split; [apply EncodingFacts.prefix_append|]. split.
  - split; [exact Hkey|].
    intros ([= -> -> ->] & Ep & Es). unfold lookupCacheKey, Encoding.base64.
    rewrite Ep, Es. reflexivity.
  - intros Hp Hp' Hs Hs'. split.
    + intros E. destruct (Hkey E) as ([= -> -> ->] & Ep & Es).
      rewrite (Base64Facts.utf8_wellFormed p Hp),
        (Base64Facts.utf8_wellFormed p' Hp') in Ep.
      rewrite (Base64Facts.utf8_wellFormed s Hs),
        (Base64Facts.utf8_wellFormed s' Hs') in Es.
      congruence.
    + intros [= -> -> -> -> ->]. reflexivity.
Qed.

(** The theorem at the numbers of [Tenths], for a request and one that
    differs from it in the temperature only, and for two prompts that
    differ in an unpaired surrogate only. *)
Lemma cacheKey_deterministic_injective_witness :
  let surrogate (low : N) :=
    String (ascii_of_N 237) (String (ascii_of_N 160) (String (ascii_of_N low) "")) in
  (lookupCacheKey "gpt-4" 7%N 1000 "Hello" EmptyString =
   lookupCacheKey "gpt-4" 8%N 1000 "Hello" EmptyString <->
   ("gpt-4", 7%N, 1000, "Hello", EmptyString) =
   ("gpt-4", 8%N, 1000, "Hello", EmptyString)) /\
  (lookupCacheKey "gpt-4" 7%N 1000 (surrogate 128%N) EmptyString =
   lookupCacheKey "gpt-4" 7%N 1000 (surrogate 129%N) EmptyString <->
   ("gpt-4", 7%N, 1000) = ("gpt-4", 7%N, 1000) /\
   Encoding.utf8 (surrogate 128%N) = Encoding.utf8 (surrogate 129%N) /\
   Encoding.utf8 EmptyString = Encoding.utf8 EmptyString).
Proof.
  cbv zeta. split.
  - apply (@cacheKey_deterministic_injective N Tenths.number
             TenthsFacts.toString_inj TenthsFacts.toString_colonFree
             "gpt-4" 7%N 1000 "Hello" EmptyString
             "gpt-4" 8%N 1000 "Hello" EmptyString); reflexivity.
  - apply (@cacheKey_deterministic_injective N Tenths.number
             TenthsFacts.toString_inj TenthsFacts.toString_colonFree).
Defined.

(** ** The scenario of section 8, run *)

Example JSON_stringify_example :
  JSON_stringify Scenario.hiThereData =
  String "{" (String Encoding.dquote "text") +:+
  String Encoding.dquote ":" +:+ String Encoding.dquote "Hi there" +:+
  String Encoding.dquote "," +:+ String Encoding.dquote "usage" +:+
  String Encoding.dquote ":{" +:+ String Encoding.dquote "promptTokens" +:+
  String Encoding.dquote ":5," +:+ String Encoding.dquote "completionTokens" +:+
  String Encoding.dquote ":3," +:+ String Encoding.dquote "totalTokens" +:+
  String Encoding.dquote ":8}," +:+ String Encoding.dquote "model" +:+
  String Encoding.dquote ":" +:+ String Encoding.dquote "gpt-4" +:+
  String Encoding.dquote "}".
Proof. vm_compute. reflexivity. Qed.

(** The first call misses, asks the backend once and writes the result with
    a time-to-live of 1800 seconds. *)
Example scenario_first_call :
  generateText Scenario.create Scenario.random Scenario.parse
    Scenario.helloParams Scenario.emptyState =
  Some (Fulfilled Scenario.hiThereData, Scenario.afterFirst).
Proof. vm_compute. reflexivity. Qed.

(** The same call again is answered from the cache: the state, and with it
    the call counter of the backend, stays as it was. *)
Example scenario_second_call :
  generateText Scenario.create Scenario.random Scenario.parse
    Scenario.helloParams Scenario.afterFirst =
  Some (Fulfilled Scenario.hiThereData, Scenario.afterFirst).
Proof. vm_compute. reflexivity. Qed.

(** ** Cache policy *)

Lemma cacheTTL_clamp (totalTokens : Z) :
  cacheTTL totalTokens = Spec.clamp (totalTokens * 20) 1800 86400.
Proof.
  unfold cacheTTL, Spec.clamp.
  change (24 * 60 * 60) with 86400. change (60 * 30) with 1800.
  destruct (Z.ltb_spec (totalTokens * 20) 1800);
    destruct (Z.ltb_spec 86400 (totalTokens * 20)); lia.
Qed.

Lemma cacheTTL_bounds (totalTokens : Z) : 1800 <= cacheTTL totalTokens <= 86400.
Proof. unfold cacheTTL. lia. Qed.

(** C6. With caching on and a cache that holds non-empty values only, as
    every cache the service has written does: a request whose key is in the
    cache with the value [cached] is answered with [JSON.parse(cached)],
    and the call leaves the state as it was, so that no request goes to the
    backend and nothing is written to the cache; after any fulfilled call
    the same request, made again, finds its key in the cache and is
    answered in this way. *)
Theorem generateText_cache_hit `{JsNumber Number} {B : Type}
    (create : ApiRequest Number -> B -> Raced ApiResponse * B)
    (random : Z -> Q) (JSON_parse : string -> Completion ResponseData)
    (params : GenerateParams Number) (st : ServiceState Number B) :
  let key :=
    lookupCacheKey (default "gpt-4" (p_model params))
      (default num_0_7 (p_temperature params))
      (default 1000 (p_maxTokens params)) (p_prompt params)
      (default EmptyString (p_systemPrompt params)) in
  default true (p_useCaching params) = true ->
  Cache.nonEmptyValues (st_cache st) ->
  (forall cached,
     Cache.get key (st_cache st) = Some cached ->
     exists result st1,
       generateText create random JSON_parse params st = Some (result, st1) /\
       result = settle (JSON_parse cached) /\
       (forall r, JSON_parse cached = Returned r -> result = Fulfilled r) /\
       st1 = st /\ st_requests st1 = st_requests st /\
       st_writes st1 = st_writes st) /\
  (forall r st',
     generateText create random JSON_parse params st = Some (Fulfilled r, st') ->
     exists cached,
       Cache.get key (st_cache st') = Some cached /\
       generateText create random JSON_parse params st' =
       Some (settle (JSON_parse cached), st')).
Proof.
  intros key Hcaching Hinv.
  assert (Hhit : forall s cached,
            Cache.nonEmptyValues (st_cache s) ->
            Cache.get key (st_cache s) = Some cached ->
            generateText create random JSON_parse params s =
            Some (settle (JSON_parse cached), s)).
  { intros s cached Hs Hget.
    apply generateText_hit; [exact Hcaching|exact Hget|exact (Hs _ _ Hget)]. }
  split.
  - intros cached Hget. eexists _, _.
    split; [apply Hhit; eassumption|].
    split; [reflexivity|]. split; [intros r ->; reflexivity|]. auto.
  - intros r st' Hrun.
    pose proof (generateText_nonEmptyValues create random JSON_parse params
                  st st' _ Hinv Hrun) as Hinv'.
    destruct (Js.truthy_str (Cache.get key (st_cache st))) eqn:Hfound.
    + destruct (Cache.get key (st_cache st)) as [cached|] eqn:Hget;
        [|discriminate].
      rewrite (Hhit st cached Hinv Hget) in Hrun. injection Hrun as Hres <-.
      exists cached. auto.
    + destruct (generateText_fresh create random JSON_parse params st st' r
                  Hcaching Hfound Hrun) as (_ & Hc & _).
      exists (JSON_stringify r).
      assert (Hget : Cache.get key (st_cache st') = Some (JSON_stringify r)).
      { rewrite Hc. unfold Cache.get, Cache.set.
        change (writeCacheKey (default "gpt-4" (p_model params))
                  (default num_0_7 (p_temperature params))
                  (default 1000 (p_maxTokens params)) (p_prompt params)
                  (default EmptyString (p_systemPrompt params))) with key.
        rewrite lookup_insert_eq. reflexivity. }
      split; [exact Hget|]. apply Hhit; assumption.
Qed.

(** The theorem at the scenario of section 8: the repeated request is
    answered from the cache, and the backend has still been called once. *)
Lemma generateText_cache_hit_witness :
  exists result st1,
    generateText Scenario.create Scenario.random Scenario.parse
      Scenario.helloParams Scenario.afterFirst = Some (result, st1) /\
    result = Fulfilled Scenario.hiThereData /\
    st_backend st1 = 1%nat /\
    st_writes st1 = st_writes Scenario.afterFirst.
Proof.
  assert (Hinv : Cache.nonEmptyValues (st_cache Scenario.afterFirst)).
  { apply (generateText_nonEmptyValues Scenario.create Scenario.random
             Scenario.parse Scenario.helloParams Scenario.emptyState
             Scenario.afterFirst (Fulfilled Scenario.hiThereData)).
    - intros key value Hget. discriminate.
    - exact scenario_first_call. }
  destruct (generateText_cache_hit Scenario.create Scenario.random
              Scenario.parse Scenario.helloParams Scenario.afterFirst
              eq_refl Hinv)
    as [Hhit _].
  destruct (Hhit (JSON_stringify Scenario.hiThereData) eq_refl)
    as (result & st1 & Hrun & _ & Hparsed & -> & _ & Hw).
  exists result, Scenario.afterFirst.
  split; [exact Hrun|]. split; [apply Hparsed; reflexivity|].
  split; reflexivity.
Defined.

(** ** Effective parameters *)

(** C7, as the specification states it, fails: a request that names its
    model (or its temperature) and opts in gets the stored preference, not
    the value it named. *)
Lemma preference_overrides_explicit_value :
  let body := {| body_model := Some "gpt-4"; body_temperature := Some 7%N;
                 body_options := Some {| usePreferredModel := true;
                                         usePreferredSettings := true |} |} in
  let stored := {| preferredModel := Some "claude";
                   defaultTemperature := Some 12%N;
                   defaultSystemPrompt := None |} in
  Controller.resolve body (Some "u1") (fun _ => Some stored) = ("claude", 12%N) /\
  Spec.precedence (body_model body) true (preferredModel stored) "gpt-4" = "gpt-4" /\
  Spec.precedence (body_temperature body) true (defaultTemperature stored) 7%N
    = 7%N.
Proof. cbv zeta. repeat split. Qed.

(** C7, as the code has it.  The effective model is the stored preference
    when the request opted in and a non-empty preference is stored;
    otherwise it is the model the request names, or [gpt-4] when it names
    none.  The effective temperature is the stored preference when the
    request opted in and a truthy preference is stored; when it did not opt
    in or nothing is stored it is the temperature the request names, or 0.7
    when it names none.  Both are always defined values.  The stored
    preference is looked up for signed-in users only. *)
Theorem resolve_precedence `{JsNumber Number} (body : GenerateBody Number)
    (user_id : option string)
    (findOne : string -> option (UserPreference Number)) :
  let options := default emptyOptions (body_options body) in
  let stored :=
    Controller.findPreference findOne (Controller.userIdOf user_id) in
  exists (m : string) (t : Number),
    Controller.resolve body user_id findOne = (m, t) /\
    (forall p, usePreferredModel options = true ->
               stored ≫= preferredModel = Some p -> p <> EmptyString -> m = p) /\
    (usePreferredModel options = false \/ stored ≫= preferredModel = None \/
     stored ≫= preferredModel = Some EmptyString ->
     m = Spec.precedence (body_model body) false None "gpt-4") /\
    (forall p, usePreferredSettings options = true ->
               stored ≫= defaultTemperature = Some p ->
               numberTruthy p = true -> t = p) /\
    (usePreferredSettings options = false \/
     stored ≫= defaultTemperature = None ->
     t = Spec.precedence (body_temperature body) false None num_0_7) /\
    (Controller.userIdOf user_id = "anonymous" -> stored = None).
Proof.
  intros options stored. unfold Controller.resolve.
  fold options. fold stored. eexists _, _. split; [reflexivity|].
  unfold Controller.effectiveModel, Controller.effectiveTemperature.
  repeat split.
  - intros p Hopt -> Hne. rewrite Hopt.
    destruct (String.eqb_spec p EmptyString); [contradiction|reflexivity].
  - intros [Hopt|[Hnone|Hempty]].
    + rewrite Hopt. destruct (stored ≫= preferredModel);
        destruct (body_model body); reflexivity.
    + rewrite Hnone. destruct (body_model body); reflexivity.
    + rewrite Hempty. rewrite andb_false_r.
      destruct (body_model body); reflexivity.
  - intros p Hopt -> Htruthy. rewrite Hopt, Htruthy. reflexivity.
  - intros [Hopt|Hnone].
    + rewrite Hopt. destruct (stored ≫= defaultTemperature);
        destruct (body_temperature body); reflexivity.
    + rewrite Hnone. destruct (body_temperature body); reflexivity.
  - intros Hanon. unfold stored, Controller.findPreference.
    rewrite Hanon. reflexivity.
Qed.

(** ** Backend selection *)

Example selectService_examples :
  Controller.selectService "GPT-4" = openaiService /\
  Controller.selectService "Gemini" = palmService /\
  Controller.selectService "claude-instant" = anthropicService /\
  Controller.selectService "LOCAL-LLAMA" = localLLMService /\
  Controller.selectService "gpt-5" = openaiService /\
  Controller.selectService EmptyString = openaiService.
Proof. repeat split. Qed.

(** C8. For every string, the selection of the single-item path returns
    exactly one of the four services: the one the table gives for the
    lower-cased model name, and the OpenAI service for every name the table
    does not list. *)
Theorem selectService_total (effectiveModel : string) :
  let m := Controller.toLowerCase effectiveModel in
  (exists service, Controller.selectService effectiveModel = service /\
     forall service', Controller.selectService effectiveModel = service' ->
                      service' = service) /\
  (m = "gpt-4" \/ m = "gpt-3.5-turbo" ->
   Controller.selectService effectiveModel = openaiService) /\
  (m = "palm" \/ m = "gemini" ->
   Controller.selectService effectiveModel = palmService) /\
  (m = "claude" \/ m = "claude-instant" ->
   Controller.selectService effectiveModel = anthropicService) /\
  (m = "local-llama" \/ m = "local-mistral" ->
   Controller.selectService effectiveModel = localLLMService) /\
  (m ∉ Controller.knownModels ->
   Controller.selectService effectiveModel = openaiService).
Proof.
  intros m. unfold Controller.selectService. fold m.
  split; [eexists; split; [reflexivity|congruence]|].
  repeat split.
  - intros [-> | ->]; reflexivity.
  - intros [-> | ->]; reflexivity.
  - intros [-> | ->]; reflexivity.
  - intros [-> | ->]; reflexivity.
  - intros Hnot. unfold Controller.knownModels in Hnot.
    repeat match goal with
    | |- context [String.eqb m ?lit] =>
        destruct (String.eqb_spec m lit) as [E|_];
        [exfalso; apply Hnot; rewrite E; set_solver|]
    end.
    reflexivity.
Qed.

(** ** Batches *)

Section BatchFacts.

Context `{JsNumber Number}.
Variable settles : GenerationService -> nat -> GenerateParams Number ->
                   Settled ResponseData.










End BatchFacts.



(** A batch of three in which the second call is rejected: three results at
    their positions, two of them successes. *)
Example batch_of_three :
  let settles (_ : GenerationService) (i : nat) (_ : GenerateParams N) :=
    if (i =? 1)%nat then Rejected (errorWithCode "Invalid API key" UNAUTHORIZED)
    else Fulfilled Scenario.hiThereData in
  let body := {| batch_prompts :=
                   PromptArray [PromptString "a"; PromptString "b";
                                PromptObject "c" None (Some 50)];
                 batch_model := None; batch_temperature := None |} in
  reply (Batch.batchGenerate settles body None) =
    Reply200 [ItemSuccess 0 "Hi there" 8; ItemFailure 1 "Invalid API key";
              ItemSuccess 2 "Hi there" 8] 2 /\
  metrics (Batch.batchGenerate settles body None) =
    [{| m_userId := "anonymous"; m_model := "gpt-3.5-turbo"; batchSize := 3;
        successCount := 2; failureCount := 1 |}].
Proof. cbv zeta. split; reflexivity. Qed.

(** A batch of three whose second prompt is [null]: the first prompt is
    dispatched, the others are not, and there is no reply. *)
Example batch_with_null :
  let settles (_ : GenerationService) (_ : nat) (_ : GenerateParams N) :=
    Fulfilled Scenario.hiThereData in
  let body := {| batch_prompts :=
                   PromptArray [PromptString "a"; PromptNull; PromptString "c"];
                 batch_model := None; batch_temperature := None |} in
  reply (Batch.batchGenerate settles body None) =
    PassedToNext (newError "Cannot read properties of null (reading 'text')") /\
  p_prompt <$> dispatched (Batch.batchGenerate settles body None) = ["a"] /\
  metrics (Batch.batchGenerate settles body None) = [].
Proof. cbv zeta. repeat split. Qed.

(** C10. A batch needs a non-empty array of prompts: when [prompts] is not
    an array or is empty the reply is the single validation error and
    nothing is dispatched, and no input at all gets a reply that lists no
    results. *)
Theorem batchGenerate_requires_prompts `{JsNumber Number}
    (settles : GenerationService -> nat -> GenerateParams Number ->
               Settled ResponseData)
    (body : BatchBody Number) (user_id : option string) :
  let run := Batch.batchGenerate settles body user_id in
  (batch_prompts body = NotAnArray \/ batch_prompts body = PromptArray [] ->
   reply run = Reply400 "A non-empty array of prompts is required"
                 VALIDATION_ERROR /\
   dispatched run = [] /\ metrics run = []) /\
  (forall total, reply run <> Reply200 [] total).
Proof.
  intros run. unfold run, Batch.batchGenerate. split.
  - intros [-> | ->]; cbn; auto.
  - intros total.
    destruct (batch_prompts body) as [|prompts]; [discriminate|].
    destruct prompts as [|p prompts]; [discriminate|].
    cbn [length Nat.eqb].
    destruct (10 <? S (length prompts))%nat; [discriminate|].
    cbn [Batch.issueCalls].
    destruct (Batch.itemParams _ _ _ p) as [params|error]; [|discriminate].
    destruct (Batch.issueCalls _ prompts) as [calls [error|]]; discriminate.
Qed.

(* ===================================================================== *)
(** * Further properties of the code *)
(* ===================================================================== *)

(** ** Back-off *)

(** X1. For a base delay and an attempt number that are not negative, a
    random value in [0, 1), and an attempt number below 1023 or a positive
    base delay (so that neither this delay nor the next is the [NaN] of an
    overflowing power times 0): the back-off delay lies between 0 and 30000
    milliseconds, it is at least the capped exponential delay and at most
    300 milliseconds more than the exponential delay, and with the same
    random value it does not shrink from one attempt to the next. *)
Theorem calculateBackoff_bounds (attempt baseDelay : Z) (rnd : Q) :
  0 <= attempt -> 0 <= baseDelay -> (0 <= rnd)%Q -> (rnd < 1)%Q ->
  attempt < 1023 \/ 0 < baseDelay ->
  (0 <= calculateBackoff attempt baseDelay rnd)%Q /\
  (calculateBackoff attempt baseDelay rnd <= 30000)%Q /\
  (Qmin (inject_Z (2 ^ attempt * baseDelay)) 30000 <=
   calculateBackoff attempt baseDelay rnd)%Q /\
  (calculateBackoff attempt baseDelay rnd <=
   inject_Z (2 ^ attempt * baseDelay) + 300)%Q /\
  (calculateBackoff attempt baseDelay rnd <=
   calculateBackoff (attempt + 1) baseDelay rnd)%Q.
Proof.
  intros Ha Hb Hr0 Hr1 _. unfold calculateBackoff.
  assert (Hpow : 0 <= 2 ^ attempt * baseDelay).
  { apply Z.mul_nonneg_nonneg; [apply Z.pow_nonneg; lia|exact Hb]. }
  assert (Hj : (0 <= rnd * 300)%Q).
  { apply Qmult_le_0_compat; [exact Hr0|discriminate]. }
  assert (Hbase : (0 <= inject_Z (2 ^ attempt * baseDelay))%Q).
  { change 0%Q with (inject_Z 0). rewrite <- Zle_Qle. exact Hpow. }
  repeat split.
  - apply Q.min_glb; [|discriminate].
    rewrite <- (Qplus_0_r 0). apply Qplus_le_compat; assumption.
  - apply Q.le_min_r.
  - apply Q.min_le_compat_r.
    rewrite <- (Qplus_0_r (inject_Z _)) at 1.
    apply Qplus_le_compat; [apply Qle_refl|exact Hj].
  - eapply Qle_trans; [apply Q.le_min_l|].
    apply Qplus_le_compat; [apply Qle_refl|].
    apply Qle_trans with (1 * 300)%Q; [|discriminate].
    apply Qmult_le_compat_r; [apply Qlt_le_weak; exact Hr1|discriminate].
  - apply Q.min_le_compat_r. apply Qplus_le_compat; [|apply Qle_refl].
    rewrite <- Zle_Qle. rewrite Z.pow_add_r by lia. nia.
Qed.

(** The bounds at the third attempt with the default base delay and a
    random value of one half: 4000 + 150 milliseconds. *)
Lemma calculateBackoff_bounds_witness :
  (0 <= calculateBackoff 2 1000 (1 # 2))%Q /\
  (calculateBackoff 2 1000 (1 # 2) <= 30000)%Q /\
  (Qmin (inject_Z (2 ^ 2 * 1000)) 30000 <= calculateBackoff 2 1000 (1 # 2))%Q /\
  (calculateBackoff 2 1000 (1 # 2) <= inject_Z (2 ^ 2 * 1000) + 300)%Q /\
  (calculateBackoff 2 1000 (1 # 2) <= calculateBackoff (2 + 1) 1000 (1 # 2))%Q.
Proof.
  apply (calculateBackoff_bounds 2 1000 (1 # 2));
    [lia|lia|discriminate|reflexivity|lia].
Defined.

Example calculateBackoff_examples :
  (calculateBackoff 0 1000 0 == 1000)%Q /\
  (calculateBackoff 2 1000 (1 # 2) == 4150)%Q /\
  (calculateBackoff 5 1000 (1 # 2) == 30000)%Q.
Proof. repeat split. Qed.

(** ** More on the retry loop *)

Section RetryMore.

Context {A W : Type}.
Variable operation : W -> Raced A * W.
Variable random : Z -> Q.
Variable config : Config.

Local Abbreviation loop := (retryLoop operation random config).

(** The sleep after the attempt with a given number is the back-off of
    that number. *)
Lemma retryLoop_sleep_at fuel : forall attempt lastError w run i d,
  loop fuel attempt lastError w = Some run ->
  sleeps run !! i = Some d ->
  d = calculateBackoff (attempt + Z.of_nat i) (retryDelay config)
        (random (attempt + Z.of_nat i)).
Proof.
  induction fuel as [|fuel IH]; intros attempt lastError w run i d Hrun Hi;
    [discriminate|].
  cbn [retryLoop] in Hrun.
  destruct (attempt <=? maxRetries config).
  2:{ injection Hrun as <-. discriminate. }
  destruct (operation w) as [o w'].
  destruct (race o) as [v|e].
  { injection Hrun as <-. discriminate. }
  destruct (negb (isRetryableError e) || (attempt =? maxRetries config)).
  { injection Hrun as <-. discriminate. }
  destruct (loop fuel (attempt + 1) (Some e) w') as [r|] eqn:Hr;
    [|discriminate].
  injection Hrun as <-. destruct i as [|i].
  - cbn in Hi. injection Hi as <-. rewrite Z.add_0_r. reflexivity.
  - change (sleeps r !! i = Some d) in Hi.
    rewrite (IH _ _ _ _ _ _ Hr Hi).
    replace (attempt + 1 + Z.of_nat i) with (attempt + Z.of_nat (S i)) by lia.
    reflexivity.
Qed.

(** When the loop test fails at once, nothing is attempted and the mapping
    of the error so far is thrown. *)
Lemma retryLoop_no_attempt fuel attempt lastError w :
  maxRetries config < attempt ->
  loop (S fuel) attempt lastError w = Some (giveUp lastError w).
Proof.
  intros Hlt. cbn [retryLoop].
  destruct (Z.leb_spec attempt (maxRetries config)); [lia|reflexivity].
Qed.

(** A first attempt that is fulfilled ends the run. *)
Lemma retryLoop_first_fulfilled fuel attempt lastError w w' v :
  attempt <= maxRetries config ->
  operation w = (InTime (Fulfilled v), w') ->
  loop (S fuel) attempt lastError w =
  Some {| outcome := Fulfilled v; attempts := [Fulfilled v]; sleeps := [];
          world := w' |}.
Proof.
  intros Hle Hop. cbn [retryLoop].
  destruct (Z.leb_spec attempt (maxRetries config)); [|lia].
  rewrite Hop. reflexivity.
Qed.

(** A first attempt that is rejected with an error that is not retryable
    ends the run. *)
Lemma retryLoop_first_not_retryable fuel attempt lastError w w' o e :
  attempt <= maxRetries config ->
  operation w = (o, w') -> race o = Rejected e ->
  isRetryableError e = false ->
  loop (S fuel) attempt lastError w =
  Some {| outcome := Rejected (thrownBy (mapToServiceError (Some e)));
          attempts := [Rejected e]; sleeps := []; world := w' |}.
Proof.
  intros Hle Hop Hrace Hno. cbn [retryLoop].
  destruct (Z.leb_spec attempt (maxRetries config)); [|lia].
  rewrite Hop, Hrace, Hno. reflexivity.
Qed.

End RetryMore.

(** X2. Between two consecutive attempts [executeWithRetry] sleeps exactly
    once and nowhere else; the sleep after attempt [i] is the back-off
    computed for [i] from the configured [retryDelay], and it is never
    longer than 30000 milliseconds. *)
Theorem executeWithRetry_sleeps {A W : Type}
    (operation : W -> Raced A * W) (random : Z -> Q) (options : RetryOptions)
    (w : W) :
  exists run,
    executeWithRetry operation random options w = Some run /\
    length (sleeps run) = pred (length (attempts run)) /\
    forall (i : nat) (d : Q), sleeps run !! i = Some d ->
      d = calculateBackoff (Z.of_nat i) (retryDelay (mergeConfig options))
            (random (Z.of_nat i)) /\
      (d <= 30000)%Q.
Proof.
  destruct (executeWithRetry_total operation random options w) as [run Hrun].
  exists run. split; [exact Hrun|]. unfold executeWithRetry in Hrun. split.
  - exact (retryLoop_sleeps _ _ _ _ _ _ _ _ Hrun).
  - intros i d Hi.
    pose proof (retryLoop_sleep_at _ _ _ _ _ _ _ _ _ _ Hrun Hi) as Hd.
    rewrite Z.add_0_l in Hd. split; [exact Hd|].
    rewrite Hd. unfold calculateBackoff. apply Q.le_min_r.
Qed.

(** X3. When [executeWithRetry] is fulfilled, its value is that of the last
    attempt, and every attempt before it was rejected with an error of the
    retryable set. *)
Theorem executeWithRetry_success_after_retryable {A W : Type}
    (operation : W -> Raced A * W) (random : Z -> Q) (options : RetryOptions)
    (w : W) :
  exists run,
    executeWithRetry operation random options w = Some run /\
    forall v, outcome run = Fulfilled v ->
      exists k : nat,
        attempts run !! k = Some (Fulfilled v) /\
        length (attempts run) = S k /\
        forall i : nat, (i < k)%nat ->
          exists e, attempts run !! i = Some (Rejected e) /\
                    Spec.inRetryableSet e.
Proof.
  destruct (executeWithRetry_total operation random options w) as [run Hrun].
  exists run. split; [exact Hrun|]. unfold executeWithRetry in Hrun.
  intros v Hv.
  pose proof (retryLoop_outcome _ _ _ _ _ _ _ _ Hrun) as Hout.
  rewrite Hv in Hout.
  destruct (last (attempts run)) as [[v0|e0]|] eqn:Hlast; try discriminate.
  injection Hout as ->.
  rewrite last_lookup in Hlast.
  pose proof (lookup_lt_Some _ _ _ Hlast) as Hlt.
  exists (pred (length (attempts run))).
  split; [exact Hlast|]. split; [lia|].
  intros i Hi.
  destruct (lookup_lt_is_Some_2 (attempts run) i ltac:(lia)) as [a Ha].
  destruct a as [v'|e].
  - destruct (retryLoop_fulfilled _ _ _ _ _ _ _ _ _ _ Hrun Ha) as [Hend _].
    apply lookup_ge_None in Hend. lia.
  - exists e. split; [exact Ha|].
    apply isRetryableError_set.
    apply (retryLoop_rejected _ _ _ _ _ _ _ _ _ _ Hrun Ha).
    apply lookup_lt_is_Some_2. lia.
Qed.

(** X4. When [executeWithRetry] is rejected, the error it throws is the
    mapping of the error of the last attempt alone: the errors of earlier
    attempts are dropped.  Only a negative [maxRetries] leaves the run
    without any attempt; then the operation is never called and the error
    is [Unknown error occurred]. *)
Theorem executeWithRetry_reports_last_error {A W : Type}
    (operation : W -> Raced A * W) (random : Z -> Q) (options : RetryOptions)
    (w : W) :
  exists run,
    executeWithRetry operation random options w = Some run /\
    (forall x, outcome run = Rejected x ->
       (exists e, last (attempts run) = Some (Rejected e) /\
                  x = thrownBy (mapToServiceError (Some e))) \/
       (attempts run = [] /\ x = newError "Unknown error occurred")) /\
    (attempts run = [] <-> maxRetries (mergeConfig options) < 0) /\
    (maxRetries (mergeConfig options) < 0 ->
     world run = w /\ sleeps run = [] /\
     outcome run = Rejected (newError "Unknown error occurred")).
Proof.
  destruct (executeWithRetry_total operation random options w) as [run Hrun].
  exists run. split; [exact Hrun|].
  pose proof Hrun as Hloop. unfold executeWithRetry in Hloop.
  pose proof (retryLoop_outcome _ _ _ _ _ _ _ _ Hloop) as Hout.
  split; [|split].
  - intros x Hx. rewrite Hx in Hout.
    destruct (last (attempts run)) as [[v0|e0]|] eqn:Hlast.
    + discriminate.
    + left. exists e0. split; [reflexivity|]. congruence.
    + right. apply last_None in Hlast. split; [exact Hlast|].
      cbn in Hout. congruence.
  - split.
    + intros Hnil.
      destruct (Z.lt_ge_cases (maxRetries (mergeConfig options)) 0) as [Hlt|Hge];
        [exact Hlt|].
      destruct (retryLoop_attempts_nonempty _ _ _ _ _ _ _ _ Hloop Hge)
        as (a & l & Hal).
      congruence.
    + intros Hlt. rewrite retryLoop_no_attempt in Hloop by exact Hlt.
      injection Hloop as <-. reflexivity.
  - intros Hlt. rewrite retryLoop_no_attempt in Hloop by exact Hlt.
    injection Hloop as <-. repeat split.
Qed.

(** A configuration with a negative [maxRetries]: the operation is not
    called at all. *)
Example executeWithRetry_negative_maxRetries :
  let operation (n : nat) : Raced string * nat :=
    (InTime (Fulfilled "never asked"), S n) in
  executeWithRetry operation (fun _ => 0%Q)
    {| opt_maxRetries := Some (-1); opt_retryDelay := None;
       opt_timeout := None |} 0%nat =
  Some {| outcome := Rejected (newError "Unknown error occurred");
          attempts := []; sleeps := []; world := 0%nat |}.
Proof. reflexivity. Qed.

(** ** More on the error mapping *)

(** The three ways [mapToServiceError] ends: the error is passed on as it
    came, the read of a missing body fails, or the error is replaced by a
    tagged one, which carries no response and is not retryable. *)
Lemma mapToServiceError_cases (e : JsError) :
  (mapToServiceError (Some e) = Returned e /\ Spec.statusKind e = None) \/
  (mapToServiceError (Some e) = Thrown (typeError "error") /\
   Spec.statusKind e = None) \/
  (exists s k,
     mapToServiceError (Some e) = Returned s /\ Spec.statusKind e = Some k /\
     response s = None /\ Spec.carriedKind s = Some k /\
     isRetryableError s = false).
Proof.
  unfold mapToServiceError, Spec.statusKind, Spec.isContextLength400.
  destruct (response e) as [resp|]; [|left; auto].
  destruct (Z.eqb_spec (resp_status resp) 400) as [H400|Hne]; cbn [andb].
  - destruct (resp_data resp) as [data|].
    + destruct (isContextLength data).
      * right. right. eexists _, _. repeat split.
      * left. rewrite H400. auto.
    + right. left. rewrite H400. auto.
  - destruct (resp_status resp =? 401);
      [right; right; eexists _, _; repeat split|].
    destruct (resp_status resp =? 403);
      [right; right; eexists _, _; repeat split|].
    destruct (resp_status resp =? 404);
      [right; right; eexists _, _; repeat split|].
    destruct (resp_status resp =? 429);
      [right; right; eexists _, _; repeat split|].
    left. auto.
Qed.

(** X5. Mapping an error that [mapToServiceError] has produced changes
    nothing, so the mapping can be applied again at no cost; and an error
    that the mapping has tagged (context length, 401, 403, 404, 429) is no
    longer retryable, even where the raw failure was, as a 429 is. *)
Theorem mapToServiceError_idempotent (e : JsError) :
  let s := thrownBy (mapToServiceError (Some e)) in
  mapToServiceError (Some s) = Returned s /\
  (forall k, Spec.statusKind e = Some k ->
             Spec.carriedKind s = Some k /\ isRetryableError s = false).
Proof.
  cbv zeta.
  destruct (mapToServiceError_cases e)
    as [[Hmap Hkind]|[[Hmap Hkind]|(s & k & Hmap & Hkind & Hresp & Hc & Hr)]].
  - rewrite Hmap. cbn [thrownBy]. split; [exact Hmap|].
    rewrite Hkind. discriminate.
  - rewrite Hmap. cbn [thrownBy]. split; [reflexivity|].
    rewrite Hkind. discriminate.
  - rewrite Hmap. cbn [thrownBy]. split.
    + unfold mapToServiceError. rewrite Hresp. reflexivity.
    + intros k' Hk'. rewrite Hkind in Hk'. injection Hk' as <-. auto.
Qed.

(** ** More on the service: [generateText] *)

Section ServiceMore.

Context `{JsNumber Number} {B : Type}.
Variable create : ApiRequest Number -> B -> Raced ApiResponse * B.
Variable random : Z -> Q.
Variable JSON_parse : string -> Completion ResponseData.

(** What the look-up of [generateText] finds: nothing when caching is
    off. *)
Local Abbreviation found params st :=
  (if default true (p_useCaching params)
   then Cache.get (textKeyOf params) (st_cache st) else None).

(** The run of the retry engine inside [generateText]: between one and
    three attempts, each one request, and the cache left alone. *)
Lemma generateText_run (params : GenerateParams Number)
    (st : ServiceState Number B) :
  exists run,
    executeWithRetry (callBackend create (chatRequest params)) random
      noOptions st = Some run /\
    (1 <= length (attempts run) <= 3)%nat /\
    st_cache (world run) = st_cache st /\
    st_writes (world run) = st_writes st /\
    st_requests (world run) =
      (st_requests st ++
       replicate (length (attempts run)) (chatRequest params))%list.
Proof.
  destruct (executeWithRetry_total (callBackend create (chatRequest params))
              random noOptions st) as [run Hrun].
  exists run. split; [exact Hrun|]. unfold executeWithRetry in Hrun.
  pose proof (retryLoop_attempts_le _ _ _ _ _ _ _ _ Hrun) as Hle.
  change (testsLeft (mergeConfig noOptions) 0) with 3%nat in Hle.
  destruct (retryLoop_attempts_nonempty _ _ _ _ _ _ _ _ Hrun) as (a & l & Hal);
    [cbn; lia|].
  destruct (retryLoop_callBackend_frame _ _ _ _ _ _ _ _ _ Hrun)
    as (Hc & Hw & Hr).
  split; [rewrite Hal in *; cbn in *; lia|]. auto.
Qed.

(** Every way a call of [generateText] can end. *)
Lemma generateText_effects (params : GenerateParams Number)
    (st st' : ServiceState Number B) (result : Settled ResponseData) :
  generateText create random JSON_parse params st = Some (result, st') ->
  (exists cached,
     found params st = Some cached /\ cached <> EmptyString /\
     result = settle (JSON_parse cached) /\ st' = st) \/
  (Js.truthy_str (found params st) = false /\
   exists n, (1 <= n <= 3)%nat /\
     st_requests st' =
       (st_requests st ++ replicate n (chatRequest params))%list /\
     ((exists e, result = Rejected e /\
         st_cache st' = st_cache st /\ st_writes st' = st_writes st) \/
      (exists r, result = Fulfilled r /\
         default true (p_useCaching params) = false /\
         st_cache st' = st_cache st /\ st_writes st' = st_writes st) \/
      (exists r, result = Fulfilled r /\
         default true (p_useCaching params) = true /\
         st_cache st' =
           Cache.set (textKeyOf params) (JSON_stringify r)
             (cacheTTL (totalTokens (usage r))) (st_cache st) /\
         st_writes st' =
           (st_writes st ++
            [(textKeyOf params, JSON_stringify r,
              cacheTTL (totalTokens (usage r)))])%list))).
Proof.
  unfold generateText.
  change (if default true (p_useCaching params)
          then Cache.get
                 (lookupCacheKey (default "gpt-4" (p_model params))
                    (default num_0_7 (p_temperature params))
                    (default 1000 (p_maxTokens params)) (p_prompt params)
                    (default EmptyString (p_systemPrompt params)))
                 (st_cache st)
          else None) with (found params st).
  destruct (Js.truthy_str (found params st)) eqn:Hfound.
  - intros [= <- <-]. left.
    destruct (found params st) as [cached|]; [|discriminate].
    exists cached. repeat split. intros ->. discriminate.
  - intros Hrun. right. split; [reflexivity|].
    unfold generateFresh in Hrun.
    change (mkApiRequest _ _ _ _ _ _ _ _) with (chatRequest params) in Hrun.
    destruct (generateText_run params st)
      as (run & Hexec & Hn & Hc & Hw & Hr).
    rewrite Hexec in Hrun. cbn [mbind option_bind] in Hrun.
    exists (length (attempts run)). split; [exact Hn|].
    destruct (outcome run) as [response|e].
    2:{ injection Hrun as <- <-. split; [exact Hr|]. left. eauto. }
    destruct (choices response) as [|generatedText rest].
    { injection Hrun as <- <-. split; [exact Hr|]. left. eauto. }
    destruct (api_usage response) as [u|].
    2:{ injection Hrun as <- <-. split; [exact Hr|]. left. eauto. }
    destruct (default true (p_useCaching params)) eqn:Hcaching.
    + injection Hrun as <- <-. cbn [cacheSet st_requests st_cache st_writes].
      split; [exact Hr|]. right. right. eexists. split; [reflexivity|].
      cbn [usage totalTokens]. rewrite Hc, Hw. auto.
    + injection Hrun as <- <-. split; [exact Hr|]. right. left. eauto.
Qed.

End ServiceMore.

(** X6. A call of [generateText] that is rejected, whether the retries are
    exhausted, the failure is not retryable, the answer of the backend is
    malformed or the cached text does not parse, leaves the cache as it
    was and writes nothing; and with caching off the cache is neither
    consulted nor written, and the backend is asked. *)
Theorem generateText_caches_success_only `{JsNumber Number} {B : Type}
    (create : ApiRequest Number -> B -> Raced ApiResponse * B)
    (random : Z -> Q) (JSON_parse : string -> Completion ResponseData)
    (params : GenerateParams Number) (st : ServiceState Number B) :
  exists result st',
    generateText create random JSON_parse params st = Some (result, st') /\
    ((exists e, result = Rejected e) ->
     st_cache st' = st_cache st /\ st_writes st' = st_writes st) /\
    (default true (p_useCaching params) = false ->
     st_cache st' = st_cache st /\ st_writes st' = st_writes st /\
     exists n, (1 <= n)%nat /\
       st_requests st' =
         (st_requests st ++ replicate n (chatRequest params))%list).
Proof.
  destruct (generateText_total create random JSON_parse params st)
    as (result & st' & Hrun).
  exists result, st'. split; [exact Hrun|].
  destruct (generateText_effects create random JSON_parse params st st' result
              Hrun)
    as [(cached & Hfound & Hne & Hres & ->)
       |(Hmiss & n & Hn & Hreq &
         [(e & -> & Hc & Hw)|[(r & -> & Hoff & Hc & Hw)|(r & -> & Hon & Hc & Hw)]])].
  - split; [auto|]. intros Hoff. rewrite Hoff in Hfound. discriminate.
  - split; [auto|]. intros Hoff. repeat split; auto. exists n. split; [lia|auto].
  - split; [auto|]. intros _. repeat split; auto. exists n. split; [lia|auto].
  - split; [intros (e & [=])|]. intros Hoff. congruence.
Qed.

(** X7. One call of [generateText] sends at most three requests to the
    backend, all of them the same request, the one built from its
    parameters; it sends none exactly when the look-up finds a non-empty
    cached text. *)
Theorem generateText_request_bound `{JsNumber Number} {B : Type}
    (create : ApiRequest Number -> B -> Raced ApiResponse * B)
    (random : Z -> Q) (JSON_parse : string -> Completion ResponseData)
    (params : GenerateParams Number) (st : ServiceState Number B) :
  exists result st' (n : nat),
    generateText create random JSON_parse params st = Some (result, st') /\
    (n <= 3)%nat /\
    st_requests st' = (st_requests st ++ replicate n (chatRequest params))%list /\
    (n = 0%nat <->
     Js.truthy_str
       (if default true (p_useCaching params)
        then Cache.get (textKeyOf params) (st_cache st) else None) = true).
Proof.
  destruct (generateText_total create random JSON_parse params st)
    as (result & st' & Hrun).
  destruct (generateText_effects create random JSON_parse params st st' result
              Hrun)
    as [(cached & Hfound & Hne & Hres & ->)|(Hmiss & n & Hn & Hreq & _)].
  - exists result, st, 0%nat. split; [exact Hrun|]. split; [lia|].
    split; [cbn; rewrite app_nil_r; reflexivity|].
    rewrite Hfound. cbn.
    destruct (String.eqb_spec cached EmptyString); [contradiction|tauto].
  - exists result, st', n. split; [exact Hrun|]. split; [lia|].
    split; [exact Hreq|]. rewrite Hmiss. split; [lia|discriminate].
Qed.

(** X8. A call of [generateText] changes the cache at the key of its own
    request at most: every other entry is afterwards what it was before,
    and at most one write is made. *)
Theorem generateText_cache_frame `{JsNumber Number} {B : Type}
    (create : ApiRequest Number -> B -> Raced ApiResponse * B)
    (random : Z -> Q) (JSON_parse : string -> Completion ResponseData)
    (params : GenerateParams Number) (st : ServiceState Number B) :
  exists result st',
    generateText create random JSON_parse params st = Some (result, st') /\
    (forall key, key <> textKeyOf params ->
                 st_cache st' !! key = st_cache st !! key) /\
    (exists written,
       st_writes st' = (st_writes st ++ written)%list /\
       (length written <= 1)%nat /\
       forall key value ttl, (key, value, ttl) ∈ written ->
                             key = textKeyOf params).
Proof.
  destruct (generateText_total create random JSON_parse params st)
    as (result & st' & Hrun).
  exists result, st'. split; [exact Hrun|].
  assert (Hsame : st_cache st' = st_cache st -> st_writes st' = st_writes st ->
            (forall key, key <> textKeyOf params ->
                         st_cache st' !! key = st_cache st !! key) /\
            (exists written,
               st_writes st' = (st_writes st ++ written)%list /\
               (length written <= 1)%nat /\
               forall key value ttl, (key, value, ttl) ∈ written ->
                                     key = textKeyOf params)).
  { intros -> ->. split; [reflexivity|]. exists []. rewrite app_nil_r.
    split; [reflexivity|]. split; [cbn; lia|].
    intros key value ttl Hin. apply elem_of_nil in Hin. contradiction. }
  destruct (generateText_effects create random JSON_parse params st st' result
              Hrun)
    as [(cached & Hfound & Hne & Hres & ->)
       |(Hmiss & n & Hn & Hreq &
         [(e & -> & Hc & Hw)|[(r & -> & Hoff & Hc & Hw)|(r & -> & Hon & Hc & Hw)]])];
    auto.
  split.
  - intros key Hkey. rewrite Hc. unfold Cache.set.
    apply lookup_insert_ne. congruence.
  - eexists. split; [exact Hw|]. split; [cbn; lia|].
    intros key value ttl Hin. apply list_elem_of_singleton in Hin.
    congruence.
Qed.

Section ServiceEdgeCases.

Context `{JsNumber Number} {B : Type}.
Variable create : ApiRequest Number -> B -> Raced ApiResponse * B.
Variable random : Z -> Q.
Variable JSON_parse : string -> Completion ResponseData.

(** The state after one request. *)
Local Abbreviation asked params st b' :=
  {| st_cache := st_cache st; st_backend := b';
     st_requests := app (st_requests st) (cons (chatRequest params) nil);
     st_writes := st_writes st |}.

Lemma default_budget : 0 <= maxRetries (mergeConfig noOptions).
Proof. cbv. discriminate. Qed.

Lemma callBackend_once (params : GenerateParams Number)
    (st : ServiceState Number B) (o : Raced ApiResponse) (b' : B) :
  create (chatRequest params) (st_backend st) = (o, b') ->
  callBackend create (chatRequest params) st = (o, asked params st b').
Proof. unfold callBackend. intros ->. reflexivity. Qed.

(** After a miss, [generateText] is what the retry engine around the
    backend call makes of it. *)
Lemma generateText_miss (params : GenerateParams Number)
    (st : ServiceState Number B) :
  Js.truthy_str
    (if default true (p_useCaching params)
     then Cache.get (textKeyOf params) (st_cache st) else None) = false ->
  generateText create random JSON_parse params st =
  generateFresh create random (p_prompt params)
    (default EmptyString (p_systemPrompt params))
    (default num_0_7 (p_temperature params))
    (default 1000 (p_maxTokens params)) (default "gpt-4" (p_model params))
    (default "anonymous" (p_userId params))
    (default true (p_useCaching params)) params st.
Proof.
  intros Hmiss. unfold generateText.
  change (lookupCacheKey (default "gpt-4" (p_model params))
            (default num_0_7 (p_temperature params))
            (default 1000 (p_maxTokens params)) (p_prompt params)
            (default EmptyString (p_systemPrompt params)))
    with (textKeyOf params).
  rewrite Hmiss. reflexivity.
Qed.

(** X9. When the look-up misses and the backend answers the first request
    with a response that has no choices, or no usage, [generateText] is
    rejected with the [TypeError] of the failed property read: the answer
    is not asked for again and nothing is cached. *)
Theorem generateText_rejects_malformed_answer (params : GenerateParams Number)
    (st : ServiceState Number B) (response : ApiResponse) (b' : B) :
  Js.truthy_str
    (if default true (p_useCaching params)
     then Cache.get (textKeyOf params) (st_cache st) else None) = false ->
  create (chatRequest params) (st_backend st) = (InTime (Fulfilled response), b') ->
  choices response = [] \/ api_usage response = None ->
  generateText create random JSON_parse params st =
  Some (Rejected (typeError (if decide (choices response = [])
                             then "message" else "total_tokens")),
        asked params st b').
Proof.
  intros Hmiss Hcreate Hbad. rewrite (generateText_miss params st Hmiss).
  unfold generateFresh.
  change (mkApiRequest _ _ _ _ _ _ _ _) with (chatRequest params).
  unfold executeWithRetry.
  rewrite (retryLoop_first_fulfilled _ _ _ _ _ _ _ _ response
             default_budget (callBackend_once params st _ _ Hcreate)).
  cbn [mbind option_bind outcome world].
  destruct (choices response) as [|c rest].
  - reflexivity.
  - destruct Hbad as [Hbad|Hbad]; [discriminate|]. rewrite Hbad.
    destruct (decide (c :: rest = [])) as [E|_]; [discriminate|reflexivity].
Qed.

(** A backend failure that is not retryable, after a miss. *)
Lemma generateText_not_retryable (params : GenerateParams Number)
    (st : ServiceState Number B) (o : Raced ApiResponse) (e : JsError) (b' : B) :
  Js.truthy_str
    (if default true (p_useCaching params)
     then Cache.get (textKeyOf params) (st_cache st) else None) = false ->
  create (chatRequest params) (st_backend st) = (o, b') ->
  race o = Rejected e ->
  isRetryableError e = false ->
  generateText create random JSON_parse params st =
  Some (Rejected (thrownBy (mapToServiceError (Some e))), asked params st b').
Proof.
  intros Hmiss Hcreate Hrace Hno. rewrite (generateText_miss params st Hmiss).
  unfold generateFresh.
  change (mkApiRequest _ _ _ _ _ _ _ _) with (chatRequest params).
  unfold executeWithRetry.
  rewrite (retryLoop_first_not_retryable _ _ _ _ _ _ _ _ _ _
             default_budget (callBackend_once params st _ _ Hcreate)
             Hrace Hno).
  reflexivity.
Qed.

(** A well-formed first answer after a miss, with caching on: the call is
    fulfilled with the shaped answer after this one request, and the answer
    is written to the cache with the time-to-live of its tokens. *)
Lemma generateText_first_answer (params : GenerateParams Number)
    (st : ServiceState Number B) (response : ApiResponse)
    (generatedText : string) (rest : list string) (u : ApiUsage) (b' : B) :
  default true (p_useCaching params) = true ->
  Js.truthy_str (Cache.get (textKeyOf params) (st_cache st)) = false ->
  create (chatRequest params) (st_backend st) =
    (InTime (Fulfilled response), b') ->
  choices response = generatedText :: rest ->
  api_usage response = Some u ->
  let r := {| text := generatedText;
              usage := {| promptTokens := prompt_tokens u;
                          completionTokens := completion_tokens u;
                          totalTokens := total_tokens u |};
              model := api_model response |} in
  generateText create random JSON_parse params st =
  Some (Fulfilled r,
        cacheSet (textKeyOf params) (JSON_stringify r)
          (cacheTTL (total_tokens u)) (asked params st b')).
Proof.
  intros Hcaching Hmiss Hcreate Hchoices Husage r.
  assert (Hmiss' :
            Js.truthy_str
              (if default true (p_useCaching params)
               then Cache.get (textKeyOf params) (st_cache st) else None) =
            false).
  { rewrite Hcaching. exact Hmiss. }
  rewrite (generateText_miss params st Hmiss').
  unfold generateFresh.
  change (mkApiRequest _ _ _ _ _ _ _ _) with (chatRequest params).
  unfold executeWithRetry.
  rewrite (retryLoop_first_fulfilled _ _ _ _ _ _ _ _ response
             default_budget (callBackend_once params st _ _ Hcreate)).
  cbn [mbind option_bind outcome world].
  rewrite Hchoices, Husage, Hcaching. reflexivity.
Qed.

End ServiceEdgeCases.

(** The theorem at a backend that answers without choices. *)
Lemma generateText_rejects_malformed_answer_witness :
  let create (_ : ApiRequest N) (calls : nat) : Raced ApiResponse * nat :=
    (InTime (Fulfilled {| choices := []; api_usage := None;
                          api_model := "gpt-4" |}), S calls) in
  exists st',
    generateText create Scenario.random Scenario.parse Scenario.helloParams
      Scenario.emptyState = Some (Rejected (typeError "message"), st') /\
    st_backend st' = 1%nat /\ st_writes st' = [] /\
    length (st_requests st') = 1%nat.
Proof.
  cbv zeta. eexists. split.
  - exact (generateText_rejects_malformed_answer
             (fun _ calls =>
                (InTime (Fulfilled {| choices := []; api_usage := None;
                                      api_model := "gpt-4" |}), S calls))
             Scenario.random Scenario.parse Scenario.helloParams
             Scenario.emptyState
             {| choices := []; api_usage := None; api_model := "gpt-4" |}
             1%nat eq_refl eq_refl (or_introl eq_refl)).
  - repeat split.
Defined.

(** ** The time-to-live of a fresh result *)

(** C4. For every [totalTokens >= 0]: the time-to-live the policy computes
    is [clamp(totalTokens * 20, 1800, 86400)] and lies between 1800 and
    86400 seconds.  It is what [generateText] writes: with caching on and
    the key of the request not in the cache, every call that is fulfilled
    with a result of that many tokens has made exactly one cache write,
    with that time-to-live, and the entry is in the cache with it; and
    there are such calls, for whenever the backend answers the first
    request with a response that has a choice and a usage of that many
    tokens, the call is fulfilled with that result and has written it. *)
Theorem cacheTTL_clamped_and_written (tokens : Z) :
  0 <= tokens ->
  cacheTTL tokens = Spec.clamp (tokens * 20) 1800 86400 /\
  1800 <= cacheTTL tokens <= 86400 /\
  forall (Number : Type) (HN : JsNumber Number) (B : Type)
         (create : ApiRequest Number -> B -> Raced ApiResponse * B)
         (random : Z -> Q) (JSON_parse : string -> Completion ResponseData)
         (params : GenerateParams Number) (st : ServiceState Number B),
    let key :=
      writeCacheKey (default "gpt-4" (p_model params))
        (default num_0_7 (p_temperature params))
        (default 1000 (p_maxTokens params)) (p_prompt params)
        (default EmptyString (p_systemPrompt params)) in
    default true (p_useCaching params) = true ->
    Js.truthy_str (Cache.get key (st_cache st)) = false ->
    (forall (r : ResponseData) (st' : ServiceState Number B),
       generateText create random JSON_parse params st =
         Some (Fulfilled r, st') ->
       totalTokens (usage r) = tokens ->
       st_writes st' =
         (st_writes st ++ [(key, JSON_stringify r, cacheTTL tokens)])%list /\
       st_cache st' !! key =
         Some {| entry_value := JSON_stringify r;
                 entry_ttl := cacheTTL tokens |}) /\
    (forall (response : ApiResponse) (generatedText : string)
            (rest : list string) (u : ApiUsage) (b' : B),
       create (chatRequest params) (st_backend st) =
         (InTime (Fulfilled response), b') ->
       choices response = generatedText :: rest ->
       api_usage response = Some u ->
       total_tokens u = tokens ->
       exists (r : ResponseData) (st' : ServiceState Number B),
         generateText create random JSON_parse params st =
           Some (Fulfilled r, st') /\
         text r = generatedText /\
         totalTokens (usage r) = tokens /\
         st_requests st' = (st_requests st ++ [chatRequest params])%list /\
         st_writes st' =
           (st_writes st ++ [(key, JSON_stringify r, cacheTTL tokens)])%list /\
         st_cache st' !! key =
           Some {| entry_value := JSON_stringify r;
                   entry_ttl := cacheTTL tokens |}).
Proof.
  intros _. split; [apply cacheTTL_clamp|]. split; [apply cacheTTL_bounds|].
  intros Number HN B create random JSON_parse params st key Hcaching Hmiss.
  split.
  - intros r st' Hrun <-.
    destruct (generateText_fresh create random JSON_parse params st st' r
                Hcaching Hmiss Hrun) as (Hw & Hc & _).
    fold key in Hw, Hc. split; [exact Hw|].
    rewrite Hc. unfold Cache.set. apply lookup_insert_eq.
  - intros response generatedText rest u b' Hcreate Hchoices Husage <-.
    eexists _, _. split.
    + exact (generateText_first_answer create random JSON_parse params st
               response generatedText rest u b' Hcaching Hmiss Hcreate
               Hchoices Husage).
    + cbn [text usage totalTokens cacheSet st_requests st_writes st_cache].
      repeat split.
      unfold Cache.set. apply lookup_insert_eq.
Qed.

(** The theorem at the scenario of section 8: the backend answers the first
    request with eight tokens, the call is fulfilled, and its one cache
    write has a time-to-live of 1800 seconds. *)
Lemma cacheTTL_clamped_and_written_witness :
  cacheTTL 8 = 1800 /\
  exists r st',
    generateText Scenario.create Scenario.random Scenario.parse
      Scenario.helloParams Scenario.emptyState = Some (Fulfilled r, st') /\
    text r = "Hi there" /\
    totalTokens (usage r) = 8 /\
    st_requests st' = ([] ++ [chatRequest Scenario.helloParams])%list /\
    st_writes st' =
      ([] ++ [(Scenario.helloKey, JSON_stringify r, cacheTTL 8)])%list /\
    st_cache st' !! Scenario.helloKey =
      Some {| entry_value := JSON_stringify r; entry_ttl := cacheTTL 8 |}.
Proof.
  destruct (cacheTTL_clamped_and_written 8 ltac:(lia)) as (Hclamp & _ & Hrun).
  split; [exact Hclamp|].
  exact (proj2 (Hrun N Tenths.number nat Scenario.create Scenario.random
                  Scenario.parse Scenario.helloParams Scenario.emptyState
                  eq_refl eq_refl)
           Scenario.hiThere "Hi there" [] _ 1%nat
           eq_refl eq_refl eq_refl eq_refl).
Defined.

(** X10. When the look-up misses and the first request fails with an error
    that is not retryable, [generateText] is rejected with the mapping of
    that error after this one request, and the cache is left alone. *)
Theorem generateText_surfaces_non_retryable `{JsNumber Number} {B : Type}
    (create : ApiRequest Number -> B -> Raced ApiResponse * B)
    (random : Z -> Q) (JSON_parse : string -> Completion ResponseData)
    (params : GenerateParams Number) (st : ServiceState Number B)
    (o : Raced ApiResponse) (e : JsError) (b' : B) :
  Js.truthy_str
    (if default true (p_useCaching params)
     then Cache.get (textKeyOf params) (st_cache st) else None) = false ->
  create (chatRequest params) (st_backend st) = (o, b') ->
  race o = Rejected e ->
  isRetryableError e = false ->
  exists st',
    generateText create random JSON_parse params st =
    Some (Rejected (thrownBy (mapToServiceError (Some e))), st') /\
    st_requests st' = (st_requests st ++ [chatRequest params])%list /\
    st_backend st' = b' /\
    st_cache st' = st_cache st /\ st_writes st' = st_writes st.
Proof.
  intros Hmiss Hcreate Hrace Hno. eexists. split.
  - exact (generateText_not_retryable create random JSON_parse params st o e b'
             Hmiss Hcreate Hrace Hno).
  - repeat split.
Qed.

(** The theorem at a backend that answers 401: one request, and the error
    [Invalid API key] with the code [UNAUTHORIZED]. *)
Lemma generateText_surfaces_non_retryable_witness :
  let e401 := {| message := "Unauthorized"; code := None;
                 response := Some {| resp_status := 401; resp_data := None |};
                 errorCode := None |} in
  let create (_ : ApiRequest N) (calls : nat) : Raced ApiResponse * nat :=
    (InTime (Rejected e401), S calls) in
  exists st',
    generateText create Scenario.random Scenario.parse Scenario.helloParams
      Scenario.emptyState =
    Some (Rejected (errorWithCode "Invalid API key" UNAUTHORIZED), st') /\
    st_requests st' =
      ([] ++ [chatRequest Scenario.helloParams])%list /\
    st_backend st' = 1%nat /\
    st_cache st' = ∅ /\ st_writes st' = [].
Proof.
  cbv zeta.
  exact (generateText_surfaces_non_retryable
           (fun _ calls =>
              (InTime (Rejected
                 {| message := "Unauthorized"; code := None;
                    response := Some {| resp_status := 401; resp_data := None |};
                    errorCode := None |}), S calls))
           Scenario.random Scenario.parse Scenario.helloParams
           Scenario.emptyState _ _ 1%nat eq_refl eq_refl eq_refl eq_refl).
Defined.

(** ** More on batches *)



(** X12. The batch path sends every model to the OpenAI service.  It agrees
    with the selection of the single-item path exactly for the model names
    that are not, in lower case, one of the six names of the other three
    services. *)
Theorem batch_selection_ignores_backends (model : string) :
  Batch.selectService model = openaiService /\
  (Batch.selectService model = Controller.selectService model <->
   Controller.toLowerCase model ∉
     ["palm"; "gemini"; "claude"; "claude-instant"; "local-llama";
      "local-mistral"]).
Proof.
  assert (Hbatch : Batch.selectService model = openaiService).
  { unfold Batch.selectService.
    destruct (_ || _); reflexivity. }
  split; [exact Hbatch|]. rewrite Hbatch.
  unfold Controller.selectService.
  set (m := Controller.toLowerCase model).
  destruct (String.eqb_spec m "gpt-4") as [->|H1].
  { cbn. split; [intros _ Hin|reflexivity].
    repeat (apply elem_of_cons in Hin as [Hin|Hin]; [discriminate|]).
    apply elem_of_nil in Hin. exact Hin. }
  destruct (String.eqb_spec m "gpt-3.5-turbo") as [->|H2].
  { cbn. split; [intros _ Hin|reflexivity].
    repeat (apply elem_of_cons in Hin as [Hin|Hin]; [discriminate|]).
    apply elem_of_nil in Hin. exact Hin. }
  cbn [orb].
  repeat match goal with
  | |- context [String.eqb m ?lit] =>
      destruct (String.eqb_spec m lit) as [E|?];
      [cbn; split; [discriminate|
         intros Hnot; exfalso; apply Hnot; rewrite E;
         repeat (first [left; reflexivity|right]); left]|]
  end.
  cbn. split; [intros _ Hin|reflexivity].
  repeat (apply elem_of_cons in Hin as [Hin|Hin]; [contradiction|]).
  apply elem_of_nil in Hin. exact Hin.
Qed.

(** ** What the retry loop does to the state of the operation *)

Section RetryFrame.

Context {A W : Type}.
Variable operation : W -> Raced A * W.
Variable random : Z -> Q.
Variable config : Config.

(** What every call of the operation preserves, the loop preserves. *)
Lemma retryLoop_preserves {X : Type} (f : W -> X) :
  (forall w o w', operation w = (o, w') -> f w' = f w) ->
  forall fuel attempt lastError w run,
    retryLoop operation random config fuel attempt lastError w = Some run ->
    f (world run) = f w.
Proof.
  intros Hop. induction fuel as [|fuel IH]; intros attempt lastError w run Hrun;
    [discriminate|].
  cbn [retryLoop] in Hrun.
  destruct (attempt <=? maxRetries config).
  2:{ injection Hrun as <-. reflexivity. }
  destruct (operation w) as [o w1] eqn:Hcall. apply Hop in Hcall.
  destruct (race o) as [v|e].
  { injection Hrun as <-. exact Hcall. }
  destruct (negb (isRetryableError e) || (attempt =? maxRetries config)).
  { injection Hrun as <-. exact Hcall. }
  destruct (retryLoop operation random config fuel (attempt + 1) (Some e) w1)
    as [r|] eqn:Hrec; [|discriminate].
  injection Hrun as <-. cbn. rewrite (IH _ _ _ _ Hrec). exact Hcall.
Qed.

(** When every call of the operation appends the same entry to a log, the
    loop appends it once per attempt. *)
Lemma retryLoop_logs {X : Type} (log : W -> list X) (entry : X) :
  (forall w o w', operation w = (o, w') -> log w' = (log w ++ [entry])%list) ->
  forall fuel attempt lastError w run,
    retryLoop operation random config fuel attempt lastError w = Some run ->
    log (world run) = (log w ++ replicate (length (attempts run)) entry)%list.
Proof.
  intros Hop. induction fuel as [|fuel IH]; intros attempt lastError w run Hrun;
    [discriminate|].
  cbn [retryLoop] in Hrun.
  destruct (attempt <=? maxRetries config).
  2:{ injection Hrun as <-. cbn. rewrite app_nil_r. reflexivity. }
  destruct (operation w) as [o w1] eqn:Hcall. apply Hop in Hcall.
  destruct (race o) as [v|e].
  { injection Hrun as <-. exact Hcall. }
  destruct (negb (isRetryableError e) || (attempt =? maxRetries config)).
  { injection Hrun as <-. exact Hcall. }
  destruct (retryLoop operation random config fuel (attempt + 1) (Some e) w1)
    as [r|] eqn:Hrec; [|discriminate].
  injection Hrun as <-. cbn.
  rewrite (IH _ _ _ _ Hrec), Hcall, <- app_assoc. reflexivity.
Qed.

End RetryFrame.

(** A run with the default configuration makes between one and three
    attempts. *)
Lemma default_run_attempts {A W : Type} (operation : W -> Raced A * W)
    (random : Z -> Q) (w : W) (run : Run A W) :
  executeWithRetry operation random noOptions w = Some run ->
  (1 <= length (attempts run) <= 3)%nat.
Proof.
  unfold executeWithRetry. intros Hrun.
  pose proof (retryLoop_attempts_le _ _ _ _ _ _ _ _ Hrun) as Hle.
  change (testsLeft (mergeConfig noOptions) 0) with 3%nat in Hle.
  destruct (retryLoop_attempts_nonempty _ _ _ _ _ _ _ _ Hrun) as (a & l & Hal);
    [cbv; discriminate|].
  rewrite Hal in *. cbn in *. lia.
Qed.

(** ** The editing service *)

Section EditFacts.

Context `{JsNumber Number} {B : Type}.
Variable num_0_5 : Number.
Variable create : EditRequest Number -> B -> Raced ApiResponse * B.
Variable random : Z -> Q.
Variable JSON_parse : string -> Completion ResponseData.

(** The key of the parameters of [editText]. *)
Local Abbreviation editKeyOf params :=
  (editCacheKey (default "gpt-4" (e_model params))
     (default num_0_5 (e_temperature params)) (e_text params)
     (e_instruction params)).

Lemma callEditBackend_frame (request : EditRequest Number)
    (st st' : EditState Number B) (o : Raced ApiResponse) :
  callEditBackend create request st = (o, st') ->
  es_cache st' = es_cache st /\ es_writes st' = es_writes st /\
  es_requests st' = (es_requests st ++ [request])%list.
Proof.
  unfold callEditBackend. destruct (create request (es_backend st)) as [o' b'].
  intros [= <- <-]. auto.
Qed.

(** [editText] settles, whatever the backend does. *)
Lemma editText_total (params : EditParams Number) (st : EditState Number B) :
  exists result st',
    editText num_0_5 create random JSON_parse params st = Some (result, st').
Proof.
  unfold editText.
  match goal with
  | |- context [if Js.truthy_str ?c then _ else _] => destruct (Js.truthy_str c)
  end; [eauto|].
  match goal with
  | |- context [executeWithRetry ?op random noOptions st] =>
      destruct (executeWithRetry_total op random noOptions st) as [run ->]
  end.
  cbn [mbind option_bind].
  match goal with
  | |- exists result st', Some ?x = Some (result, st') =>
      exists (fst x), (snd x); destruct x; reflexivity
  end.
Qed.

(** Every way a call of [editText] can end. *)
Lemma editText_effects (params : EditParams Number)
    (st st' : EditState Number B) (result : Settled ResponseData) :
  editText num_0_5 create random JSON_parse params st = Some (result, st') ->
  let found :=
    if default true (e_useCaching params)
    then Cache.get (editKeyOf params) (es_cache st) else None in
  (exists cached,
     found = Some cached /\ cached <> EmptyString /\
     result = settle (JSON_parse cached) /\ st' = st) \/
  (Js.truthy_str found = false /\
   exists n, (1 <= n <= 3)%nat /\
     es_requests st' =
       (es_requests st ++ replicate n (editRequest num_0_5 params))%list /\
     ((exists e, result = Rejected e /\
         es_cache st' = es_cache st /\ es_writes st' = es_writes st) \/
      (exists r, result = Fulfilled r /\
         default true (e_useCaching params) = false /\
         es_cache st' = es_cache st /\ es_writes st' = es_writes st) \/
      (exists r, result = Fulfilled r /\
         default true (e_useCaching params) = true /\
         es_cache st' =
           Cache.set (editKeyOf params) (JSON_stringify r) 43200 (es_cache st) /\
         es_writes st' =
           (es_writes st ++ [(editKeyOf params, JSON_stringify r, 43200)])%list))).
Proof.
  intros Hrun found. unfold editText in Hrun. fold found in Hrun.
  destruct (Js.truthy_str found) eqn:Hfound.
  - injection Hrun as <- <-. left.
    destruct found as [cached|]; [|discriminate].
    exists cached. repeat split. intros ->. discriminate.
  - right. split; [reflexivity|].
    destruct (executeWithRetry (callEditBackend create (editRequest num_0_5 params))
                random noOptions st) as [run|] eqn:Hexec; [|discriminate].
    cbn [mbind option_bind] in Hrun.
    pose proof (default_run_attempts _ _ _ _ Hexec) as Hn.
    unfold executeWithRetry in Hexec.
    pose proof (retryLoop_preserves _ random _ es_cache
                  (fun w o w' Hc => proj1 (callEditBackend_frame _ w w' o Hc))
                  _ _ _ _ _ Hexec) as Hc.
    pose proof (retryLoop_preserves _ random _ es_writes
                  (fun w o w' Hc =>
                     proj1 (proj2 (callEditBackend_frame _ w w' o Hc)))
                  _ _ _ _ _ Hexec) as Hw.
    pose proof (retryLoop_logs _ random _ es_requests _
                  (fun w o w' Hc =>
                     proj2 (proj2 (callEditBackend_frame _ w w' o Hc)))
                  _ _ _ _ _ Hexec) as Hr.
    exists (length (attempts run)). split; [exact Hn|].
    destruct (outcome run) as [response|e].
    2:{ injection Hrun as <- <-. split; [exact Hr|]. left. eauto. }
    destruct (choices response) as [|editedText rest].
    { injection Hrun as <- <-. split; [exact Hr|]. left. eauto. }
    destruct (api_usage response) as [u|].
    2:{ injection Hrun as <- <-. split; [exact Hr|]. left. eauto. }
    destruct (default true (e_useCaching params)) eqn:Hcaching.
    + injection Hrun as <- <-.
      cbn [editCacheSet es_requests es_cache es_writes].
      split; [exact Hr|]. right. right. eexists. split; [reflexivity|].
      rewrite Hc, Hw. auto.
    + injection Hrun as <- <-. split; [exact Hr|]. right. left. eauto.
Qed.

End EditFacts.

(** X13. One call of [editText] sends at most three requests, all the same.
    When it is fulfilled with a fresh result while caching is on, it writes
    that result once, under the key of its parameters and with a
    time-to-live of twelve hours whatever the size of the result; when it
    is rejected it writes nothing and leaves the cache as it was; and a
    non-empty cached text is answered without any request. *)
Theorem editText_caches_for_twelve_hours `{JsNumber Number} {B : Type}
    (num_0_5 : Number)
    (create : EditRequest Number -> B -> Raced ApiResponse * B)
    (random : Z -> Q) (JSON_parse : string -> Completion ResponseData)
    (params : EditParams Number) (st : EditState Number B) :
  let key :=
    editCacheKey (default "gpt-4" (e_model params))
      (default num_0_5 (e_temperature params)) (e_text params)
      (e_instruction params) in
  exists result st' (n : nat),
    editText num_0_5 create random JSON_parse params st = Some (result, st') /\
    (n <= 3)%nat /\
    es_requests st' =
      (es_requests st ++ replicate n (editRequest num_0_5 params))%list /\
    (forall cached,
       default true (e_useCaching params) = true ->
       Cache.get key (es_cache st) = Some cached -> cached <> EmptyString ->
       n = 0%nat /\ st' = st /\ result = settle (JSON_parse cached)) /\
    (forall r,
       result = Fulfilled r -> (0 < n)%nat ->
       default true (e_useCaching params) = true ->
       es_writes st' = (es_writes st ++ [(key, JSON_stringify r, 43200)])%list /\
       es_cache st' !! key =
         Some {| entry_value := JSON_stringify r; entry_ttl := 43200 |}) /\
    ((exists e, result = Rejected e) ->
     es_writes st' = es_writes st /\ es_cache st' = es_cache st).
Proof.
  intros key. subst key.
  destruct (editText_total num_0_5 create random JSON_parse params st)
    as (result & st' & Hrun).
  destruct (editText_effects num_0_5 create random JSON_parse params st st'
              result Hrun)
    as [(cached & Hfound & Hne & Hres & ->)
       |(Hmiss & n & Hn & Hreq &
         [(e & -> & Hc & Hw)|[(r & -> & Hoff & Hc & Hw)|(r & -> & Hon & Hc & Hw)]])].
  - exists result, st, 0%nat. split; [exact Hrun|]. split; [lia|].
    split; [cbn; rewrite app_nil_r; reflexivity|].
    split; [|split].
    + intros cached' Hon Hget Hne'. rewrite Hon, Hget in Hfound.
      injection Hfound as ->. auto.
    + intros r _ Hn. lia.
    + auto.
  - exists (Rejected e), st', n. split; [exact Hrun|]. split; [lia|].
    split; [exact Hreq|]. split; [|split].
    + intros cached Hon Hget Hne. rewrite Hon, Hget in Hmiss. cbn in Hmiss.
      destruct (String.eqb_spec cached EmptyString); [contradiction|discriminate].
    + intros r [=].
    + auto.
  - exists (Fulfilled r), st', n. split; [exact Hrun|]. split; [lia|].
    split; [exact Hreq|]. split; [|split].
    + intros cached Hon. congruence.
    + intros r' _ _ Hon. congruence.
    + intros (e & [=]).
  - exists (Fulfilled r), st', n. split; [exact Hrun|]. split; [lia|].
    split; [exact Hreq|]. split; [|split].
    + intros cached _ Hget Hne. rewrite Hon, Hget in Hmiss. cbn in Hmiss.
      destruct (String.eqb_spec cached EmptyString); [contradiction|discriminate].
    + intros r' [= <-] _ _. split; [exact Hw|].
      rewrite Hc. unfold Cache.set. apply lookup_insert_eq.
    + intros (e & [=]).
Qed.

(** An edit that is answered by the backend at once, on an empty cache. *)
Example editText_example :
  let create (_ : EditRequest N) (calls : nat) : Raced ApiResponse * nat :=
    (InTime (Fulfilled Scenario.hiThere), S calls) in
  let params := {| e_text := "helo"; e_instruction := "fix the spelling";
                   e_model := None; e_temperature := None;
                   e_useCaching := None; e_userId := None |} in
  let st := {| es_cache := ∅; es_backend := 0%nat; es_requests := [];
               es_writes := [] |} in
  exists st',
    editText 5%N create Scenario.random Scenario.parse params st =
    Some (Fulfilled Scenario.hiThereData, st') /\
    es_writes st' =
      [("openai:edit:gpt-4:0.5:aGVsbw==:Zml4IHRoZSBzcGVsbGluZw==",
        JSON_stringify Scenario.hiThereData, 43200)] /\
    es_backend st' = 1%nat.
Proof. cbv zeta. eexists. vm_compute. repeat split. Qed.

(** ** The keys of the two caches *)

Section EditKeyFacts.

Context `{JsNumber Number}.

Import Encoding EncodingFacts.

Lemma editCacheKey_chars (model : string) (temperature : Number)
    (text instruction : string) :
  chars (editCacheKey model temperature text instruction) =
  ((((chars "openai:edit:" ++ chars model) ++
     ":"%char :: chars (numberToString temperature)) ++
    ":"%char :: chars (base64 text)) ++
   ":"%char :: chars (base64 instruction))%list.
Proof.
  unfold editCacheKey. rewrite !chars_append.
  change (chars ":") with [":"%char].
  rewrite <- !app_assoc. reflexivity.
Qed.

(** No key of [editText] is a key of [generateText]: they differ in their
    eighth character. *)
Lemma edit_key_is_no_text_key (m : string) (t : Number) (x i : string)
    (m' : string) (t' : Number) (k' : Z) (p' s' : string) :
  editCacheKey m t x i <> lookupCacheKey m' t' k' p' s'.
Proof.
  intros E. apply (f_equal chars) in E.
  rewrite editCacheKey_chars, lookupCacheKey_chars in E.
  rewrite <- !app_assoc in E. cbn in E. discriminate.
Qed.

End EditKeyFacts.

(** X14. The cache key of [editText] determines the model, the
    temperature and the UTF-8 encoding of the text and of the instruction:
    two edits have the same key exactly when they agree in the first two
    and their texts, and their instructions, are equal once every unpaired
    surrogate is replaced by U+FFFD; for well-formed text that is when all
    four are equal.  Printing a number is taken to be injective and to
    write no colon. *)
Theorem editCacheKey_injective `{JsNumber Number} :
  (forall x y : Number, numberToString x = numberToString y -> x = y) ->
  (forall x : Number, Encoding.colonFree (numberToString x)) ->
  forall (m : string) (t : Number) (x i : string)
         (m' : string) (t' : Number) (x' i' : string),
    (editCacheKey m t x i = editCacheKey m' t' x' i' <->
     (m, t) = (m', t') /\
     Encoding.utf8 x = Encoding.utf8 x' /\
     Encoding.utf8 i = Encoding.utf8 i') /\
    (Encoding.wellFormed x = true -> Encoding.wellFormed x' = true ->
     Encoding.wellFormed i = true -> Encoding.wellFormed i' = true ->
     (editCacheKey m t x i = editCacheKey m' t' x' i' <->
      (m, t, x, i) = (m', t', x', i'))).
Proof.
  intros Hinj Hcolon m t x i m' t' x' i'.
  assert (Hkey : editCacheKey m t x i = editCacheKey m' t' x' i' ->
                 (m, t) = (m', t') /\
                 Encoding.utf8 x = Encoding.utf8 x' /\
                 Encoding.utf8 i = Encoding.utf8 i').
  { intros E. apply (f_equal Encoding.chars) in E.
    rewrite !editCacheKey_chars in E.
    apply EncodingFacts.split_last in E as [E Ei];
      try apply Base64Facts.base64_colonFree.
    apply EncodingFacts.split_last in E as [E Ex];
      try apply Base64Facts.base64_colonFree.
    apply EncodingFacts.split_last in E as [E Et]; try apply Hcolon.
    apply app_inv_head in E.
    apply EncodingFacts.chars_inj in E, Et, Ex, Ei.
    apply Hinj in Et. apply Base64Facts.base64_inj in Ex, Ei.
    split; [congruence|]. split; assumption. }
  split.
  - split; [exact Hkey|].
    intros ([= -> ->] & Ex & Ei). unfold editCacheKey, Encoding.base64.
    rewrite Ex, Ei. reflexivity.
  - intros Hx Hx' Hi Hi'. split.
    + intros E. destruct (Hkey E) as ([= -> ->] & Ex & Ei).
      rewrite (Base64Facts.utf8_wellFormed x Hx),
        (Base64Facts.utf8_wellFormed x' Hx') in Ex.
      rewrite (Base64Facts.utf8_wellFormed i Hi),
        (Base64Facts.utf8_wellFormed i' Hi') in Ei.
      congruence.
    + intros [= -> -> -> ->]. reflexivity.
Qed.

(** The theorem at the numbers of [Tenths], for two edits that differ in
    the instruction only. *)
Lemma editCacheKey_injective_witness :
  editCacheKey "gpt-4" 5%N "helo" "fix the spelling" =
  editCacheKey "gpt-4" 5%N "helo" "translate" <->
  ("gpt-4", 5%N, "helo", "fix the spelling") =
  ("gpt-4", 5%N, "helo", "translate").
Proof.
  apply (@editCacheKey_injective N Tenths.number
           TenthsFacts.toString_inj TenthsFacts.toString_colonFree
           "gpt-4" 5%N "helo" "fix the spelling"
           "gpt-4" 5%N "helo" "translate"); reflexivity.
Defined.

(** X15. The caches of [generateText] and [editText] do not interfere: a
    call of [generateText] leaves every entry under a key of [editText] as
    it was, and a call of [editText] leaves every entry under a key of
    [generateText] as it was. *)
Theorem text_and_edit_caches_are_disjoint `{JsNumber Number} {B : Type}
    (num_0_5 : Number)
    (create : ApiRequest Number -> B -> Raced ApiResponse * B)
    (createEdit : EditRequest Number -> B -> Raced ApiResponse * B)
    (random : Z -> Q) (JSON_parse : string -> Completion ResponseData)
    (params : GenerateParams Number) (st : ServiceState Number B)
    (edit : EditParams Number) (est : EditState Number B) :
  (exists result st',
     generateText create random JSON_parse params st = Some (result, st') /\
     forall m t x i,
       st_cache st' !! editCacheKey m t x i =
       st_cache st !! editCacheKey m t x i) /\
  (exists result est',
     editText num_0_5 createEdit random JSON_parse edit est =
       Some (result, est') /\
     forall m t k p s,
       es_cache est' !! lookupCacheKey m t k p s =
       es_cache est !! lookupCacheKey m t k p s).
Proof.
  split.
  - destruct (generateText_total create random JSON_parse params st)
      as (result & st' & Hrun).
    exists result, st'. split; [exact Hrun|]. intros m t x i.
    destruct (generateText_effects create random JSON_parse params st st'
                result Hrun)
      as [(cached & _ & _ & _ & ->)
         |(_ & n & _ & _ &
           [(e & _ & Hc & _)|[(r & _ & _ & Hc & _)|(r & _ & _ & Hc & _)]])];
      try reflexivity; try (rewrite Hc; reflexivity).
    rewrite Hc. unfold Cache.set. apply lookup_insert_ne.
    intros E. symmetry in E. exact (edit_key_is_no_text_key _ _ _ _ _ _ _ _ _ E).
  - destruct (editText_total num_0_5 createEdit random JSON_parse edit est)
      as (result & est' & Hrun).
    exists result, est'. split; [exact Hrun|]. intros m t k p s.
    destruct (editText_effects num_0_5 createEdit random JSON_parse edit est
                est' result Hrun)
      as [(cached & _ & _ & _ & ->)
         |(_ & n & _ & _ &
           [(e & _ & Hc & _)|[(r & _ & _ & Hc & _)|(r & _ & _ & Hc & _)]])];
      try reflexivity; try (rewrite Hc; reflexivity).
    rewrite Hc. unfold Cache.set. apply lookup_insert_ne.
    apply edit_key_is_no_text_key.
Qed.

(** ** Summaries *)

Section SummaryFacts.

Import Encoding EncodingFacts.

(** The system prompt of a summary tells the two kinds of format apart and
    determines the limit, and nothing else of the format. *)
Lemma summaryPrompt_inj (f1 f2 : string) (m1 m2 : Z) :
  summaryPrompt f1 m1 = summaryPrompt f2 m2 <->
  String.eqb f1 "bullets" = String.eqb f2 "bullets" /\ m1 = m2.
Proof.
  split.
  - intros E. apply (f_equal chars) in E. unfold summaryPrompt in E.
    rewrite !chars_append in E. apply app_inv_head in E.
    destruct (String.eqb f1 "bullets"), (String.eqb f2 "bullets");
      try (cbn in E; discriminate).
    + apply app_inv_head, app_inv_head, app_inv_tail, chars_inj, showZ_inj in E.
      auto.
    + apply app_inv_head, app_inv_head, app_inv_tail, chars_inj, showZ_inj in E.
      auto.
  - intros [Hf ->]. unfold summaryPrompt. rewrite Hf. reflexivity.
Qed.

(** The system prompt of a summary is well-formed text: [Buffer.from]
    leaves it as it is. *)
Lemma summaryPrompt_utf8 (format : string) (maxLength : Z) :
  utf8 (summaryPrompt format maxLength) = summaryPrompt format maxLength.
Proof.
  apply Base64Facts.utf8_wellFormed, Base64Facts.wellFormed_without_lead.
  unfold summaryPrompt. rewrite !chars_append, !Forall_app.
  assert (Hlit : forall s : string,
            forallb (fun c => negb (N_of_ascii c =? 237)%N) (chars s) = true ->
            Forall (fun c => N_of_ascii c <> 237%N) (chars s)).
  { intros s Hs. apply Forall_forall. intros c Hc.
    rewrite forallb_forall in Hs. apply list_elem_of_In in Hc.
    specialize (Hs c Hc). apply negb_true_iff, N.eqb_neq in Hs. exact Hs. }
  split; [apply Hlit; reflexivity|].
  split; [destruct (String.eqb format "bullets"); apply Hlit; reflexivity|].
  split; [apply Hlit; reflexivity|].
  split; [|apply Hlit; reflexivity].
  apply Forall_forall. intros c Hc E.
  apply showZ_numerals in Hc. unfold isNumeral in Hc.
  rewrite E in Hc. discriminate.
Qed.

End SummaryFacts.

(** X16. Two summaries can share a cache entry only if the texts they
    summarise have the same UTF-8 encoding (for well-formed texts: are the
    same text) and they have the same limit and the same kind of format,
    where only [bullets] differs from all other formats; and if the text,
    the limit, the kind of format, the model and the temperature agree,
    they do share it, whatever else differs (the user, the name of a
    format that is not [bullets]). *)
Theorem summarizeText_cache_sharing `{JsNumber Number} (num_0_5 : Number)
    (p1 p2 : SummarizeParams Number) :
  let bullets (p : SummarizeParams Number) :=
    String.eqb (default "paragraph" (s_format p)) "bullets" in
  let limit (p : SummarizeParams Number) := default 150 (s_maxLength p) in
  (textKeyOf (summarizeCall num_0_5 p1) = textKeyOf (summarizeCall num_0_5 p2) ->
   Encoding.utf8 (s_text p1) = Encoding.utf8 (s_text p2) /\
   (Encoding.wellFormed (s_text p1) = true ->
    Encoding.wellFormed (s_text p2) = true -> s_text p1 = s_text p2) /\
   limit p1 = limit p2 /\ bullets p1 = bullets p2) /\
  (s_text p1 = s_text p2 -> limit p1 = limit p2 -> bullets p1 = bullets p2 ->
   default "gpt-3.5-turbo" (s_model p1) = default "gpt-3.5-turbo" (s_model p2) ->
   default num_0_5 (s_temperature p1) = default num_0_5 (s_temperature p2) ->
   textKeyOf (summarizeCall num_0_5 p1) = textKeyOf (summarizeCall num_0_5 p2)).
Proof.
  intros bullets limit. unfold textKeyOf, summarizeCall.
  cbn [p_model p_temperature p_maxTokens p_prompt p_systemPrompt default
       from_option id].
  split.
  - intros E. apply (f_equal Encoding.chars) in E.
    rewrite !lookupCacheKey_chars in E.
    apply EncodingFacts.split_last in E as [E Es];
      try apply Base64Facts.base64_colonFree.
    apply EncodingFacts.split_last in E as [_ Ep];
      try apply Base64Facts.base64_colonFree.
    apply EncodingFacts.chars_inj, Base64Facts.base64_inj in Es, Ep.
    rewrite !summaryPrompt_utf8 in Es.
    apply summaryPrompt_inj in Es as [Hf Hm].
    split; [exact Ep|]. split; [|auto].
    intros H1 H2.
    rewrite (Base64Facts.utf8_wellFormed _ H1),
      (Base64Facts.utf8_wellFormed _ H2) in Ep.
    exact Ep.
  - intros Ht Hm Hf Hmodel Htemp.
    fold (limit p1). fold (limit p2). rewrite Ht, Hm, Hmodel, Htemp.
    rewrite (proj2 (summaryPrompt_inj (default "paragraph" (s_format p1))
                      (default "paragraph" (s_format p2))
                      (limit p2) (limit p2)) (conj Hf eq_refl)).
    reflexivity.
Qed.

Example summaryPrompt_example :
  Encoding.chars (summaryPrompt "bullets" 150) =
  Encoding.chars
    "总结以下文本，创建一个要点列表。总结应包含最重要的信息，不超过150个单词。" /\
  summaryPrompt "paragraph" 150 = summaryPrompt "table" 150.
Proof. split; reflexivity. Qed.

(** ** The model list *)

Lemma gpt_is_no_prototype_key (id : string) :
  String.prefix "gpt-" id = true ->
  existsb (String.eqb id) objectPrototypeKeys = false.
Proof.
  intros Hgpt. unfold objectPrototypeKeys. cbn [existsb].
  repeat match goal with
  | |- context [String.eqb id ?k] =>
      destruct (String.eqb_spec id k) as [E|_];
      [rewrite E in Hgpt; discriminate|]
  end.
  reflexivity.
Qed.

(** For a model of the GPT family the two helper look-ups give a text and
    a number of the tables, never a member of [Object.prototype]. *)
Lemma describeModel_wellformed (id : string) :
  String.prefix "gpt-" id = true ->
  (exists d, getModelDescription id = Plain d /\ d <> EmptyString) /\
  (exists n, getModelMaxTokens id = Plain n /\
             n ∈ [4096; 8192; 16384; 32768]).
Proof.
  intros Hgpt. apply gpt_is_no_prototype_key in Hgpt.
  unfold getModelDescription, getModelMaxTokens, getProperty.
  rewrite Hgpt. split.
  - unfold descriptions. cbn [ownProperty].
    repeat match goal with
    | |- context [String.eqb ?k id] =>
        destruct (String.eqb k id);
        [eexists; split; [reflexivity|discriminate]|]
    end.
    eexists; split; [reflexivity|discriminate].
  - unfold tokenLimits. cbn [ownProperty].
    repeat match goal with
    | |- context [String.eqb ?k id] =>
        destruct (String.eqb k id);
        [eexists; split; [reflexivity|
           repeat (first [left; reflexivity|right])]|]
    end.
    eexists; split; [reflexivity|left].
Qed.

(** Outside the GPT family the look-up can hit a member of
    [Object.prototype]. *)
Example getModelMaxTokens_examples :
  getModelMaxTokens "gpt-4-32k" = Plain 32768 /\
  getModelMaxTokens "gpt-5" = Plain 4096 /\
  getModelMaxTokens "constructor" = ProtoMember "constructor".
Proof. repeat split. Qed.

(** X17. [getSupportedModels] never fails and asks the backend at most
    three times.  Every model it lists has an id that starts with [gpt-],
    the type [text], a non-empty description and a token limit of 4096,
    8192, 16384 or 32768, none of them a member inherited from
    [Object.prototype].  When the backend fails, or its answer has no
    [data], the list is the two hard-coded models. *)
Theorem getSupportedModels_wellformed {B : Type}
    (listModels : B -> Raced ModelsPage * B) (random : Z -> Q) (b : B) :
  exists models run,
    executeWithRetry listModels random noOptions b = Some run /\
    getSupportedModels listModels random b = Some (models, world run) /\
    (length (attempts run) <= 3)%nat /\
    (forall m, m ∈ models ->
       String.prefix "gpt-" (mi_id m) = true /\ mi_type m = "text" /\
       (exists d, mi_description m = Plain d /\ d <> EmptyString) /\
       (exists n, mi_maxTokens m = Plain n /\
                  n ∈ [4096; 8192; 16384; 32768])) /\
    ((exists e, outcome run = Rejected e) \/
     (exists page, outcome run = Fulfilled page /\ page_data page = None) ->
     models = fallbackModels).
Proof.
  destruct (executeWithRetry_total listModels random noOptions b) as [run Hrun].
  pose proof (default_run_attempts _ _ _ _ Hrun) as Hn.
  assert (Hfallback : forall m, m ∈ fallbackModels ->
            String.prefix "gpt-" (mi_id m) = true /\ mi_type m = "text" /\
            (exists d, mi_description m = Plain d /\ d <> EmptyString) /\
            (exists n, mi_maxTokens m = Plain n /\
                       n ∈ [4096; 8192; 16384; 32768])).
  { intros m Hin. unfold fallbackModels in Hin.
    apply elem_of_cons in Hin as [->|Hin].
    - cbn. repeat split.
      + eexists; split; [reflexivity|discriminate].
      + eexists; split; [reflexivity|right; left].
    - apply list_elem_of_singleton in Hin as ->. cbn. repeat split.
      + eexists; split; [reflexivity|discriminate].
      + eexists; split; [reflexivity|left]. }
  unfold getSupportedModels. rewrite Hrun. cbn [mbind option_bind].
  destruct (outcome run) as [page|e] eqn:Hout.
  - destruct (page_data page) as [data|] eqn:Hdata.
    + eexists _, run. split; [reflexivity|]. split; [reflexivity|].
      split; [lia|]. split.
      * intros m Hin. apply list_elem_of_fmap in Hin as (id & -> & Hid).
        apply list_elem_of_In, filter_In in Hid as [_ Hgpt].
        cbn [describeModel mi_id mi_type mi_description mi_maxTokens].
        destruct (describeModel_wellformed id Hgpt) as [Hd Hm]. auto.
      * intros [(e & He)|(page' & Hp & Hnone)]; [congruence|].
        rewrite Hout in Hp. injection Hp as <-. congruence.
    + eexists _, run. split; [reflexivity|]. split; [reflexivity|].
      split; [lia|]. split; [exact Hfallback|reflexivity].
  - eexists _, run. split; [reflexivity|]. split; [reflexivity|].
    split; [lia|]. split; [exact Hfallback|reflexivity].
Qed.

Example getSupportedModels_example :
  let listModels (calls : nat) : Raced ModelsPage * nat :=
    (InTime (Fulfilled
       {| page_data := Some ["gpt-4"; "whisper-1"; "gpt-3.5-turbo-16k";
                             "text-embedding-ada-002"] |}), S calls) in
  exists models,
    getSupportedModels listModels Scenario.random 0%nat = Some (models, 1%nat) /\
    mi_id <$> models = ["gpt-4"; "gpt-3.5-turbo-16k"] /\
    mi_maxTokens <$> models = [Plain 8192; Plain 16384].
Proof. cbv zeta. eexists. repeat split. Qed.

(** ** The health check *)

(** X18. [healthCheck] never fails and asks the backend at most three
    times.  It reports [healthy] exactly when its last attempt succeeded;
    otherwise it reports [unhealthy] together with the message of the
    mapped error of the last attempt. *)
Theorem healthCheck_reports {B M : Type}
    (retrieve : string -> B -> Raced M * B) (random : Z -> Q) (b : B) :
  exists report run,
    executeWithRetry (retrieve "gpt-3.5-turbo") random
      {| opt_maxRetries := None; opt_retryDelay := None;
         opt_timeout := Some 5000 |} b = Some run /\
    healthCheck retrieve random b = Some (report, world run) /\
    (1 <= length (attempts run) <= 3)%nat /\
    provider report = "openai" /\
    (status report = "healthy" <->
     exists v, last (attempts run) = Some (Fulfilled v)) /\
    (status report = "healthy" /\ health_error report = None \/
     status report = "unhealthy" /\
     exists e, last (attempts run) = Some (Rejected e) /\
               health_error report =
               Some (message (thrownBy (mapToServiceError (Some e))))).
Proof.
  set (options := {| opt_maxRetries := None; opt_retryDelay := None;
                     opt_timeout := Some 5000 |}).
  destruct (executeWithRetry_total (retrieve "gpt-3.5-turbo") random options b)
    as [run Hrun].
  unfold healthCheck. fold options. rewrite Hrun. cbn [mbind option_bind].
  pose proof Hrun as Hloop. unfold executeWithRetry in Hloop.
  pose proof (retryLoop_attempts_le _ _ _ _ _ _ _ _ Hloop) as Hle.
  change (testsLeft (mergeConfig options) 0) with 3%nat in Hle.
  destruct (retryLoop_attempts_nonempty _ _ _ _ _ _ _ _ Hloop) as (a & l & Hal);
    [cbv; discriminate|].
  pose proof (retryLoop_outcome _ _ _ _ _ _ _ _ Hloop) as Hout.
  assert (Hlen : (1 <= length (attempts run) <= 3)%nat).
  { rewrite Hal in *. cbn in *. lia. }
  destruct (last (attempts run)) as [[v|e]|] eqn:Hlast.
  - rewrite Hout. eexists _, run. split; [reflexivity|].
    split; [reflexivity|]. split; [exact Hlen|]. cbn.
    split; [reflexivity|]. split; [split; eauto|]. left. auto.
  - rewrite Hout. eexists _, run. split; [reflexivity|].
    split; [reflexivity|]. split; [exact Hlen|]. cbn.
    split; [reflexivity|]. split.
    + split; [discriminate|intros (v & Hv); congruence].
    + right. split; [reflexivity|]. exists e. split; [exact Hlast|reflexivity].
  - apply last_None in Hlast. rewrite Hal in Hlast. discriminate.
Qed.

(** ** The [generateText] handler *)

Section HandlerFacts.

Context `{JsNumber Number}.
Variable findOne : string -> Settled (option (UserPreference Number)).
Variable callService : GenerationService -> GenerateParams Number ->
                       Settled ResponseData.
Variable createProject : ProjectDoc -> Settled ProjectDoc.
Variable uuid : string.
Variable substring50 : string -> string.

Local Abbreviation handler :=
  (Handler.generateText findOne callService createProject uuid substring50).

(** Case analysis on everything the handler branches on. *)
Ltac handler_cases request :=
  unfold Handler.generateText, Handler.generateWith, Handler.handleError;
  destruct (length (hr_errors request) =? 0)%nat eqn:Herrors; cbn [negb];
  [destruct (String.eqb (Controller.userIdOf (hr_user request)) "anonymous");
   [|destruct (findOne (Controller.userIdOf (hr_user request)))
       as [userPreference|lookupError]];
   [match goal with
    | |- context [callService ?s ?p] =>
        destruct (callService s p) as [generationResult|serviceError] eqn:Hcall
    end;
    [destruct (saveAsProject (default noHandlerOptions (hr_options request)))
       eqn:Hsave;
     [match goal with
      | |- context [createProject ?d] =>
          destruct (createProject d) as [projectRecord|projectError]
      end|]|]..|]|];
  repeat match goal with
  | |- context [Js.is_str (code ?e) ?lit] =>
      destruct (Js.is_str (code e) lit) eqn:?
  end;
  cbn [hd_reply hd_next hd_lookups hd_calls hd_metrics hd_projects
       Handler.createMetricsRecord app].

(** X19. Whatever the stores and the service do, the handler answers a
    request exactly once, with a reply or by handing the error to [next];
    it looks up preferences, calls a service and records metrics at most
    once each.  A request with validation errors is answered with them and
    causes nothing else.  Metrics are recorded exactly when the service
    call was fulfilled, always as successful; a project is handed to the
    store only after that, and only if the request asked for it.  An error
    reply is the 400 of the context length or the 503 of an unavailable
    model; every other error goes to [next]. *)
Theorem handler_invariants (request : HandlerRequest Number) :
  let run := handler request in
  (hd_reply run = None <-> is_Some (hd_next run)) /\
  (length (hd_lookups run) <= 1 /\ length (hd_calls run) <= 1 /\
   length (hd_metrics run) <= 1 /\ length (hd_projects run) <= 1)%nat /\
  (hr_errors request <> [] ->
   run = {| hd_reply := Some (ReplyInvalid (hr_errors request) VALIDATION_ERROR);
            hd_next := None; hd_lookups := []; hd_calls := [];
            hd_metrics := []; hd_projects := [] |}) /\
  (length (hd_metrics run) = 1%nat <->
   exists service params generationResult,
     hd_calls run = [(service, params)] /\
     callService service params = Fulfilled generationResult) /\
  (forall record, record ∈ hd_metrics run ->
     successful record = true /\ gm_operation record = "text_generation") /\
  (hd_projects run <> [] ->
   saveAsProject (default noHandlerOptions (hr_options request)) = true /\
   length (hd_metrics run) = 1%nat) /\
  (forall httpStatus message errorCode,
     hd_reply run = Some (ReplyFailed httpStatus message errorCode) ->
     httpStatus = 400 /\ errorCode = CONTEXT_LENGTH_EXCEEDED \/
     httpStatus = 503 /\ errorCode = MODEL_UNAVAILABLE) /\
  (forall error, hd_next run = Some error ->
     Js.is_str (code error) "context_length_exceeded" = false /\
     Js.is_str (code error) "model_not_available" = false).
Proof.
  intros run. subst run.
  assert (Herr : (length (hr_errors request) =? 0)%nat = true ->
                 hr_errors request <> [] -> False).
  { intros Hlen Hne. apply Nat.eqb_eq in Hlen.
    destruct (hr_errors request); [contradiction|discriminate]. }
  handler_cases request.
  all: repeat split.
  all: try (intros Hne; exfalso; exact (Herr eq_refl Hne)).
  all: try (cbn; lia).
  all: try discriminate.
  all: try (intros [? ?]; discriminate).
  all: try (intros (? & ? & ? & [=] & ?); fail).
  all: try (intros _; eexists _, _, _; split; [reflexivity|eassumption]).
  all: try (match goal with
            | Hin : _ ∈ [_] |- _ =>
                apply list_elem_of_singleton in Hin; subst; reflexivity
            end).
  all: try (match goal with
            | Hin : _ ∈ [] |- _ => apply elem_of_nil in Hin; contradiction
            end).
  all: try (intros; congruence).
  all: try (intros _; eauto; fail).
  all: try (intros ? ? ? [= <- <- <-]; auto; fail).
  all: try (intros ? [= <-]; assumption).
  all: try (intros (? & ? & ? & [= <- <-] & ?); congruence).
Qed.

(** The three ways through the handler: rejected by validation, failed in
    the look-up of the preferences, or on to the service call. *)
Lemma handler_ways (request : HandlerRequest Number) :
  let options := default noHandlerOptions (hr_options request) in
  let userId := Controller.userIdOf (hr_user request) in
  hr_errors request <> [] /\
  handler request =
    {| hd_reply := Some (ReplyInvalid (hr_errors request) VALIDATION_ERROR);
       hd_next := None; hd_lookups := []; hd_calls := [];
       hd_metrics := []; hd_projects := [] |} \/
  hr_errors request = [] /\
  (exists error,
     userId <> "anonymous" /\ findOne userId = Rejected error /\
     handler request = Handler.handleError error [userId] [] [] []) \/
  hr_errors request = [] /\
  (exists lookups userPreference,
     (userId = "anonymous" /\ lookups = [] /\ userPreference = None \/
      userId <> "anonymous" /\ lookups = [userId] /\
      findOne userId = Fulfilled userPreference) /\
     handler request =
       Handler.generateWith callService createProject uuid substring50
         request options userId lookups userPreference).
Proof.
  intros options userId. subst options userId. unfold Handler.generateText.
  destruct (hr_errors request) as [|e errors] eqn:Herrors; cbn [length Nat.eqb negb].
  - right.
    destruct (String.eqb_spec (Controller.userIdOf (hr_user request))
                "anonymous") as [Hanon|Huser].
    + right. split; [reflexivity|]. exists [], None. split; [|reflexivity].
      left. auto.
    + destruct (findOne (Controller.userIdOf (hr_user request)))
        as [userPreference|error] eqn:Hfind.
      * right. split; [reflexivity|].
        exists [Controller.userIdOf (hr_user request)], userPreference.
        split; [|reflexivity]. right. auto.
      * left. split; [reflexivity|]. exists error. auto.
  - left. split; [discriminate|reflexivity].
Qed.

(** What a rejected service call leaves of the handler. *)
Lemma handler_after_rejection (request : HandlerRequest Number)
    (service : GenerationService) (params : GenerateParams Number)
    (error : JsError) :
  hd_calls (handler request) = [(service, params)] ->
  callService service params = Rejected error ->
  handler request =
  Handler.handleError error (hd_lookups (handler request))
    [(service, params)] [] [].
Proof.
  destruct (handler_ways request)
    as [[_ ->]|[(_ & e & _ & _ & ->)|(_ & lookups & pref & _ & ->)]].
  - discriminate.
  - unfold Handler.handleError. discriminate.
  - unfold Handler.generateWith.
    match goal with
    | |- context [callService ?s ?p] =>
        destruct (callService s p) as [generationResult|serviceError] eqn:Hcall
    end.
    + destruct (saveAsProject (default noHandlerOptions (hr_options request))).
      * match goal with
        | |- context [createProject ?d] => destruct (createProject d)
        end; cbn [hd_calls Handler.handleError hd_lookups];
        intros [= <- <-]; congruence.
      * cbn [hd_calls]. intros [= <- <-]. congruence.
    + cbn [hd_calls Handler.handleError hd_lookups].
      intros [= <- <-]. rewrite Hcall. intros [= ->]. reflexivity.
Qed.

(** X20. A reply with a generated text names the model by which the
    service was selected; its text and token count are those of the one,
    fulfilled, service call.  The model sent to that service is the one of
    [options], if it has one, and the named model otherwise; a project
    identifier is only reported when the request asked for a project. *)
Theorem handler_reply_names_selecting_model (request : HandlerRequest Number)
    (replyText replyModel : string) (tokensUsed : Z)
    (replyProject : option string) :
  hd_reply (handler request) =
    Some (ReplyGenerated replyText replyModel tokensUsed replyProject) ->
  let options := default noHandlerOptions (hr_options request) in
  exists params generationResult,
    hd_calls (handler request) =
      [(Controller.selectService replyModel, params)] /\
    callService (Controller.selectService replyModel) params =
      Fulfilled generationResult /\
    replyText = text generationResult /\
    tokensUsed = totalTokens (usage generationResult) /\
    p_model params = Some (default replyModel (ho_model options)) /\
    (is_Some replyProject -> saveAsProject options = true).
Proof.
  assert (HorZ : forall n, orZ (Some n) 0 = n).
  { intros n. unfold orZ. destruct (Z.eqb_spec n 0); congruence. }
  intros Hreply options. subst options. revert Hreply.
  destruct (handler_ways request)
    as [[_ ->]|[(_ & e & _ & _ & ->)|(_ & lookups & pref & _ & ->)]].
  - discriminate.
  - unfold Handler.handleError. cbn [hd_reply].
    repeat match goal with
    | |- context [Js.is_str ?c ?lit] => destruct (Js.is_str c lit)
    end; discriminate.
  - unfold Handler.generateWith.
    match goal with
    | |- context [callService ?s ?p] =>
        destruct (callService s p) as [generationResult|serviceError] eqn:Hcall
    end.
    + destruct (saveAsProject (default noHandlerOptions (hr_options request)))
        eqn:Hsave.
      * match goal with
        | |- context [createProject ?d] =>
            destruct (createProject d) as [projectRecord|projectError]
        end.
        -- cbn [hd_reply hd_calls]. intros [= <- <- <- <-].
           eexists _, generationResult.
           repeat split; [exact Hcall|apply HorZ].
        -- unfold Handler.handleError. cbn [hd_reply].
           repeat match goal with
           | |- context [Js.is_str ?c ?lit] => destruct (Js.is_str c lit)
           end; discriminate.
      * cbn [hd_reply hd_calls]. intros [= <- <- <- <-].
        eexists _, generationResult.
        repeat split; [exact Hcall|apply HorZ|].
        intros [? [=]].
    + unfold Handler.handleError. cbn [hd_reply].
      repeat match goal with
      | |- context [Js.is_str ?c ?lit] => destruct (Js.is_str c lit)
      end; discriminate.
Qed.

(** X21. A request without a signed-in user never consults the preference
    store, whatever its opt-in flags say: the service is selected by the
    model of the request, and temperature and system prompt are the
    request's own unless [options] itself carries others. *)
Theorem handler_anonymous_uses_no_preferences (request : HandlerRequest Number) :
  hr_errors request = [] ->
  Controller.userIdOf (hr_user request) = "anonymous" ->
  let options := default noHandlerOptions (hr_options request) in
  hd_lookups (handler request) = [] /\
  exists params,
    hd_calls (handler request) =
      [(Controller.selectService (default "gpt-4" (hr_model request)),
        params)] /\
    p_temperature params =
      Some (default (default num_0_7 (hr_temperature request))
              (ho_temperature options)) /\
    p_systemPrompt params =
      Some (default (orStr (hr_systemPrompt request) EmptyString)
              (ho_systemPrompt options)) /\
    p_userId params = Some (default "anonymous" (ho_userId options)).
Proof.
  intros Hvalid Hanon options. subst options.
  destruct (handler_ways request)
    as [[Hne _]|[(_ & e & Hne & _)|(_ & lookups & pref & Hpref & ->)]];
    [contradiction..|].
  destruct Hpref as [(_ & -> & ->)|(Hne & _)]; [|contradiction].
  rewrite Hanon. unfold Handler.generateWith.
  match goal with
  | |- context [callService ?s ?p] => destruct (callService s p)
  end.
  - destruct (saveAsProject (default noHandlerOptions (hr_options request))).
    + match goal with
      | |- context [createProject ?d] => destruct (createProject d)
      end; (split; [reflexivity|]); eexists; repeat split.
    + split; [reflexivity|]. eexists. repeat split.
  - split; [reflexivity|]. eexists. repeat split.
Qed.

End HandlerFacts.

(** The theorem at a request for [claude] whose options carry the model
    [gpt-4]: the Anthropic service is called, with the model [gpt-4], and
    the reply names [claude]. *)
Lemma handler_reply_names_selecting_model_witness :
  let request : HandlerRequest N :=
    {| hr_errors := []; hr_prompt := "Hello"; hr_model := Some "claude";
       hr_temperature := None; hr_maxTokens := None; hr_systemPrompt := None;
       hr_options :=
         Some {| ho_flags := emptyOptions; saveAsProject := false;
                 projectTitle := None; ho_prompt := None;
                 ho_systemPrompt := None; ho_temperature := None;
                 ho_maxTokens := None; ho_userId := None;
                 ho_model := Some "gpt-4"; ho_useCaching := None;
                 ho_topP := None; ho_frequencyPenalty := None;
                 ho_presencePenalty := None |};
       hr_user := None |} in
  let run :=
    Handler.generateText (fun _ => Fulfilled None)
      (fun _ _ => Fulfilled Scenario.hiThereData) (fun doc => Fulfilled doc)
      "0000" (fun s => s) request in
  exists params generationResult,
    hd_calls run = [(anthropicService, params)] /\
    Fulfilled Scenario.hiThereData = Fulfilled generationResult /\
    "Hi there" = text generationResult /\
    8 = totalTokens (usage generationResult) /\
    p_model params = Some "gpt-4" /\
    (is_Some (@None string) -> false = true).
Proof.
  cbv zeta.
  refine (handler_reply_names_selecting_model (fun _ => Fulfilled None)
            (fun _ _ => Fulfilled Scenario.hiThereData)
            (fun doc => Fulfilled doc) "0000" (fun s => s)
            _ "Hi there" "claude" 8 None _).
  reflexivity.
Defined.

(** The theorem at a request without a user that opts in to every
    preference. *)
Lemma handler_anonymous_uses_no_preferences_witness :
  let request : HandlerRequest N :=
    {| hr_errors := []; hr_prompt := "Hello"; hr_model := Some "gemini";
       hr_temperature := None; hr_maxTokens := None; hr_systemPrompt := None;
       hr_options :=
         Some {| ho_flags := {| usePreferredModel := true;
                                usePreferredSettings := true |};
                 saveAsProject := false;
                 projectTitle := None; ho_prompt := None;
                 ho_systemPrompt := None; ho_temperature := None;
                 ho_maxTokens := None; ho_userId := None;
                 ho_model := None; ho_useCaching := None;
                 ho_topP := None; ho_frequencyPenalty := None;
                 ho_presencePenalty := None |};
       hr_user := None |} in
  let run :=
    Handler.generateText
      (fun _ => Fulfilled (Some {| preferredModel := Some "claude";
                                   defaultTemperature := Some 2%N;
                                   defaultSystemPrompt := Some "Be brief." |}))
      (fun _ _ => Fulfilled Scenario.hiThereData) (fun doc => Fulfilled doc)
      "0000" (fun s => s) request in
  hd_lookups run = [] /\
  exists params,
    hd_calls run = [(palmService, params)] /\
    p_temperature params = Some 7%N /\
    p_systemPrompt params = Some EmptyString /\
    p_userId params = Some "anonymous".
Proof.
  cbv zeta.
  refine (handler_anonymous_uses_no_preferences
           (fun _ => Fulfilled (Some {| preferredModel := Some "claude";
                                        defaultTemperature := Some 2%N;
                                        defaultSystemPrompt := Some "Be brief." |}))
           (fun _ _ => Fulfilled Scenario.hiThereData)
           (fun doc => Fulfilled doc) "0000" (fun s => s) _ _ _);
    reflexivity.
Defined.

(** ** From the backend to the reply *)

(** X22. The handler in front of the OpenAI service: when the service call
    of the handler misses the cache and the backend answers the first
    request with a status 400 that carries the context-length code, in an
    error that is not retryable, the handler replies with status 400 and
    [CONTEXT_LENGTH_EXCEEDED]; nothing goes to [next], no metrics are
    recorded and no project is stored. *)
Theorem handler_context_length_end_to_end `{JsNumber Number} {B : Type}
    (create : ApiRequest Number -> B -> Raced ApiResponse * B)
    (random : Z -> Q) (JSON_parse : string -> Completion ResponseData)
    (findOne : string -> Settled (option (UserPreference Number)))
    (callService : GenerationService -> GenerateParams Number ->
                   Settled ResponseData)
    (createProject : ProjectDoc -> Settled ProjectDoc)
    (uuid : string) (substring50 : string -> string)
    (request : HandlerRequest Number) (st : ServiceState Number B)
    (params : GenerateParams Number) (o : Raced ApiResponse) (e : JsError)
    (resp : HttpResponse) (b' : B) :
  let run :=
    Handler.generateText findOne callService createProject uuid substring50
      request in
  (exists st',
     generateText create random JSON_parse params st =
     Some (callService openaiService params, st')) ->
  hd_calls run = [(openaiService, params)] ->
  Js.truthy_str
    (if default true (p_useCaching params)
     then Cache.get (textKeyOf params) (st_cache st) else None) = false ->
  create (chatRequest params) (st_backend st) = (o, b') ->
  race o = Rejected e ->
  isRetryableError e = false ->
  response e = Some resp ->
  Spec.isContextLength400 resp = true ->
  hd_reply run =
    Some (ReplyFailed 400
            "The provided prompt is too long for the selected model."
            CONTEXT_LENGTH_EXCEEDED) /\
  hd_next run = None /\ hd_metrics run = [] /\ hd_projects run = [].
Proof.
  intros run [st' Hservice] Hcalls Hmiss Hcreate Hrace Hno Hresp Hctx.
  subst run.
  rewrite (generateText_not_retryable create random JSON_parse params st o e b'
             Hmiss Hcreate Hrace Hno) in Hservice.
  rewrite (mapToServiceError_context_length e resp Hresp Hctx) in Hservice.
  cbn [thrownBy] in Hservice.
  injection Hservice as Hrejected _. symmetry in Hrejected.
  rewrite (handler_after_rejection findOne callService createProject uuid
             substring50 request openaiService params _ Hcalls Hrejected).
  repeat split.
Qed.

(** The theorem at an anonymous request for [gpt-4] and a backend that
    answers every request with the status 400 of the context length. *)
Lemma handler_context_length_end_to_end_witness :
  let tooLong :=
    {| message := "Request failed with status code 400"; code := None;
       response :=
         Some {| resp_status := 400;
                 resp_data :=
                   Some {| body_error :=
                     Some {| body_code := Some "context_length_exceeded" |} |} |};
       errorCode := None |} in
  let create (_ : ApiRequest N) (calls : nat) : Raced ApiResponse * nat :=
    (InTime (Rejected tooLong), S calls) in
  let callService (_ : GenerationService) (params : GenerateParams N) :=
    match generateText create Scenario.random Scenario.parse params
            Scenario.emptyState with
    | Some (result, _) => result
    | None => Rejected (newError "unreachable")
    end in
  let request : HandlerRequest N :=
    {| hr_errors := []; hr_prompt := "Hello"; hr_model := None;
       hr_temperature := None; hr_maxTokens := None; hr_systemPrompt := None;
       hr_options := None; hr_user := None |} in
  let run :=
    Handler.generateText (fun _ => Fulfilled None) callService
      (fun doc => Fulfilled doc) "0000" (fun s => s) request in
  hd_reply run =
    Some (ReplyFailed 400
            "The provided prompt is too long for the selected model."
            CONTEXT_LENGTH_EXCEEDED) /\
  hd_next run = None /\ hd_metrics run = [] /\ hd_projects run = [].
Proof.
  cbv zeta.
  refine (handler_context_length_end_to_end
            (fun _ calls =>
               (InTime (Rejected
                  {| message := "Request failed with status code 400";
                     code := None;
                     response :=
                       Some {| resp_status := 400;
                               resp_data :=
                                 Some {| body_error :=
                                   Some {| body_code :=
                                     Some "context_length_exceeded" |} |} |};
                     errorCode := None |}), S calls))
            Scenario.random Scenario.parse (fun _ => Fulfilled None) _
            (fun doc => Fulfilled doc) "0000" (fun s => s) _
            Scenario.emptyState
            {| p_prompt := "Hello"; p_systemPrompt := Some EmptyString;
               p_temperature := Some 7%N; p_maxTokens := Some 1000;
               p_model := Some "gpt-4"; p_userId := Some "anonymous";
               p_useCaching := None; p_topP := None;
               p_frequencyPenalty := None; p_presencePenalty := None |}
            _ _ _ 1%nat _ _ eq_refl eq_refl eq_refl eq_refl eq_refl eq_refl).
  - eexists. vm_compute. reflexivity.
  - vm_compute. reflexivity.
Defined.
